(** * exam-ace: grading, scoring and signup

    A shallow embedding of the scoring code of the student pages
    (results list, report card, submission detail) and of the
    [handle_new_user] trigger of the migrations, with the properties the
    specification states about them.

    Conventions of the embedding:
    - a JavaScript [number] is an IEEE 754 binary64 value; a finite one is
      written as the rational ([Q]) it denotes, and [JsNum.number] adds
      [Infinity], [-Infinity] and [NaN]; the results of [/], [*] and of
      the [+] of the report card are rounded to the nearest binary64
      value, ties to even, and overflow to an infinity ([JsNum.round64]);
      the numbers of the tables are binary64 values ([JsNum.literal]
      gives the one a decimal denotes); the sign of zero is not modelled;
    - the sum of the marks of a save is written with the [+] of [Q],
      which is the binary64 sum as long as that one is exact (marks that
      are whole numbers, or halves and quarters, below [2^53]);
    - a table is the list of its rows; a query is a [filter] and a [map];
    - a request to the backend that may fail takes its outcome from an
      explicit fault oracle. *)

From Stdlib Require Import QArith Qround Qpower Lqa ZArith List Permutation
  Sorted String Bool Lia Floats.
Import ListNotations.
Open Scope string_scope.
Open Scope Q_scope.

(* ------------------------------------------------------------------ *)
(** ** JavaScript numbers *)

Module JsNum.

Inductive number : Type :=
| Fin (q : Q)
| PosInf
| NegInf
| NaN.

Definition Qlt_bool (a b : Q) : bool := negb (Qle_bool b a).

(** *** Rounding to binary64 *)

Definition pow2 (k : Z) : Q := 2 ^ k.

(** The integer [k] with [2^k <= q < 2^(k+1)], for [0 < q]. *)
Definition ilog2 (q : Q) : Z :=
  let k := (Z.log2 (Qnum q) - Z.log2 (Zpos (Qden q)))%Z in
  if Qle_bool (pow2 k) q then k else (k - 1)%Z.

(** The nearest integer, a tie going to the even one. *)
Definition round_half_even (m : Q) : Z :=
  let f := Qfloor m in
  let r := m - inject_Z f in
  if Qlt_bool r (1 # 2) then f
  else if Qlt_bool (1 # 2) r then (f + 1)%Z
  else if Z.even f then f else (f + 1)%Z.

(** The exponent of the unit in the last place of [q]: 53 significant
    bits, and no exponent below that of the subnormal numbers. *)
Definition ulp_exponent (q : Q) : Z := Z.max (ilog2 q - 52) (-1074).

(** The multiple of the unit in the last place that is nearest to [q],
    for [0 < q]. *)
Definition nearest (q : Q) : Q :=
  let e := ulp_exponent q in
  inject_Z (round_half_even (q / pow2 e)) * pow2 e.

(** The binary64 value of the exact result [q] of an operation. *)
Definition round64 (q : Q) : number :=
  if Qeq_bool q 0 then Fin 0
  else if Qlt_bool 0 q then
    let v := nearest q in
    if Qle_bool (pow2 1024) v then PosInf else Fin (Qred v)
  else
    let v := nearest (- q) in
    if Qle_bool (pow2 1024) v then NegInf else Fin (Qred (- v)).

(** The binary64 value a decimal literal such as [8.1] denotes (the
    nearest one; [0] stands in where there is no finite one). *)
Definition literal (q : Q) : Q :=
  match round64 q with
  | Fin d => d
  | _ => 0
  end.

(** The value of a float of the kernel, to compare [round64] with. *)
Definition of_float (f : float) : number :=
  match Prim2SF f with
  | S754_zero _ => Fin 0
  | S754_infinity false => PosInf
  | S754_infinity true => NegInf
  | S754_nan => NaN
  | S754_finite false m e => Fin (Qred (inject_Z (Zpos m) * pow2 e))
  | S754_finite true m e => Fin (Qred (- (inject_Z (Zpos m) * pow2 e)))
  end.

(** *** The operations *)

(** [x / y] *)
Definition div (x y : number) : number :=
  match x, y with
  | NaN, _ | _, NaN => NaN
  | Fin a, Fin b =>
      if Qeq_bool b 0 then
        if Qlt_bool 0 a then PosInf
        else if Qlt_bool a 0 then NegInf
        else NaN
      else round64 (a / b)
  | Fin _, (PosInf | NegInf) => Fin 0
  | PosInf, Fin b => if Qle_bool 0 b then PosInf else NegInf
  | NegInf, Fin b => if Qle_bool 0 b then NegInf else PosInf
  | (PosInf | NegInf), (PosInf | NegInf) => NaN
  end.

(** [x * y] *)
Definition mul (x y : number) : number :=
  match x, y with
  | NaN, _ | _, NaN => NaN
  | Fin a, Fin b => round64 (a * b)
  | Fin a, PosInf | PosInf, Fin a =>
      if Qeq_bool a 0 then NaN else if Qlt_bool 0 a then PosInf else NegInf
  | Fin a, NegInf | NegInf, Fin a =>
      if Qeq_bool a 0 then NaN else if Qlt_bool 0 a then NegInf else PosInf
  | PosInf, PosInf | NegInf, NegInf => PosInf
  | PosInf, NegInf | NegInf, PosInf => NegInf
  end.

(** [x + y] *)
Definition add (x y : number) : number :=
  match x, y with
  | NaN, _ | _, NaN => NaN
  | Fin a, Fin b => round64 (a + b)
  | PosInf, NegInf | NegInf, PosInf => NaN
  | PosInf, _ | _, PosInf => PosInf
  | NegInf, _ | _, NegInf => NegInf
  end.

(** [x >= y] *)
Definition ge (x y : number) : bool :=
  match x, y with
  | NaN, _ | _, NaN => false
  | Fin a, Fin b => Qle_bool b a
  | PosInf, _ => true
  | _, NegInf => true
  | _, PosInf => false
  | NegInf, _ => false
  end.

(** [x > y] *)
Definition gt (x y : number) : bool :=
  match x, y with
  | NaN, _ | _, NaN => false
  | Fin a, Fin b => Qlt_bool b a
  | PosInf, PosInf | NegInf, _ => false
  | PosInf, _ => true
  | Fin _, NegInf => true
  | Fin _, PosInf => false
  end.

(** [Math.round]: the nearest integer, halves going up. The result is
    exact: a binary64 value of [2^52] or more is an integer already, and
    the integers below are binary64 values. *)
Definition Math_round (x : number) : number :=
  match x with
  | Fin q => Fin (inject_Z (Qfloor (q + (1 # 2))))
  | _ => x
  end.

(** [x || 0] on a number: [0] and [NaN] are falsy. *)
Definition or0 (x : Q) : Q := if Qeq_bool x 0 then 0 else x.

(** [x || 0] on a [number | null]. *)
Definition or0_null (x : option Q) : Q :=
  match x with
  | Some q => or0 q
  | None => 0
  end.

End JsNum.

Import JsNum.

Notation "x />= y" := (JsNum.ge x (Fin y)) (at level 70, no associativity).

(* ------------------------------------------------------------------ *)
(** ** The tables the pages read and write *)

Module Db.

Record ExamRow := {
  exam_row_id : string;
  exam_title : string;
  exam_subject : string;
  exam_type : string;
  exam_results_published : bool }.

Record SubmissionRow := {
  sub_id : string;
  sub_exam_id : string;
  sub_student_id : string;
  sub_started_at : Z;
  sub_submitted_at : option Z;
  sub_total_score : Q;
  sub_max_score : Q;
  sub_is_graded : bool }.

Record QuestionRow := {
  q_id : string;
  question_text : string;
  question_type : string;
  correct_answer : string;
  options : option (list string);
  marks : Q;
  explanation : option string }.

Record AnswerRow := {
  ans_id : string;
  ans_submission_id : string;
  ans_question_id : string;
  ans_answer_text : string;
  ans_is_correct : option bool;
  ans_marks_awarded : option Q;
  ans_feedback : option string;
  ans_created_at : Z }.

Record ProfileRow := {
  prof_user_id : string;
  prof_full_name : string;
  prof_email : string;
  prof_student_id : option string;
  prof_class : option string }.

Record t := {
  exams : list ExamRow;
  exam_submissions : list SubmissionRow;
  questions : list QuestionRow;
  student_answers : list AnswerRow;
  profiles : list ProfileRow }.

(** [.order(col)]: a stable insertion sort on an integer key. *)
Fixpoint insert_by {A} (le : A -> A -> bool) (x : A) (l : list A) : list A :=
  match l with
  | [] => [x]
  | y :: l' => if le x y then x :: l else y :: insert_by le x l'
  end.

Definition order_by {A} (le : A -> A -> bool) (l : list A) : list A :=
  fold_right (insert_by le) [] l.

(** [.single()] on the rows a filter selects: exactly one row, or an error. *)
Definition single {A} (l : list A) : option A :=
  match l with
  | [x] => Some x
  | _ => None
  end.

(** The to-one embedding [exam:exams(...)]: the exam the foreign key names. *)
Definition exam_of (db : t) (s : SubmissionRow) : option ExamRow :=
  find (fun e => String.eqb (exam_row_id e) (sub_exam_id s)) (exams db).

Definition question_of (db : t) (a : AnswerRow) : option QuestionRow :=
  find (fun q => String.eqb (q_id q) (ans_question_id a)) (questions db).

End Db.

(* ------------------------------------------------------------------ *)
(** ** pages/student/StudentResults.tsx: the results list *)

Module StudentResults.

Record Exam := {
  title : string;
  subject : string;
  results_published : bool }.

Record Result := {
  id : string;
  exam_id : string;
  submitted_at : Z;
  total_score : Q;
  max_score : Q;
  is_graded : bool;
  exam : option Exam }.

Definition embed_exam (db : Db.t) (s : Db.SubmissionRow) : option Exam :=
  option_map
    (fun e => {| title := Db.exam_title e;
                 subject := Db.exam_subject e;
                 results_published := Db.exam_results_published e |})
    (Db.exam_of db s).

(** The rows of [fetchResults]: the user's submissions whose
    [submitted_at] is not null, latest first. *)
Definition select_results (db : Db.t) (user : string) : list Result :=
  Db.order_by (fun a b => (submitted_at b <=? submitted_at a)%Z)
    (flat_map
       (fun s =>
          match Db.sub_submitted_at s with
          | Some at_ =>
              if String.eqb (Db.sub_student_id s) user then
                [ {| id := Db.sub_id s;
                     exam_id := Db.sub_exam_id s;
                     submitted_at := at_;
                     total_score := Db.sub_total_score s;
                     max_score := Db.sub_max_score s;
                     is_graded := Db.sub_is_graded s;
                     exam := embed_exam db s |} ]
              else []
          | None => []
          end)
       (Db.exam_submissions db)).

(** [fetchResults]: [setResults(data || [])]; a failed request has no data. *)
Definition fetchResults (failed : bool) (db : Db.t) (user : string)
  : list Result :=
  if failed then [] else select_results db user.

Record Grade := { grade : string; color : string }.

Definition getGrade (pct : number) : Grade :=
  if pct />= 90 then {| grade := "A"; color := "text-success" |}
  else if pct />= 80 then {| grade := "B"; color := "text-success" |}
  else if pct />= 70 then {| grade := "C"; color := "text-warning" |}
  else if pct />= 60 then {| grade := "D"; color := "text-warning" |}
  else {| grade := "F"; color := "text-destructive" |}.

(** What a card shows on its right-hand side. *)
Inductive ScoreCell :=
| ScoreDetail (score max : Q) (pct : number) (g : Grade) (verdict : string)
| ResultsPending.

Record Card := {
  card_key : string;
  card_title : option string;
  card_subject : option string;
  card_score : ScoreCell;
  card_view_detail : option string }.

Definition render_result (result : Result) : Card :=
  let pct :=
    Math_round
      (mul (div (Fin (total_score result)) (Fin (max_score result)))
           (Fin 100)) in
  let g := getGrade pct in
  let published :=
    match exam result with
    | Some e => results_published e
    | None => false
    end in
  {| card_key := id result;
     card_title := option_map title (exam result);
     card_subject := option_map subject (exam result);
     card_score :=
       if published then
         ScoreDetail (total_score result) (max_score result) pct g
           (if pct />= 60 then "Passed" else "Failed")
       else ResultsPending;
     card_view_detail :=
       if is_graded result
       then Some ("/student/results/" ++ id result)
       else None |}.

Inductive Page :=
| Skeleton
| NoResults
| Cards (cards : list Card).

Definition render (loading : bool) (results : list Result) : Page :=
  if loading then Skeleton
  else match results with
       | [] => NoResults
       | _ => Cards (map render_result results)
       end.

End StudentResults.

(* ------------------------------------------------------------------ *)
(** ** The report card page *)

Module ReportCard.

Record Profile := {
  full_name : string;
  student_id : option string;
  class : option string;
  email : string }.

Record Exam := {
  title : string;
  subject : string;
  exam_type : string }.

Record ResultRow := {
  id : string;
  total_score : Q;
  max_score : Q;
  submitted_at : option Z;
  exam : Exam }.

Record ReportCardData := {
  profile : option Profile;
  results : list ResultRow }.

(** [exam:exams(title, subject, exam_type, results_published)] under
    [.filter('exam.results_published', 'eq', true)]: the embedded exam is
    null when the filter rejects it. *)
Definition embed_published_exam (db : Db.t) (s : Db.SubmissionRow)
  : option Exam :=
  match Db.exam_of db s with
  | Some e =>
      if Db.exam_results_published e then
        Some {| title := Db.exam_title e;
                subject := Db.exam_subject e;
                exam_type := Db.exam_type e |}
      else None
  | None => None
  end.

(** [ORDER BY submitted_at DESC]: nulls come first. *)
Definition later_first (a b : option Z) : bool :=
  match a, b with
  | None, _ => true
  | Some _, None => false
  | Some x, Some y => (y <=? x)%Z
  end.

(** The rows of the second request of [fetchReportData], before
    [validResults] drops those whose exam is null. *)
Definition select_graded (db : Db.t) (user : string)
  : list (Db.SubmissionRow * option Exam) :=
  Db.order_by
    (fun a b => later_first (Db.sub_submitted_at (fst a))
                            (Db.sub_submitted_at (fst b)))
    (map (fun s => (s, embed_published_exam db s))
       (filter
          (fun s => String.eqb (Db.sub_student_id s) user
                    && Bool.eqb (Db.sub_is_graded s) true)
          (Db.exam_submissions db))).

(** [(results || []).filter(r => r.exam)] *)
Definition validResults (rows : list (Db.SubmissionRow * option Exam))
  : list ResultRow :=
  flat_map
    (fun r =>
       match snd r with
       | Some e =>
           [ {| id := Db.sub_id (fst r);
                total_score := Db.sub_total_score (fst r);
                max_score := Db.sub_max_score (fst r);
                submitted_at := Db.sub_submitted_at (fst r);
                exam := e |} ]
       | None => []
       end)
    rows.

Definition select_profile (db : Db.t) (user : string) : option Profile :=
  option_map
    (fun p => {| full_name := Db.prof_full_name p;
                 student_id := Db.prof_student_id p;
                 class := Db.prof_class p;
                 email := Db.prof_email p |})
    (Db.single
       (filter (fun p => String.eqb (Db.prof_user_id p) user)
               (Db.profiles db))).

(** [fetchReportData]; a failed request yields no data. *)
Definition fetchReportData (profile_failed results_failed : bool)
    (db : Db.t) (user : string) : ReportCardData :=
  {| profile := if profile_failed then None else select_profile db user;
     results :=
       validResults (if results_failed then [] else select_graded db user) |}.

Record Stats := {
  average : number;
  totalObtained : number;
  totalMax : number;
  grade : string }.

(** The local [average] of [calculateStats], before it is rounded. *)
Definition average_of (totalObtained totalMax : number) : number :=
  if gt totalMax (Fin 0)
  then mul (div totalObtained totalMax) (Fin 100)
  else Fin 0.

Definition calculateStats (data : ReportCardData) : Stats :=
  match results data with
  | [] => {| average := Fin 0; totalObtained := Fin 0; totalMax := Fin 0;
             grade := "N/A" |}
  | _ =>
      let totalObtained :=
        fold_left (fun sum r => add sum (Fin (or0 (total_score r))))
                  (results data) (Fin 0) in
      let totalMax :=
        fold_left (fun sum r => add sum (Fin (or0 (max_score r))))
                  (results data) (Fin 0) in
      let average := average_of totalObtained totalMax in
      let grade :=
        if average />= 90 then "A"
        else if average />= 80 then "B"
        else if average />= 70 then "C"
        else if average />= 60 then "D"
        else "F" in
      {| average := Math_round average;
         totalObtained := totalObtained;
         totalMax := totalMax;
         grade := grade |}
  end.

Definition getResultGrade (score max : Q) : string :=
  let pct := mul (div (Fin score) (Fin max)) (Fin 100) in
  if pct />= 90 then "A"
  else if pct />= 80 then "B"
  else if pct />= 70 then "C"
  else if pct />= 60 then "D"
  else "F".

(** One line of the results table. *)
Record TableRow := {
  row_subject : string;
  row_title : string;
  row_type : string;
  row_score : Q * Q;
  row_percentage : number;
  row_grade : string }.

Definition render_row (result : ResultRow) : TableRow :=
  {| row_subject := subject (exam result);
     row_title := title (exam result);
     row_type := exam_type (exam result);
     row_score := (total_score result, max_score result);
     row_percentage :=
       Math_round
         (mul (div (Fin (total_score result)) (Fin (max_score result)))
              (Fin 100));
     row_grade := getResultGrade (total_score result) (max_score result) |}.

(** [[...new Set(data.results.map(r => r.exam.subject))].length] *)
Definition total_subjects (data : ReportCardData) : nat :=
  List.length (nodup string_dec (map (fun r => subject (exam r)) (results data))).

End ReportCard.

(* ------------------------------------------------------------------ *)
(** ** The submission detail page, where a teacher grades *)

Module SubmissionDetail.

Record ExamInfo := { title : string; subject : string }.

Record StudentProfile := { full_name : string; email : string }.

Record Submission := {
  s_id : string;
  s_exam_id : string;
  s_student_id : string;
  s_started_at : Z;
  s_submitted_at : option Z;
  s_total_score : Q;
  s_max_score : Q;
  s_is_graded : bool;
  s_exam : option ExamInfo;
  student_profile : option StudentProfile }.

Record Question := {
  question_text : string;
  question_type : string;
  correct_answer : string;
  options : option (list string);
  marks : Q;
  explanation : option string }.

Record Answer := {
  id : string;
  question_id : string;
  answer_text : string;
  is_correct : option bool;
  marks_awarded : option Q;
  feedback : option string;
  question : option Question }.

Record Toast := {
  toast_title : string;
  description : string;
  variant : option string }.

(** The state of the component. *)
Record State := {
  submission : option Submission;
  answers : list Answer;
  loading : bool;
  saving : bool }.

Definition initial : State :=
  {| submission := None; answers := []; loading := true; saving := false |}.

(** The n-th request of an operation fails with [Some message]. *)
Definition Faults := nat -> option string.

Definition no_faults : Faults := fun _ => None.

Definition embed_question (db : Db.t) (r : Db.AnswerRow) : option Question :=
  option_map
    (fun q => {| question_text := Db.question_text q;
                 question_type := Db.question_type q;
                 correct_answer := Db.correct_answer q;
                 options := Db.options q;
                 marks := Db.marks q;
                 explanation := Db.explanation q |})
    (Db.question_of db r).

Definition belongs_to (sid : string) (r : Db.AnswerRow) : bool :=
  String.eqb (Db.ans_submission_id r) sid.

(** The answers of a submission with their questions, oldest first. *)
Definition select_answers (db : Db.t) (sid : string) : list Answer :=
  map (fun r => {| id := Db.ans_id r;
                   question_id := Db.ans_question_id r;
                   answer_text := Db.ans_answer_text r;
                   is_correct := Db.ans_is_correct r;
                   marks_awarded := Db.ans_marks_awarded r;
                   feedback := Db.ans_feedback r;
                   question := embed_question db r |})
    (Db.order_by
       (fun a b => (Db.ans_created_at a <=? Db.ans_created_at b)%Z)
       (filter (belongs_to sid) (Db.student_answers db))).

Definition select_submission (db : Db.t) (sid : string)
  : option Db.SubmissionRow :=
  Db.single
    (filter (fun s => String.eqb (Db.sub_id s) sid) (Db.exam_submissions db)).

Definition select_student_profile (db : Db.t) (user : string)
  : option StudentProfile :=
  option_map
    (fun p => {| full_name := Db.prof_full_name p;
                 email := Db.prof_email p |})
    (Db.single
       (filter (fun p => String.eqb (Db.prof_user_id p) user)
               (Db.profiles db))).

Definition load_failed : Toast :=
  {| toast_title := "Error";
     description := "Failed to load submission details";
     variant := Some "destructive" |}.

(** [fetchData]: three requests, numbered from [n]. *)
Definition fetchData (faults : Faults) (n : nat) (db : Db.t) (sid : string)
    (st : State) : State * list Toast :=
  let subData :=
    match faults n with
    | Some _ => None
    | None => select_submission db sid
    end in
  match subData with
  | None =>
      ({| submission := submission st; answers := answers st;
          loading := false; saving := saving st |}, [load_failed])
  | Some sub =>
      let profile :=
        match faults (n + 1)%nat with
        | Some _ => None
        | None => select_student_profile db (Db.sub_student_id sub)
        end in
      let loaded :=
        {| s_id := Db.sub_id sub;
           s_exam_id := Db.sub_exam_id sub;
           s_student_id := Db.sub_student_id sub;
           s_started_at := Db.sub_started_at sub;
           s_submitted_at := Db.sub_submitted_at sub;
           s_total_score := Db.sub_total_score sub;
           s_max_score := Db.sub_max_score sub;
           s_is_graded := Db.sub_is_graded sub;
           s_exam :=
             option_map
               (fun e => {| title := Db.exam_title e;
                            subject := Db.exam_subject e |})
               (Db.exam_of db sub);
           student_profile := profile |} in
      match faults (n + 2)%nat with
      | Some _ =>
          ({| submission := Some loaded; answers := answers st;
              loading := false; saving := saving st |}, [load_failed])
      | None =>
          ({| submission := Some loaded; answers := select_answers db sid;
              loading := false; saving := saving st |}, [])
      end
  end.

(** A [Partial<Answer>] restricted to the fields a grader edits. *)
Record Updates := {
  set_is_correct : option (option bool);
  set_marks_awarded : option (option Q);
  set_feedback : option (option string) }.

Definition spread {A} (old : A) (new : option A) : A :=
  match new with
  | Some v => v
  | None => old
  end.

Definition handleGradeUpdate (answerId : string) (updates : Updates)
    (st : State) : State :=
  {| submission := submission st;
     answers :=
       map (fun a =>
              if String.eqb (id a) answerId then
                {| id := id a;
                   question_id := question_id a;
                   answer_text := answer_text a;
                   is_correct := spread (is_correct a) (set_is_correct updates);
                   marks_awarded :=
                     spread (marks_awarded a) (set_marks_awarded updates);
                   feedback := spread (feedback a) (set_feedback updates);
                   question := question a |}
              else a)
           (answers st);
     loading := loading st;
     saving := saving st |}.

(** The "Marks Awarded" input of an answer: [type="number"], its [max]
    attribute and its value. *)
Record NumberInput := { input_max : option Q; input_value : Q }.

Definition marks_input (a : Answer) : NumberInput :=
  {| input_max := option_map marks (question a);
     input_value := or0_null (marks_awarded a) |}.

(** [Number(e.target.value)]: the value of a number input is a number
    or the empty string, which converts to [0]. *)
Definition Number (value : option Q) : Q :=
  match value with
  | Some q => q
  | None => 0
  end.

(** [onChange] of the "Marks Awarded" input. *)
Definition marks_onChange (answerId : string) (value : option Q)
    (st : State) : State :=
  handleGradeUpdate answerId
    {| set_is_correct := None;
       set_marks_awarded := Some (Some (Number value));
       set_feedback := None |}
    st.

(** [onChange] of the feedback text area. *)
Definition feedback_onChange (answerId : string) (value : string)
    (st : State) : State :=
  handleGradeUpdate answerId
    {| set_is_correct := None;
       set_marks_awarded := None;
       set_feedback := Some (Some value) |}
    st.

(** [update({is_correct, marks_awarded, feedback}).eq('id', answer.id)] *)
Definition update_answer_row (a : Answer) (r : Db.AnswerRow) : Db.AnswerRow :=
  if String.eqb (Db.ans_id r) (id a) then
    {| Db.ans_id := Db.ans_id r;
       Db.ans_submission_id := Db.ans_submission_id r;
       Db.ans_question_id := Db.ans_question_id r;
       Db.ans_answer_text := Db.ans_answer_text r;
       Db.ans_is_correct := is_correct a;
       Db.ans_marks_awarded := marks_awarded a;
       Db.ans_feedback := feedback a;
       Db.ans_created_at := Db.ans_created_at r |}
  else r.

Definition update_student_answer (db : Db.t) (a : Answer) : Db.t :=
  {| Db.exams := Db.exams db;
     Db.exam_submissions := Db.exam_submissions db;
     Db.questions := Db.questions db;
     Db.student_answers := map (update_answer_row a) (Db.student_answers db);
     Db.profiles := Db.profiles db |}.

(** [update({total_score, is_graded: true}).eq('id', id)] *)
Definition update_submission_row (sid : string) (totalScore : Q)
    (s : Db.SubmissionRow) : Db.SubmissionRow :=
  if String.eqb (Db.sub_id s) sid then
    {| Db.sub_id := Db.sub_id s;
       Db.sub_exam_id := Db.sub_exam_id s;
       Db.sub_student_id := Db.sub_student_id s;
       Db.sub_started_at := Db.sub_started_at s;
       Db.sub_submitted_at := Db.sub_submitted_at s;
       Db.sub_total_score := totalScore;
       Db.sub_max_score := Db.sub_max_score s;
       Db.sub_is_graded := true |}
  else s.

Definition update_submission (db : Db.t) (sid : string) (totalScore : Q)
  : Db.t :=
  {| Db.exams := Db.exams db;
     Db.exam_submissions :=
       map (update_submission_row sid totalScore) (Db.exam_submissions db);
     Db.questions := Db.questions db;
     Db.student_answers := Db.student_answers db;
     Db.profiles := Db.profiles db |}.

(** The loop of [saveGrading]: one request per answer, numbered from [n];
    the first error is thrown and ends the loop. *)
Fixpoint update_each (faults : Faults) (n : nat) (l : list Answer)
    (db : Db.t) : Db.t * option string :=
  match l with
  | [] => (db, None)
  | answer :: rest =>
      match faults n with
      | Some error => (db, Some error)
      | None => update_each faults (S n) rest (update_student_answer db answer)
      end
  end.

Record Saved := {
  db_after : Db.t;
  state_after : State;
  toasts : list Toast;
  thrown : option string }.

Definition with_saving (b : bool) (st : State) : State :=
  {| submission := submission st; answers := answers st;
     loading := loading st; saving := b |}.

Definition save_failed (message : string) : Toast :=
  {| toast_title := "Error"; description := message;
     variant := Some "destructive" |}.

Definition save_succeeded : Toast :=
  {| toast_title := "Success"; description := "Grading saved successfully";
     variant := None |}.

Definition saveGrading (faults : Faults) (db : Db.t) (sid : string)
    (st : State) : Saved :=
  let n := List.length (answers st) in
  match update_each faults 0 (answers st) db with
  | (db1, Some error) =>
      {| db_after := db1; state_after := with_saving false st;
         toasts := [save_failed error]; thrown := Some error |}
  | (db1, None) =>
      let totalScore :=
        fold_left (fun sum a => sum + or0_null (marks_awarded a))
                  (answers st) 0 in
      match faults n with
      | Some subError =>
          {| db_after := db1; state_after := with_saving false st;
             toasts := [save_failed subError]; thrown := Some subError |}
      | None =>
          let db2 := update_submission db1 sid totalScore in
          let (st', loads) := fetchData faults (S n) db2 sid st in
          {| db_after := db2; state_after := with_saving false st';
             toasts := save_succeeded :: loads; thrown := None |}
      end
  end.

(** [isTeacher] *)
Definition isTeacher (role : string) : bool :=
  String.eqb role "teacher" || String.eqb role "admin".

End SubmissionDetail.

(* ------------------------------------------------------------------ *)
(** ** supabase/migrations: the [handle_new_user] trigger *)

Module Migrations.

(** Modelled from the spec: the labels of the enum [public.app_role]. The
    type is created by a migration that is not among the sources; the
    specification lists its roles, and ['admin'] is the label the [DO]
    block of the migrations adds. *)
Inductive app_role := student | teacher | admin.

Definition app_role_eqb (a b : app_role) : bool :=
  match a, b with
  | student, student | teacher, teacher | admin, admin => true
  | _, _ => false
  end.

(** [r::text] *)
Definition app_role_text (r : app_role) : string :=
  match r with
  | student => "student"
  | teacher => "teacher"
  | admin => "admin"
  end.

(** [s::public.app_role]: [None] is the error "invalid input value for
    enum app_role". *)
Definition cast_app_role (s : string) : option app_role :=
  if String.eqb s "student" then Some student
  else if String.eqb s "teacher" then Some teacher
  else if String.eqb s "admin" then Some admin
  else None.

Inductive jsonb_value :=
| JNull
| JString (s : string)
| JBool (b : bool).

(** A jsonb object: its keys are distinct. *)
Definition jsonb := list (string * jsonb_value).

Definition jsonb_text (v : jsonb_value) : option string :=
  match v with
  | JNull => None
  | JString s => Some s
  | JBool true => Some "true"
  | JBool false => Some "false"
  end.

(** [o ->> key] on a nullable jsonb column. *)
Definition get_text (o : option jsonb) (key : string) : option string :=
  match o with
  | None => None
  | Some fields =>
      match find (fun kv => String.eqb (fst kv) key) fields with
      | Some kv => jsonb_text (snd kv)
      | None => None
      end
  end.

(** [a || b] on jsonb objects: the keys of [b] win. *)
Definition jsonb_concat (a b : jsonb) : jsonb :=
  (filter
     (fun kv => negb (existsb (fun kv' => String.eqb (fst kv') (fst kv)) b)) a
   ++ b)%list.

Definition COALESCE {A} (x : option A) (default : A) : A :=
  match x with
  | Some v => v
  | None => default
  end.

(** A row of [auth.users], as far as the trigger reads and writes it. *)
Record AuthUser := {
  au_id : string;
  au_email : string;
  raw_user_meta_data : option jsonb;
  raw_app_metadata : option jsonb }.

Record RoleRow := { role_user_id : string; role : app_role }.

Record Tables := {
  profiles : list Db.ProfileRow;
  user_roles : list RoleRow;
  auth_users : list AuthUser }.

Inductive Outcome :=
| Returned (t : Tables) (warnings : list string)
| Raised (message : string).

Definition same_user (p q : Db.ProfileRow) : bool :=
  String.eqb (Db.prof_user_id q) (Db.prof_user_id p).

Definition same_grant (r s : RoleRow) : bool :=
  String.eqb (role_user_id s) (role_user_id r)
  && app_role_eqb (role s) (role r).

Definition new_profile (NEW : AuthUser) : Db.ProfileRow :=
  {| Db.prof_user_id := au_id NEW;
     Db.prof_full_name :=
       COALESCE (get_text (raw_user_meta_data NEW) "full_name") (au_email NEW);
     Db.prof_email := au_email NEW;
     Db.prof_student_id := None;
     Db.prof_class := None |}.

(** [INSERT INTO profiles]: [user_id] is unique, a second row for it is
    the error "duplicate key value". *)
Definition insert_profile (p : Db.ProfileRow) (l : list Db.ProfileRow)
  : option (list Db.ProfileRow) :=
  if existsb (same_user p) l then None else Some (l ++ [p])%list.

(** [... ON CONFLICT (user_id) DO UPDATE SET full_name, email] *)
Definition insert_profile_do_update (p : Db.ProfileRow)
    (l : list Db.ProfileRow) : list Db.ProfileRow :=
  if existsb (same_user p) l then
    map (fun q =>
           if same_user p q then
             {| Db.prof_user_id := Db.prof_user_id q;
                Db.prof_full_name := Db.prof_full_name p;
                Db.prof_email := Db.prof_email p;
                Db.prof_student_id := Db.prof_student_id q;
                Db.prof_class := Db.prof_class q |}
           else q)
        l
  else (l ++ [p])%list.

(** [... ON CONFLICT (user_id) DO NOTHING] *)
Definition insert_profile_do_nothing (p : Db.ProfileRow)
    (l : list Db.ProfileRow) : list Db.ProfileRow :=
  if existsb (same_user p) l then l else (l ++ [p])%list.

(** [INSERT INTO user_roles ... ON CONFLICT (user_id, role) DO NOTHING] *)
Definition insert_role_do_nothing (r : RoleRow) (l : list RoleRow)
  : list RoleRow :=
  if existsb (same_grant r) l then l else (l ++ [r])%list.

(** [UPDATE auth.users SET raw_app_metadata =
      COALESCE(raw_app_metadata, '{}') || jsonb_build_object('role', r)
    WHERE id = NEW.id] *)
Definition sync_role (uid : string) (r : string) (l : list AuthUser)
  : list AuthUser :=
  map (fun u =>
         if String.eqb (au_id u) uid then
           {| au_id := au_id u;
              au_email := au_email u;
              raw_user_meta_data := raw_user_meta_data u;
              raw_app_metadata :=
                Some (jsonb_concat (COALESCE (raw_app_metadata u) [])
                                   [("role", JString r)]) |}
         else u)
      l.

(** The double quote PostgreSQL puts around a rejected value. *)
Definition double_quote : string :=
  String (Ascii.ascii_of_nat 34) EmptyString.

Definition invalid_enum (s : string) : string :=
  "invalid input value for enum app_role: "
  ++ double_quote ++ s ++ double_quote.

Definition duplicate_key : string :=
  "duplicate key value violates unique constraint".

(** [COALESCE((NEW.raw_user_meta_data ->> 'role')::public.app_role,
             'student'::public.app_role)]: the role, or the error of the
    cast. *)
Definition initial_role_of (NEW : AuthUser) : string + app_role :=
  match get_text (raw_user_meta_data NEW) "role" with
  | Some s =>
      match cast_app_role s with
      | Some r => inr r
      | None => inl (invalid_enum s)
      end
  | None => inr student
  end.

(** The first definition of the trigger function (the migration whose
    file name is not known). *)
Definition handle_new_user_first (t : Tables) (NEW : AuthUser) : Outcome :=
  match initial_role_of NEW with
  | inl message => Raised message
  | inr initial_role =>
      match insert_profile (new_profile NEW) (profiles t) with
      | None => Raised duplicate_key
      | Some ps =>
          Returned
            {| profiles := ps;
               user_roles :=
                 insert_role_do_nothing
                   {| role_user_id := au_id NEW; role := initial_role |}
                   (user_roles t);
               auth_users := auth_users t |}
            []
      end
  end.

(** [UPDATE auth.users SET raw_app_metadata =
      raw_app_metadata || jsonb_build_object('role', r)
    WHERE id = NEW.id]: a null [raw_app_metadata] stays null. *)
Definition sync_role_strict (uid : string) (r : string) (l : list AuthUser)
  : list AuthUser :=
  map (fun u =>
         if String.eqb (au_id u) uid then
           {| au_id := au_id u;
              au_email := au_email u;
              raw_user_meta_data := raw_user_meta_data u;
              raw_app_metadata :=
                option_map (fun m => jsonb_concat m [("role", JString r)])
                           (raw_app_metadata u) |}
         else u)
      l.

(** The definition of migration 20260117131000: the role is synced to
    [auth.users], and an error of that [UPDATE] is not caught. *)
Definition handle_new_user_131000 (sync_error : option string) (t : Tables)
    (NEW : AuthUser) : Outcome :=
  match initial_role_of NEW with
  | inl message => Raised message
  | inr initial_role =>
      match insert_profile (new_profile NEW) (profiles t) with
      | None => Raised duplicate_key
      | Some ps =>
          let rs :=
            insert_role_do_nothing
              {| role_user_id := au_id NEW; role := initial_role |}
              (user_roles t) in
          match sync_error with
          | None =>
              Returned
                {| profiles := ps; user_roles := rs;
                   auth_users :=
                     sync_role_strict (au_id NEW)
                       (app_role_text initial_role) (auth_users t) |}
                []
          | Some SQLERRM => Raised SQLERRM
          end
      end
  end.

(** The definition of migration 20260117131500. [sync_error] is the error
    of the [UPDATE] of [auth.users], if it raises one. *)
Definition handle_new_user_131500 (sync_error : option string) (t : Tables)
    (NEW : AuthUser) : Outcome :=
  match initial_role_of NEW with
  | inl message => Raised message
  | inr initial_role =>
      let ps := insert_profile_do_update (new_profile NEW) (profiles t) in
      let rs :=
        insert_role_do_nothing
          {| role_user_id := au_id NEW; role := initial_role |}
          (user_roles t) in
      match sync_error with
      | None =>
          Returned
            {| profiles := ps; user_roles := rs;
               auth_users :=
                 sync_role (au_id NEW) (app_role_text initial_role)
                           (auth_users t) |}
            []
      | Some SQLERRM =>
          Returned
            {| profiles := ps; user_roles := rs; auth_users := auth_users t |}
            ["Could not sync role to app_metadata: " ++ SQLERRM]
      end
  end.

(** The definition in force, of migration 20260117133000: the role is
    kept as text and cast when the role row is inserted. An error raised
    by the trigger undoes its writes, so [Raised] carries no tables. *)
Definition handle_new_user (sync_error : option string) (t : Tables)
    (NEW : AuthUser) : Outcome :=
  let initial_role :=
    COALESCE (get_text (raw_user_meta_data NEW) "role") "student" in
  let ps := insert_profile_do_nothing (new_profile NEW) (profiles t) in
  match cast_app_role initial_role with
  | None => Raised (invalid_enum initial_role)
  | Some r =>
      let rs :=
        insert_role_do_nothing
          {| role_user_id := au_id NEW; role := r |} (user_roles t) in
      match sync_error with
      | None =>
          Returned
            {| profiles := ps; user_roles := rs;
               auth_users := sync_role (au_id NEW) initial_role (auth_users t) |}
            []
      | Some SQLERRM =>
          Returned
            {| profiles := ps; user_roles := rs; auth_users := auth_users t |}
            ["Could not sync role to app_metadata for user " ++ au_id NEW
               ++ ": " ++ SQLERRM]
      end
  end.

(** The unique constraints the [ON CONFLICT] clauses name. *)
Definition unique_profiles (t : Tables) : Prop :=
  NoDup (map Db.prof_user_id (profiles t)).

Definition unique_grants (t : Tables) : Prop :=
  NoDup (map (fun r => (role_user_id r, role r)) (user_roles t)).

Definition profile_rows (uid : string) (t : Tables) : list Db.ProfileRow :=
  filter (fun p => String.eqb (Db.prof_user_id p) uid) (profiles t).

Definition grant_rows (uid : string) (r : app_role) (t : Tables)
  : list RoleRow :=
  filter (fun g => String.eqb (role_user_id g) uid && app_role_eqb (role g) r)
         (user_roles t).

End Migrations.

(* ------------------------------------------------------------------ *)
(** ** The summary card of the submission detail page *)

Module SubmissionSummary.

Import SubmissionDetail.

(** The "Total Score" block: the score, the width of the bar (a
    percentage) and the percentage under it. *)
Record ScoreBlock := {
  shown_score : Q * Q;
  bar_width : number;
  shown_percentage : number }.

Definition score_block (s : Submission) : ScoreBlock :=
  {| shown_score := (s_total_score s, s_max_score s);
     bar_width := mul (div (Fin (s_total_score s)) (Fin (s_max_score s)))
                      (Fin 100);
     shown_percentage :=
       Math_round
         (mul (div (Fin (s_total_score s)) (Fin (s_max_score s))) (Fin 100)) |}.

End SubmissionSummary.

(* ------------------------------------------------------------------ *)
(** ** The profile page *)

Module ProfilePage.

Record User := { user_id : string; user_email : option string }.

Record ProfileData := {
  full_name : string;
  email : string;
  student_id : option string;
  class : option string }.

(** A row of [profiles] with the column the page stamps. *)
Record StoredProfile := { row : Db.ProfileRow; updated_at : string }.

Record State := {
  formData : ProfileData;
  loading : bool;
  saving : bool }.

Definition initial : State :=
  {| formData := {| full_name := ""; email := "";
                    student_id := Some ""; class := Some "" |};
     loading := true;
     saving := false |}.

(** [s || ''] on a nullable text. *)
Definition or_empty (s : option string) : string :=
  match s with
  | Some v => v
  | None => ""
  end.

(** [a || b] on texts: the empty text is falsy. *)
Definition or_else (a b : string) : string :=
  if String.eqb a "" then b else a.

Definition owned_by (u : User) (p : StoredProfile) : bool :=
  String.eqb (Db.prof_user_id (row p)) (user_id u).

Definition load_failed : SubmissionDetail.Toast :=
  {| SubmissionDetail.toast_title := "Error";
     SubmissionDetail.description := "Failed to load profile data";
     SubmissionDetail.variant := Some "destructive" |}.

Definition update_failed : SubmissionDetail.Toast :=
  {| SubmissionDetail.toast_title := "Error";
     SubmissionDetail.description := "Failed to update profile";
     SubmissionDetail.variant := Some "destructive" |}.

Definition updated : SubmissionDetail.Toast :=
  {| SubmissionDetail.toast_title := "Success";
     SubmissionDetail.description := "Profile updated successfully";
     SubmissionDetail.variant := None |}.

(** [fetchProfile]: the row of the user, which [.single()] wants to be
    the only one; [failed] is a request that fails. *)
Definition fetchProfile (failed : bool) (table : list StoredProfile)
    (user : User) (st : State) : State * list SubmissionDetail.Toast :=
  let data :=
    if failed then None else Db.single (filter (owned_by user) table) in
  match data with
  | None =>
      ({| formData := formData st; loading := false; saving := saving st |},
       [load_failed])
  | Some data =>
      ({| formData :=
            {| full_name := or_else (Db.prof_full_name (row data)) "";
               email :=
                 or_else (Db.prof_email (row data))
                         (or_else (or_empty (user_email user)) "");
               student_id := Some (or_empty (Db.prof_student_id (row data)));
               class := Some (or_empty (Db.prof_class (row data))) |};
          loading := false;
          saving := saving st |},
       [])
  end.

(** [handleChange]: [{ ...prev, [name]: value }]; a name that is no field
    of the form sets nothing the page reads. *)
Definition handleChange (name value : string) (st : State) : State :=
  let prev := formData st in
  {| formData :=
       {| full_name :=
            if String.eqb name "full_name" then value else full_name prev;
          email := if String.eqb name "email" then value else email prev;
          student_id :=
            if String.eqb name "student_id" then Some value
            else student_id prev;
          class := if String.eqb name "class" then Some value else class prev |};
     loading := loading st;
     saving := saving st |}.

(** [role === 'student'] *)
Definition is_student (role : option string) : bool :=
  match role with
  | Some r => String.eqb r "student"
  | None => false
  end.

(** [update(updates).eq('user_id', user.id)] on one row. *)
Definition update_profile (role : option string) (form : ProfileData)
    (now : string) (user : User) (p : StoredProfile) : StoredProfile :=
  if owned_by user p then
    {| row :=
         {| Db.prof_user_id := Db.prof_user_id (row p);
            Db.prof_full_name := full_name form;
            Db.prof_email := Db.prof_email (row p);
            Db.prof_student_id :=
              if is_student role then student_id form
              else Db.prof_student_id (row p);
            Db.prof_class :=
              if is_student role then class form else Db.prof_class (row p) |};
       updated_at := now |}
  else p.

(** [handleSubmit], at the time [now]; without a user it returns at once. *)
Definition handleSubmit (failed : bool) (now : string) (role : option string)
    (user : option User) (table : list StoredProfile) (st : State)
  : list StoredProfile * State * list SubmissionDetail.Toast :=
  match user with
  | None => (table, st, [])
  | Some u =>
      let done :=
        {| formData := formData st; loading := loading st; saving := false |} in
      if failed then (table, done, [update_failed])
      else (map (update_profile role (formData st) now u) table, done,
            [updated])
  end.

End ProfilePage.

(* ------------------------------------------------------------------ *)
(** ** Migration 20260117133000: the helpers and policies of row level
       security *)

Module Policies.

Import Migrations.

(** The token of the request: [auth.uid()] and the object
    [auth.jwt() -> 'app_metadata']. *)
Record Jwt := { uid : string; app_metadata : option jsonb }.

(** [x = s] where [x] may be null: null when it is. *)
Definition sql_eq (x : option string) (s : string) : option bool :=
  option_map (fun v => String.eqb v s) x.

(** [x IN (...)] where [x] may be null. *)
Definition sql_in (x : option string) (l : list string) : option bool :=
  option_map (fun v => existsb (String.eqb v) l) x.

(** [a OR b] in three-valued logic. *)
Definition sql_or (a b : option bool) : option bool :=
  match a, b with
  | Some true, _ | _, Some true => Some true
  | Some false, Some false => Some false
  | _, _ => None
  end.

(** A policy admits a row when its expression is true, not null. *)
Definition admits (b : option bool) : bool :=
  match b with
  | Some true => true
  | _ => false
  end.

(** [auth.jwt() -> 'app_metadata' ->> 'role'] *)
Definition jwt_role (jwt : Jwt) : option string :=
  get_text (app_metadata jwt) "role".

Definition is_admin (jwt : Jwt) : option bool :=
  sql_eq (jwt_role jwt) "admin".

Definition is_teacher (jwt : Jwt) : option bool :=
  sql_or (sql_eq (jwt_role jwt) "teacher") (sql_eq (jwt_role jwt) "admin").

(** "Allow authenticated to view roles" *)
Definition view_roles (jwt : Jwt) (r : RoleRow) : option bool :=
  sql_or (Some (String.eqb (uid jwt) (role_user_id r)))
         (sql_in (jwt_role jwt) ["admin"; "teacher"]).

(** "Allow individual insert during signup" *)
Definition insert_role (jwt : Jwt) (r : RoleRow) : option bool :=
  Some (String.eqb (uid jwt) (role_user_id r)).

(** "Teachers and Admins can view all profiles" *)
Definition view_profiles (jwt : Jwt) (p : Db.ProfileRow) : option bool :=
  sql_or (Some (String.eqb (uid jwt) (Db.prof_user_id p)))
         (sql_in (jwt_role jwt) ["admin"; "teacher"]).

(** The token of a session of [u]: it carries the app metadata the
    trigger synced ("This uses the JWT metadata we synced in the
    handle_new_user trigger"). *)
Definition jwt_of (u : AuthUser) : Jwt :=
  {| uid := au_id u; app_metadata := raw_app_metadata u |}.

End Policies.

(* ------------------------------------------------------------------ *)
(** * The statements of the specification, and the data they are tried on *)

(** The sum of a list of rationals. *)
Definition Qsum (l : list Q) : Q := fold_right Qplus 0 l.

(** The integer nearest to a rational, a half going up. *)
Definition nearest_integer (q : Q) : Z :=
  ((2 * Qnum q + Zpos (Qden q)) / (2 * Zpos (Qden q)))%Z.

(** The specification's percentage: [round(total / max * 100)] of the
    exact quotient, and [0] when [max] is [0]. *)
Definition spec_percentage (total max : Q) : number :=
  if Qeq_bool max 0 then Fin 0
  else Fin (inject_Z (nearest_integer (total / max * 100))).

(** The specification's aggregate:
    [round(sum total_score / sum max_score * 100)]. *)
Definition spec_aggregate_pct (rows : list ReportCard.ResultRow) : number :=
  spec_percentage (Qsum (map ReportCard.total_score rows))
                  (Qsum (map ReportCard.max_score rows)).

(** The average of the per-submission percentages, which the aggregate
    is not. *)
Definition mean_of_percentages (rows : list ReportCard.ResultRow) : number :=
  Fin (inject_Z
         (nearest_integer
            (Qsum (map (fun r => ReportCard.total_score r
                                 / ReportCard.max_score r * 100) rows)
             / inject_Z (Z.of_nat (List.length rows))))).

(** ** Scoring *)

Module ScoringSpec.

Import ReportCard.

(** The report card of the specification's example: 10/10 and 5/10. *)
Definition two_exams : ReportCardData :=
  {| profile := None;
     results :=
       [ {| id := "s1"; total_score := 10; max_score := 10;
            submitted_at := Some 2%Z;
            exam := {| title := "Algebra"; subject := "Mathematics";
                       exam_type := "Exam" |} |};
         {| id := "s2"; total_score := 5; max_score := 10;
            submitted_at := Some 1%Z;
            exam := {| title := "Grammar"; subject := "English";
                       exam_type := "Quiz" |} |} ] |}.

(** Two exams of unequal weight: 10/10 and 0/30. *)
Definition uneven_exams : list ResultRow :=
  [ {| id := "s1"; total_score := 10; max_score := 10;
       submitted_at := None;
       exam := {| title := "Quiz 1"; subject := "Science";
                  exam_type := "Quiz" |} |};
    {| id := "s2"; total_score := 0; max_score := 30;
       submitted_at := None;
       exam := {| title := "Final"; subject := "Science";
                  exam_type := "Exam" |} |} ].

(** Two exams whose scores add up to 23 of 40, which is 57.5 per cent. *)
Definition half_point_exams : ReportCardData :=
  {| profile := None;
     results :=
       [ {| id := "s1"; total_score := 10; max_score := 20;
            submitted_at := Some 2%Z;
            exam := {| title := "Algebra"; subject := "Mathematics";
                       exam_type := "Exam" |} |};
         {| id := "s2"; total_score := 13; max_score := 20;
            submitted_at := Some 1%Z;
            exam := {| title := "Grammar"; subject := "English";
                       exam_type := "Quiz" |} |} ] |}.

(** A row with the binary64 value of [1e308] as its score and [max] as
    its maximum. *)
Definition huge_row (max : Q) : ResultRow :=
  {| id := "s4"; total_score := literal (inject_Z (10 ^ 308));
     max_score := max; submitted_at := Some 4%Z;
     exam := {| title := "Statics"; subject := "Physics";
                exam_type := "Exam" |} |}.

(** A graded submission with 26 marks of 29, as a row of the report
    card. *)
Definition near_ninety_row : ResultRow :=
  {| id := "s3"; total_score := 26; max_score := 29;
     submitted_at := Some 3%Z;
     exam := {| title := "Optics"; subject := "Physics";
                exam_type := "Exam" |} |}.

(** The same submission in the results list, its exam published. *)
Definition near_ninety_result : StudentResults.Result :=
  {| StudentResults.id := "s3";
     StudentResults.exam_id := "e3";
     StudentResults.submitted_at := 3%Z;
     StudentResults.total_score := 26;
     StudentResults.max_score := 29;
     StudentResults.is_graded := true;
     StudentResults.exam :=
       Some {| StudentResults.title := "Optics";
               StudentResults.subject := "Physics";
               StudentResults.results_published := true |} |}.

(** The claim that one table gives every letter that is shown: the
    letter next to a percentage is the letter of that percentage. *)
Definition letter_of_shown_percentage (shown : number) (letter : string)
  : Prop :=
  match shown with
  | Fin pct =>
      (letter = "A" <-> 90 <= pct)
      /\ (letter = "B" <-> 80 <= pct /\ pct < 90)
      /\ (letter = "C" <-> 70 <= pct /\ pct < 80)
      /\ (letter = "D" <-> 60 <= pct /\ pct < 70)
      /\ (letter = "F" <-> pct < 60)
  | _ => True
  end.

(** The letter and the verdict of a card are those of its percentage. *)
Definition shown_grade (c : StudentResults.Card) : Prop :=
  match StudentResults.card_score c with
  | StudentResults.ScoreDetail _ _ pct g verdict =>
      g = StudentResults.getGrade pct
      /\ (verdict = "Passed" <-> (pct />= 60) = true)
      /\ (verdict = "Failed" <-> (pct />= 60) = false)
  | StudentResults.ResultsPending => True
  end.

(** A published result of an exam whose questions carry no marks. *)
Definition no_marks_result : StudentResults.Result :=
  {| StudentResults.id := "s0";
     StudentResults.exam_id := "e0";
     StudentResults.submitted_at := 0%Z;
     StudentResults.total_score := 0;
     StudentResults.max_score := 0;
     StudentResults.is_graded := true;
     StudentResults.exam :=
       Some {| StudentResults.title := "Survey";
               StudentResults.subject := "History";
               StudentResults.results_published := true |} |}.

(** The same result as a row of the report card. *)
Definition no_marks_row : ResultRow :=
  {| id := "s0"; total_score := 0; max_score := 0;
     submitted_at := Some 0%Z;
     exam := {| title := "Survey"; subject := "History";
                exam_type := "Quiz" |} |}.

End ScoringSpec.

(** ** Grading *)

Module GradingSpec.

Import SubmissionDetail.

(** The writes of the answers of [l], one after the other. *)
Definition persist (l : list Answer) (db : Db.t) : Db.t :=
  fold_left update_student_answer l db.

(** A row after the writes of the answers of [l]. *)
Definition graded_row (l : list Answer) (r : Db.AnswerRow) : Db.AnswerRow :=
  fold_left (fun r a => update_answer_row a r) l r.

(** The sum [saveGrading] stores. *)
Definition totalScore (l : list Answer) : Q :=
  fold_left (fun sum a => sum + or0_null (marks_awarded a)) l 0.

(** The answers that have marks. *)
Definition with_marks (l : list Answer) : list Answer :=
  filter (fun a => match marks_awarded a with
                   | Some _ => true
                   | None => false
                   end) l.

(** The marks that were awarded, those that are null left out. *)
Definition awarded (marks : list (option Q)) : list Q :=
  flat_map (fun m => match m with Some q => [q] | None => [] end) marks.

(** A submitted, ungraded submission with two answers worth 5 marks each. *)
Definition db0 : Db.t :=
  {| Db.exams :=
       [ {| Db.exam_row_id := "e1"; Db.exam_title := "Midterm";
            Db.exam_subject := "Mathematics"; Db.exam_type := "Exam";
            Db.exam_results_published := false |} ];
     Db.exam_submissions :=
       [ {| Db.sub_id := "sub1"; Db.sub_exam_id := "e1";
            Db.sub_student_id := "stu1"; Db.sub_started_at := 0%Z;
            Db.sub_submitted_at := Some 10%Z; Db.sub_total_score := 0;
            Db.sub_max_score := 10; Db.sub_is_graded := false |} ];
     Db.questions :=
       [ {| Db.q_id := "q1"; Db.question_text := "Define a group.";
            Db.question_type := "essay"; Db.correct_answer := "";
            Db.options := None; Db.marks := 5; Db.explanation := None |};
         {| Db.q_id := "q2"; Db.question_text := "Define a ring.";
            Db.question_type := "essay"; Db.correct_answer := "";
            Db.options := None; Db.marks := 5; Db.explanation := None |} ];
     Db.student_answers :=
       [ {| Db.ans_id := "a1"; Db.ans_submission_id := "sub1";
            Db.ans_question_id := "q1"; Db.ans_answer_text := "A set ...";
            Db.ans_is_correct := None; Db.ans_marks_awarded := None;
            Db.ans_feedback := None; Db.ans_created_at := 1%Z |};
         {| Db.ans_id := "a2"; Db.ans_submission_id := "sub1";
            Db.ans_question_id := "q2"; Db.ans_answer_text := "A group ...";
            Db.ans_is_correct := None; Db.ans_marks_awarded := None;
            Db.ans_feedback := None; Db.ans_created_at := 2%Z |} ];
     Db.profiles :=
       [ {| Db.prof_user_id := "stu1"; Db.prof_full_name := "Ada";
            Db.prof_email := "ada@example.org";
            Db.prof_student_id := None; Db.prof_class := None |} ] |}.

(** The page once it has loaded the submission. *)
Definition loaded : State := fst (fetchData no_faults 0 db0 "sub1" initial).

(** The grader awards 4 and 3 marks. *)
Definition marked : State :=
  marks_onChange "a2" (Some 3) (marks_onChange "a1" (Some 4) loaded).

(** The grader types 50 marks for a question worth 5. *)
Definition overmarked : State := marks_onChange "a1" (Some 50) loaded.

(** The grader awards 4 marks to the first answer only. *)
Definition half_marked : State := marks_onChange "a1" (Some 4) loaded.

(** The second request fails. *)
Definition second_fails : Faults :=
  fun n => if (n =? 1)%nat then Some "request failed" else None.

(** The request for the answers, the third of a load, fails. *)
Definition answers_fail : Faults :=
  fun n => if (n =? 2)%nat then Some "request failed" else None.

(** The tables once the submission is graded with 4 and 3 marks. *)
Definition graded_db : Db.t :=
  db_after (saveGrading no_faults db0 "sub1" marked).

(** The claim of atomicity: a save that throws leaves the answers and the
    submissions as they were. *)
Definition all_or_nothing (faults : Faults) (db : Db.t) (sid : string)
    (st : State) : Prop :=
  let r := saveGrading faults db sid st in
  match thrown r with
  | Some _ =>
      Db.student_answers (db_after r) = Db.student_answers db
      /\ Db.exam_submissions (db_after r) = Db.exam_submissions db
  | None => True
  end.

(** The marks of an answer lie outside [0, question.marks]. *)
Definition out_of_range (a : Answer) : Prop :=
  match marks_awarded a, question a with
  | Some m, Some q => m < 0 \/ marks q < m
  | _, _ => False
  end.

(** The claim of validation: marks out of range make the save fail and
    write nothing. *)
Definition validates_marks (faults : Faults) (db : Db.t) (sid : string)
    (st : State) : Prop :=
  (exists a, In a (answers st) /\ out_of_range a) ->
  let r := saveGrading faults db sid st in
  thrown r <> None /\ db_after r = db.

(** The first answer as the page holds it once 50 marks are typed. *)
Definition overmarked_answer : Answer :=
  {| id := "a1"; question_id := "q1"; answer_text := "A set ...";
     is_correct := None; marks_awarded := Some 50; feedback := None;
     question :=
       Some {| question_text := "Define a group."; question_type := "essay";
               correct_answer := ""; options := None; marks := 5;
               explanation := None |} |}.

(** The rows of the answers of a submission. *)
Definition answers_of (sid : string) (db : Db.t) : list Db.AnswerRow :=
  filter (belongs_to sid) (Db.student_answers db).

(** The state of a submission that is graded with the total of the marks
    of its rows. *)
Definition graded_with_sum (sid : string) (db : Db.t) : Prop :=
  forall s, In s (Db.exam_submissions db) -> Db.sub_id s = sid ->
    Db.sub_is_graded s = true
    /\ Db.sub_total_score s
       == Qsum (map (fun row => or0_null (Db.ans_marks_awarded row))
                    (answers_of sid db)).

(** The marks the page holds for the answer [i], a null counting for 0. *)
Definition marks_of (l : list Answer) (i : string) : Q :=
  match find (fun a => String.eqb (id a) i) l with
  | Some a => or0_null (marks_awarded a)
  | None => 0
  end.

End GradingSpec.

(** ** Publishing *)

Module PublishingSpec.

(** [result.exam?.results_published] *)
Definition published (result : StudentResults.Result) : bool :=
  match StudentResults.exam result with
  | Some e => StudentResults.results_published e
  | None => false
  end.

(** The card shows the score, the percentage, the letter and the verdict. *)
Definition detail_visible (c : StudentResults.Card) : bool :=
  match StudentResults.card_score c with
  | StudentResults.ScoreDetail _ _ _ _ _ => true
  | StudentResults.ResultsPending => false
  end.

(** The entry of the results list for a submission handed in at [at_]. *)
Definition listed (db : Db.t) (s : Db.SubmissionRow) (at_ : Z)
  : StudentResults.Result :=
  {| StudentResults.id := Db.sub_id s;
     StudentResults.exam_id := Db.sub_exam_id s;
     StudentResults.submitted_at := at_;
     StudentResults.total_score := Db.sub_total_score s;
     StudentResults.max_score := Db.sub_max_score s;
     StudentResults.is_graded := Db.sub_is_graded s;
     StudentResults.exam := StudentResults.embed_exam db s |}.

(** The row of the report card for a submission and its exam. *)
Definition reported (s : Db.SubmissionRow) (e : Db.ExamRow)
  : ReportCard.ResultRow :=
  {| ReportCard.id := Db.sub_id s;
     ReportCard.total_score := Db.sub_total_score s;
     ReportCard.max_score := Db.sub_max_score s;
     ReportCard.submitted_at := Db.sub_submitted_at s;
     ReportCard.exam :=
       {| ReportCard.title := Db.exam_title e;
          ReportCard.subject := Db.exam_subject e;
          ReportCard.exam_type := Db.exam_type e |} |}.

(** The claim: the list shows the detail of a submission only when it is
    graded and its exam is published. *)
Definition detail_needs_graded_and_published (db : Db.t) (user : string)
  : Prop :=
  forall result,
    In result (StudentResults.fetchResults false db user) ->
    detail_visible (StudentResults.render_result result) = true ->
    StudentResults.is_graded result = true /\ published result = true.

(** An exam whose results are published while a submission to it is not
    graded yet. *)
Definition db_ungraded : Db.t :=
  {| Db.exams :=
       [ {| Db.exam_row_id := "e1"; Db.exam_title := "Midterm";
            Db.exam_subject := "Mathematics"; Db.exam_type := "Exam";
            Db.exam_results_published := true |} ];
     Db.exam_submissions :=
       [ {| Db.sub_id := "sub1"; Db.sub_exam_id := "e1";
            Db.sub_student_id := "stu1"; Db.sub_started_at := 0%Z;
            Db.sub_submitted_at := Some 10%Z; Db.sub_total_score := 3;
            Db.sub_max_score := 10; Db.sub_is_graded := false |} ];
     Db.questions := [];
     Db.student_answers := [];
     Db.profiles := [] |}.

(** An exam whose results are not published, with a graded submission. *)
Definition db_unpublished : Db.t :=
  {| Db.exams :=
       [ {| Db.exam_row_id := "e1"; Db.exam_title := "Midterm";
            Db.exam_subject := "Mathematics"; Db.exam_type := "Exam";
            Db.exam_results_published := false |} ];
     Db.exam_submissions :=
       [ {| Db.sub_id := "sub1"; Db.sub_exam_id := "e1";
            Db.sub_student_id := "stu1"; Db.sub_started_at := 0%Z;
            Db.sub_submitted_at := Some 10%Z; Db.sub_total_score := 7;
            Db.sub_max_score := 10; Db.sub_is_graded := true |} ];
     Db.questions := [];
     Db.student_answers := [];
     Db.profiles := [] |}.

End PublishingSpec.

(** ** Signup *)

Module SignupSpec.

Import Migrations.

(** The role row of a new user. *)
Definition grant (NEW : AuthUser) (r : app_role) : RoleRow :=
  {| role_user_id := au_id NEW; role := r |}.

(** The statement of idempotence, for a definition [h] of the trigger. *)
Definition idempotent_on
    (h : option string -> Tables -> AuthUser -> Outcome)
    (sync sync' : option string) (t : Tables) (NEW : AuthUser) : Prop :=
  forall t1 w1,
    h sync t NEW = Returned t1 w1 ->
    exists t2 w2,
      h sync' t1 NEW = Returned t2 w2
      /\ profiles t2 = profiles t1
      /\ user_roles t2 = user_roles t1
      /\ List.length (profile_rows (au_id NEW) t2) = 1%nat
      /\ forall r, (List.length (grant_rows (au_id NEW) r t2) <= 1)%nat.

(** A signup that asks for the role ['teacher']. *)
Definition new_teacher : AuthUser :=
  {| au_id := "u1"; au_email := "grace@example.org";
     raw_user_meta_data :=
       Some [("full_name", JString "Grace"); ("role", JString "teacher")];
     raw_app_metadata := None |}.

(** A signup that asks for a role that is no label of [app_role]. *)
Definition new_principal : AuthUser :=
  {| au_id := "u2"; au_email := "eve@example.org";
     raw_user_meta_data :=
       Some [("full_name", JString "Eve"); ("role", JString "principal")];
     raw_app_metadata := None |}.

(** A signup that asks for no role. *)
Definition new_plain : AuthUser :=
  {| au_id := "u3"; au_email := "bob@example.org";
     raw_user_meta_data := Some [("full_name", JString "Bob")];
     raw_app_metadata := None |}.

(** The tables when the trigger fires for [NEW]: the row of [NEW] has
    just been inserted into [auth.users]. *)
Definition on_signup (NEW : AuthUser) : Tables :=
  {| profiles := []; user_roles := []; auth_users := [NEW] |}.


End SignupSpec.

(** ** Further statements *)

Module MoreSpec.

(** The letters from worst to best. *)
Definition rank (letter : string) : nat :=
  if String.eqb letter "A" then 4
  else if String.eqb letter "B" then 3
  else if String.eqb letter "C" then 2
  else if String.eqb letter "D" then 1
  else 0.

(** The letter the results list shows for a score: the percentage is
    rounded, then bucketed. *)
Definition list_letter (score max : Q) : string :=
  StudentResults.grade
    (StudentResults.getGrade
       (Math_round (mul (div (Fin score) (Fin max)) (Fin 100)))).

(** A number is a whole percentage between 0 and 100. *)
Definition whole_percentage (x : number) : Prop :=
  exists z : Z, (0 <= z <= 100)%Z /\ x = Fin (inject_Z z).

(** The percentage a card of the results list shows, when it shows one. *)
Definition card_percentage (c : StudentResults.Card) : option number :=
  match StudentResults.card_score c with
  | StudentResults.ScoreDetail _ _ pct _ _ => Some pct
  | StudentResults.ResultsPending => None
  end.

(** No entry is older than one that comes after it. *)
Definition latest_first (l : list StudentResults.Result) : Prop :=
  StronglySorted
    (fun a b =>
       (StudentResults.submitted_at b <= StudentResults.submitted_at a)%Z)
    l.

(** The same for the report card, where a submission that was not handed
    in ([submitted_at] null) comes before all others. *)
Definition latest_first_rows (l : list ReportCard.ResultRow) : Prop :=
  StronglySorted
    (fun a b =>
       match ReportCard.submitted_at a, ReportCard.submitted_at b with
       | None, _ => True
       | Some _, None => False
       | Some x, Some y => (y <= x)%Z
       end)
    l.

End MoreSpec.

Module GradingMoreSpec.

Import SubmissionDetail.

(** The updates [first], then the updates [second]: a field the second
    sets wins. *)
Definition and_then (first second : Updates) : Updates :=
  {| set_is_correct :=
       match set_is_correct second with
       | Some v => Some v
       | None => set_is_correct first
       end;
     set_marks_awarded :=
       match set_marks_awarded second with
       | Some v => Some v
       | None => set_marks_awarded first
       end;
     set_feedback :=
       match set_feedback second with
       | Some v => Some v
       | None => set_feedback first
       end |}.

(** What a student handed in: the columns of an answer a grader does not
    write. *)
Definition handed_in (r : Db.AnswerRow)
  : string * string * string * string * Z :=
  (Db.ans_id r, Db.ans_submission_id r, Db.ans_question_id r,
   Db.ans_answer_text r, Db.ans_created_at r).

(** The columns of a submission a grader does not write. *)
Definition attempt (s : Db.SubmissionRow)
  : string * string * string * Z * option Z * Q :=
  (Db.sub_id s, Db.sub_exam_id s, Db.sub_student_id s, Db.sub_started_at s,
   Db.sub_submitted_at s, Db.sub_max_score s).

(** The grade of an answer as the page holds it. *)
Definition grade_of (a : Answer) : option bool * option Q * option string :=
  (is_correct a, marks_awarded a, feedback a).

(** The third request of a load fails, the others do not. *)
Definition answers_request_fails (faults : Faults) : Prop :=
  faults 0%nat = None /\ faults 2%nat <> None.

End GradingMoreSpec.

Module ProfileSpec.

Import ProfilePage.

(** A student with one profile row. *)
Definition ada : User :=
  {| user_id := "stu1"; user_email := Some "ada@example.org" |}.

Definition stored_profiles : list StoredProfile :=
  [ {| row := {| Db.prof_user_id := "stu1"; Db.prof_full_name := "Ada";
                 Db.prof_email := "ada@example.org";
                 Db.prof_student_id := None; Db.prof_class := None |};
       updated_at := "2026-01-17T12:00:00Z" |};
    {| row := {| Db.prof_user_id := "t1"; Db.prof_full_name := "Grace";
                 Db.prof_email := "grace@example.org";
                 Db.prof_student_id := None; Db.prof_class := None |};
       updated_at := "2026-01-17T12:00:00Z" |} ].

(** The form once Ada has typed her name, her id and her class. *)
Definition filled : State :=
  handleChange "class" "Grade 10"
    (handleChange "student_id" "STD-001"
       (handleChange "full_name" "Ada L."
          (fst (fetchProfile false stored_profiles ada initial)))).

End ProfileSpec.

(* ------------------------------------------------------------------ *)
(** * Properties *)

(** ** Rational sums *)

Lemma or0_eq (x : Q) : or0 x == x.
Proof.
  unfold or0. destruct (Qeq_bool x 0) eqn:E.
  - apply Qeq_bool_eq in E. symmetry. exact E.
  - reflexivity.
Qed.

Lemma fold_left_sum {A} (f g : A -> Q) (l : list A) (acc : Q) :
  (forall x, f x == g x) ->
  fold_left (fun sum x => sum + f x) l acc == acc + Qsum (map g l).
Proof.
  intros Hfg. revert acc.
  induction l as [|x l IH]; intros acc; simpl.
  - ring.
  - rewrite IH, Hfg. ring.
Qed.

Lemma Qsum_perm (l l' : list Q) : Permutation l l' -> Qsum l == Qsum l'.
Proof.
  induction 1; simpl.
  - reflexivity.
  - rewrite IHPermutation. reflexivity.
  - ring.
  - rewrite IHPermutation1. exact IHPermutation2.
Qed.

Lemma Qlt_bool_iff (a b : Q) : Qlt_bool a b = true <-> a < b.
Proof.
  unfold Qlt_bool. rewrite negb_true_iff.
  split; intros H.
  - apply Qnot_le_lt. intros Hle. apply Qle_bool_iff in Hle. congruence.
  - destruct (Qle_bool b a) eqn:E; [|reflexivity].
    apply Qle_bool_iff in E. lra.
Qed.

Lemma Qlt_bool_false (a b : Q) : Qlt_bool a b = false <-> b <= a.
Proof.
  unfold Qlt_bool. rewrite negb_false_iff. apply Qle_bool_iff.
Qed.

Lemma Qeq_bool_false (a b : Q) : ~ a == b -> Qeq_bool a b = false.
Proof.
  intros H. destruct (Qeq_bool a b) eqn:E; [|reflexivity].
  apply Qeq_bool_eq in E. contradiction.
Qed.

Lemma Qle_bool_false (a b : Q) : Qle_bool a b = false <-> b < a.
Proof.
  split; intros H.
  - apply Qnot_le_lt. intros Hle. apply Qle_bool_iff in Hle. congruence.
  - destruct (Qle_bool a b) eqn:E; [|reflexivity].
    apply Qle_bool_iff in E. lra.
Qed.

(* ------------------------------------------------------------------ *)
(** ** Rounding to binary64 *)

Module Binary64.

(** On these operations [round64] gives the value the binary64
    arithmetic of the kernel gives: quotients and products that are not
    exact, a sum that is a tie, overflow, subnormal numbers
    ([0x1.1ccf385ebc8ap+1023] is [1e308], [0x0.730d67819e8d2p-1022] is
    [1e-308]) and division by zero. *)
Example round64_is_binary64 :
  mul (div (Fin 23) (Fin 40)) (Fin 100) = of_float (23 / 40 * 100)%float
  /\ mul (div (Fin 26) (Fin 29)) (Fin 100) = of_float (26 / 29 * 100)%float
  /\ Fin (literal (81 # 10)) = of_float (81 / 10)%float
  /\ mul (div (Fin (literal (81 # 10))) (Fin 9)) (Fin 100)
     = of_float (81 / 10 / 9 * 100)%float
  /\ add (Fin (literal (1 # 10))) (Fin (literal (2 # 10)))
     = of_float (1 / 10 + 2 / 10)%float
  /\ div (Fin (-1)) (Fin 3) = of_float (-1 / 3)%float
  /\ mul (Fin (pow2 1023)) (Fin 100) = of_float (0x1p1023 * 100)%float
  /\ add (Fin (pow2 1023)) (Fin (pow2 1023))
     = of_float (0x1p1023 + 0x1p1023)%float
  /\ div (Fin (pow2 (-1074))) (Fin 2) = of_float (0x1p-1074 / 2)%float
  /\ div (Fin (3 * pow2 (-1074))) (Fin 2)
     = of_float (3 * 0x1p-1074 / 2)%float
  /\ add (Fin (pow2 53)) (Fin 1) = of_float (0x1p53 + 1)%float
  /\ add (Fin (pow2 53 + 2)) (Fin 1) = of_float (0x1p53 + 2 + 1)%float
  /\ mul (Fin (literal (1 # 10))) (Fin 3) = of_float (1 / 10 * 3)%float
  /\ div (Fin 1) (Fin (literal (inject_Z (10 ^ 308))))
     = of_float (1 / 0x1.1ccf385ebc8ap+1023)%float
  /\ mul (Fin (literal (1 # 10 ^ 308))) (Fin (pow2 (-60)))
     = of_float (0x0.730d67819e8d2p-1022 * 0x1p-60)%float
  /\ div (Fin 0) (Fin 0) = of_float (0 / 0)%float
  /\ div (Fin 3) (Fin 0) = of_float (3 / 0)%float.
Proof. vm_compute. repeat split. Qed.

Lemma pow2_pos (k : Z) : 0 < pow2 k.
Proof. apply Qpower_0_lt. reflexivity. Qed.

Lemma pow2_add (j k : Z) : pow2 (j + k) == pow2 j * pow2 k.
Proof. apply Qpower_plus. discriminate. Qed.

Lemma pow2_le (j k : Z) : (j <= k)%Z -> pow2 j <= pow2 k.
Proof.
  intros H. apply Qpower_le_compat_l; [exact H | discriminate].
Qed.

Lemma pow2_lt_inv (j k : Z) : pow2 j < pow2 k -> (j < k)%Z.
Proof.
  intros H. apply (Qpower_lt_compat_l_inv 2); [exact H | reflexivity].
Qed.

Lemma pow2_Z (k : Z) : (0 <= k)%Z -> pow2 k == inject_Z (2 ^ k).
Proof.
  intros H. unfold pow2. rewrite Zpower_Qpower by exact H. reflexivity.
Qed.

Lemma ilog2_spec (q : Q) :
  0 < q -> pow2 (ilog2 q) <= q /\ q < pow2 (ilog2 q + 1).
Proof.
  intros Hq. destruct q as [n d].
  assert (Hn : (0 < n)%Z) by (unfold Qlt in Hq; simpl in Hq; lia).
  unfold ilog2. cbn [Qnum Qden].
  set (a := Z.log2 n). set (b := Z.log2 (Zpos d)).
  destruct (Z.log2_spec n Hn) as [Ha1 Ha2]. fold a in Ha1, Ha2.
  destruct (Z.log2_spec (Zpos d) (Pos2Z.is_pos d)) as [Hb1 Hb2].
  fold b in Hb1, Hb2.
  assert (Ha0 : (0 <= a)%Z) by apply Z.log2_nonneg.
  assert (Hb0 : (0 <= b)%Z) by apply Z.log2_nonneg.
  assert (HA1 : pow2 a <= inject_Z n).
  { rewrite pow2_Z by exact Ha0. rewrite <- Zle_Qle. exact Ha1. }
  assert (HA2 : inject_Z n < pow2 (a + 1)).
  { rewrite pow2_Z by lia. rewrite <- Zlt_Qlt. exact Ha2. }
  assert (HB1 : pow2 b <= inject_Z (Zpos d)).
  { rewrite pow2_Z by exact Hb0. rewrite <- Zle_Qle. exact Hb1. }
  assert (HB2 : inject_Z (Zpos d) < pow2 (b + 1)).
  { rewrite pow2_Z by lia. rewrite <- Zlt_Qlt. exact Hb2. }
  assert (Hd : 0 < inject_Z (Zpos d)) by reflexivity.
  assert (Hlow : pow2 (a - b - 1) <= n # d).
  { rewrite (Qmake_Qdiv n d). apply Qle_shift_div_l; [exact Hd|].
    assert (E : pow2 (a - b - 1) * pow2 (b + 1) == pow2 a).
    { rewrite <- pow2_add. replace (a - b - 1 + (b + 1))%Z with a by lia.
      reflexivity. }
    pose proof (pow2_pos (a - b - 1)). nra. }
  assert (Hup : n # d < pow2 (a - b + 1)).
  { rewrite (Qmake_Qdiv n d). apply Qlt_shift_div_r; [exact Hd|].
    assert (E : pow2 (a - b + 1) * pow2 b == pow2 (a + 1)).
    { rewrite <- pow2_add. replace (a - b + 1 + b)%Z with (a + 1)%Z by lia.
      reflexivity. }
    pose proof (pow2_pos (a - b + 1)). nra. }
  destruct (Qle_bool (pow2 (a - b)) (n # d)) eqn:E.
  - apply Qle_bool_iff in E. split; [exact E | exact Hup].
  - apply Qle_bool_false in E. split; [exact Hlow|].
    replace (a - b - 1 + 1)%Z with (a - b)%Z by lia. exact E.
Qed.

Lemma ilog2_mono (a b : Q) : 0 < a -> a <= b -> (ilog2 a <= ilog2 b)%Z.
Proof.
  intros Ha Hab.
  destruct (ilog2_spec a Ha) as [H1 _].
  destruct (ilog2_spec b) as [_ H2]; [lra|].
  assert (H : pow2 (ilog2 a) < pow2 (ilog2 b + 1)) by lra.
  apply pow2_lt_inv in H. lia.
Qed.

Lemma round_half_even_floor (m : Q) :
  round_half_even m = Qfloor m \/ round_half_even m = (Qfloor m + 1)%Z.
Proof.
  unfold round_half_even.
  destruct (Qlt_bool _ _); [left; reflexivity|].
  destruct (Qlt_bool _ _); [right; reflexivity|].
  destruct (Z.even _); [left | right]; reflexivity.
Qed.

Lemma round_half_even_Z (z : Z) : round_half_even (inject_Z z) = z.
Proof.
  unfold round_half_even. rewrite Qfloor_Z.
  assert (E : Qlt_bool (inject_Z z - inject_Z z) (1 # 2) = true).
  { apply Qlt_bool_iff. lra. }
  rewrite E. reflexivity.
Qed.

Lemma round_half_even_mono (x y : Q) :
  x <= y -> (round_half_even x <= round_half_even y)%Z.
Proof.
  intros Hxy.
  pose proof (Qfloor_resp_le x y Hxy) as Hf.
  destruct (Z.eq_dec (Qfloor x) (Qfloor y)) as [E | NE].
  - unfold round_half_even. rewrite E.
    destruct (Qlt_bool (x - inject_Z (Qfloor y)) (1 # 2)) eqn:X1;
      [apply Qlt_bool_iff in X1 | apply Qlt_bool_false in X1];
    destruct (Qlt_bool (1 # 2) (x - inject_Z (Qfloor y))) eqn:X2;
      [apply Qlt_bool_iff in X2 | apply Qlt_bool_false in X2
      |apply Qlt_bool_iff in X2 | apply Qlt_bool_false in X2];
    destruct (Qlt_bool (y - inject_Z (Qfloor y)) (1 # 2)) eqn:Y1;
      try apply Qlt_bool_iff in Y1; try apply Qlt_bool_false in Y1;
    destruct (Qlt_bool (1 # 2) (y - inject_Z (Qfloor y))) eqn:Y2;
      try apply Qlt_bool_iff in Y2; try apply Qlt_bool_false in Y2;
    destruct (Z.even (Qfloor y)); try lia; exfalso; lra.
  - destruct (round_half_even_floor x) as [-> | ->],
             (round_half_even_floor y) as [-> | ->]; lia.
Qed.

Lemma nearest_nonneg (q : Q) : 0 < q -> 0 <= nearest q.
Proof.
  intros Hq. unfold nearest.
  pose proof (pow2_pos (ulp_exponent q)) as Hp.
  assert (H : (0 <= round_half_even (q / pow2 (ulp_exponent q)))%Z).
  { rewrite <- (round_half_even_Z 0). apply round_half_even_mono.
    apply Qle_shift_div_l; [exact Hp|]. change (inject_Z 0) with 0. lra. }
  rewrite Zle_Qle in H.
  apply Qmult_le_0_compat; [exact H | lra].
Qed.

Lemma nearest_mono (a b : Q) : 0 < a -> a <= b -> nearest a <= nearest b.
Proof.
  intros Ha Hab. assert (Hb : 0 < b) by lra.
  pose proof (ilog2_mono a b Ha Hab) as Hl.
  destruct (ilog2_spec a Ha) as [_ Ha2].
  destruct (ilog2_spec b Hb) as [Hb1 _].
  unfold nearest.
  set (ea := ulp_exponent a). set (eb := ulp_exponent b).
  pose proof (pow2_pos ea) as Hpa. pose proof (pow2_pos eb) as Hpb.
  destruct (Z.eq_dec ea eb) as [E | NE].
  - rewrite E.
    assert (H : (round_half_even (a / pow2 eb)
                 <= round_half_even (b / pow2 eb))%Z).
    { apply round_half_even_mono.
      apply Qle_shift_div_l; [exact Hpb|].
      unfold Qdiv. rewrite <- Qmult_assoc, (Qmult_comm (/ _)),
        Qmult_inv_r, Qmult_1_r by lra. exact Hab. }
    rewrite Zle_Qle in H.
    apply Qmult_le_compat_r; [exact H | lra].
  - assert (Hlt : (ea < eb)%Z) by (unfold ea, eb, ulp_exponent in *; lia).
    assert (Heb : eb = (ilog2 b - 52)%Z)
      by (unfold ea, eb, ulp_exponent in *; lia).
    assert (Hea : (ilog2 a + 1 <= 53 + ea)%Z)
      by (unfold ea, ulp_exponent; lia).
    (* the upper side of [a] *)
    assert (HA : (round_half_even (a / pow2 ea) <= 2 ^ 53)%Z).
    { rewrite <- (round_half_even_Z (2 ^ 53)). apply round_half_even_mono.
      apply Qle_shift_div_r; [exact Hpa|].
      rewrite <- pow2_Z by lia. rewrite <- pow2_add.
      pose proof (pow2_le _ _ Hea). lra. }
    assert (HB : (2 ^ 52 <= round_half_even (b / pow2 eb))%Z).
    { rewrite <- (round_half_even_Z (2 ^ 52)) at 1.
      apply round_half_even_mono.
      apply Qle_shift_div_l; [exact Hpb|].
      rewrite <- pow2_Z by lia. rewrite <- pow2_add.
      replace (52 + eb)%Z with (ilog2 b) by lia. exact Hb1. }
    rewrite Zle_Qle in HA, HB.
    rewrite <- pow2_Z in HA, HB by lia.
    assert (H1 : inject_Z (round_half_even (a / pow2 ea)) * pow2 ea
                 <= pow2 (53 + ea)).
    { rewrite pow2_add. apply Qmult_le_compat_r; [exact HA | lra]. }
    assert (H2 : pow2 (52 + eb)
                 <= inject_Z (round_half_even (b / pow2 eb)) * pow2 eb).
    { rewrite pow2_add. apply Qmult_le_compat_r; [exact HB | lra]. }
    assert (Hee : (53 + ea <= 52 + eb)%Z) by lia.
    pose proof (pow2_le _ _ Hee). lra.
Qed.

Lemma round64_mono (a b b' : Q) :
  0 <= a -> a <= b -> round64 b = Fin b' ->
  exists a', round64 a = Fin a' /\ 0 <= a' /\ a' <= b'.
Proof.
  intros Ha Hab Hb. unfold round64 in *.
  destruct (Qeq_bool b 0) eqn:Eb.
  - apply Qeq_bool_eq in Eb.
    assert (Hb' : 0 = b') by congruence. subst b'.
    assert (E : Qeq_bool a 0 = true) by (apply Qeq_eq_bool; lra).
    rewrite E. exists 0. repeat split; lra.
  - assert (Hb0 : 0 < b).
    { apply Qeq_bool_neq in Eb. lra. }
    rewrite (proj2 (Qlt_bool_iff 0 b) Hb0) in Hb. cbv zeta in Hb.
    destruct (Qle_bool (pow2 1024) (nearest b)) eqn:Ob; [discriminate|].
    apply Qle_bool_false in Ob.
    assert (Hb' : Qred (nearest b) = b') by congruence. subst b'. clear Hb.
    destruct (Qeq_bool a 0) eqn:Ea.
    + exists 0. split; [reflexivity|]. split; [lra|].
      pose proof (Qred_correct (nearest b)).
      pose proof (nearest_nonneg b Hb0). lra.
    + assert (Ha0 : 0 < a).
      { apply Qeq_bool_neq in Ea. lra. }
      rewrite (proj2 (Qlt_bool_iff 0 a) Ha0). cbv zeta.
      pose proof (nearest_mono a b Ha0 Hab) as Hm.
      pose proof (nearest_nonneg a Ha0) as Hn.
      destruct (Qle_bool (pow2 1024) (nearest a)) eqn:Oa.
      * apply Qle_bool_iff in Oa. lra.
      * eexists. split; [reflexivity|].
        pose proof (Qred_correct (nearest a)).
        pose proof (Qred_correct (nearest b)). split; lra.
Qed.

(** A result between [0] and a binary64 value [bound] is rounded to a
    number between [0] and [bound]. *)
Lemma round64_bounded (q bound : Q) :
  round64 bound = Fin bound -> 0 <= q -> q <= bound ->
  exists q', round64 q = Fin q' /\ 0 <= q' /\ q' <= bound.
Proof.
  intros Hbound H0 Hle. exact (round64_mono q bound bound H0 Hle Hbound).
Qed.

End Binary64.

(* ------------------------------------------------------------------ *)
(** ** Scoring *)

Module Scoring.

Import ScoringSpec.
Import ReportCard.

(** The specification's example: 10/10 and 5/10 give 75. *)
Example two_exams_average :
  average (calculateStats two_exams) = Fin 75
  /\ spec_aggregate_pct (results two_exams) = Fin 75.
Proof. vm_compute. split; reflexivity. Qed.

(** The aggregate weighs each submission by its maximum: 10/10 and 0/30
    give 25, where the mean of 100 and 0 is 50. *)
Example weighted_not_mean :
  average (calculateStats {| profile := None; results := uneven_exams |})
  = Fin 25
  /\ mean_of_percentages uneven_exams = Fin 50.
Proof. vm_compute. split; reflexivity. Qed.

Lemma calculateStats_cons (p : option Profile) (r : ResultRow)
    (rs : list ResultRow) :
  let data := {| profile := p; results := r :: rs |} in
  calculateStats data
  = {| average :=
         Math_round (average_of (totalObtained (calculateStats data))
                                (totalMax (calculateStats data)));
       totalObtained := totalObtained (calculateStats data);
       totalMax := totalMax (calculateStats data);
       grade := StudentResults.grade
                  (StudentResults.getGrade
                     (average_of (totalObtained (calculateStats data))
                                 (totalMax (calculateStats data)))) |}.
Proof.
  unfold calculateStats. cbn [results totalObtained totalMax].
  unfold StudentResults.getGrade.
  set (avg := average_of _ _).
  destruct (avg />= 90), (avg />= 80), (avg />= 70), (avg />= 60);
    reflexivity.
Qed.

(** Where the numbers leave the range of binary64 the guard of the
    division does not help: a score of [1e308] of 1 shows an infinite
    aggregate, and two scores of [1e308] of [1e308] add up to [Infinity]
    twice, whose quotient is [NaN]. *)
Example aggregate_overflows :
  average (calculateStats {| profile := None; results := [huge_row 1] |})
  = PosInf
  /\ totalMax (calculateStats
                 {| profile := None;
                    results := [huge_row (literal (inject_Z (10 ^ 308)));
                                huge_row (literal (inject_Z (10 ^ 308)))] |})
     = PosInf
  /\ average (calculateStats
                {| profile := None;
                   results := [huge_row (literal (inject_Z (10 ^ 308)));
                               huge_row (literal (inject_Z (10 ^ 308)))] |})
     = NaN.
Proof. vm_compute. repeat split. Qed.

(** C4, at the failing input. The scores 10 of 20 and 13 of 20 add up to
    23 of 40, which is 57.5 per cent and rounds to 58. The report card
    computes [(23 / 40) * 100] in binary64: the quotient is rounded below
    0.575, the product is 57.49999999999999, and the page shows 57
    (with the product taken first, [23 * 100 / 40], it would be 58). *)
Theorem aggregate_of_half_point :
  totalObtained (calculateStats half_point_exams) = Fin 23
  /\ totalMax (calculateStats half_point_exams) = Fin 40
  /\ average_of (Fin 23) (Fin 40)
     = Fin (8092405580431359 # 140737488355328)
  /\ average (calculateStats half_point_exams) = Fin 57
  /\ spec_aggregate_pct (results half_point_exams) = Fin 58
  /\ Math_round (div (mul (Fin 23) (Fin 100)) (Fin 40)) = Fin 58.
Proof. vm_compute. repeat split. Qed.

(** *** Letter grades *)

Lemma ge_Fin (q k : Q) : (Fin q />= k) = Qle_bool k q.
Proof. reflexivity. Qed.

Ltac bucket q :=
  repeat match goal with
    | |- context [Qle_bool ?k q] =>
        let E := fresh "E" in
        destruct (Qle_bool k q) eqn:E;
        [apply Qle_bool_iff in E | apply Qle_bool_false in E]
    end.

Lemma getGrade_thresholds (q : Q) :
  let g := StudentResults.grade (StudentResults.getGrade (Fin q)) in
  (g = "A" <-> 90 <= q)
  /\ (g = "B" <-> 80 <= q /\ q < 90)
  /\ (g = "C" <-> 70 <= q /\ q < 80)
  /\ (g = "D" <-> 60 <= q /\ q < 70)
  /\ (g = "F" <-> q < 60).
Proof.
  unfold StudentResults.getGrade. rewrite !ge_Fin. bucket q;
    cbn [StudentResults.grade]; cbv zeta;
    repeat split; intros; try discriminate; try lra.
Qed.

Lemma getResultGrade_getGrade (score max : Q) :
  getResultGrade score max
  = StudentResults.grade
      (StudentResults.getGrade (mul (div (Fin score) (Fin max)) (Fin 100))).
Proof.
  unfold getResultGrade, StudentResults.getGrade. cbv zeta.
  set (pct := mul _ _).
  destruct (pct />= 90), (pct />= 80), (pct />= 70), (pct />= 60);
    reflexivity.
Qed.

Lemma render_result_grade (result : StudentResults.Result) :
  shown_grade (StudentResults.render_result result).
Proof.
  unfold shown_grade, StudentResults.render_result.
  cbn [StudentResults.card_score].
  destruct (match StudentResults.exam result with
            | Some e => StudentResults.results_published e
            | None => false
            end); [|exact I].
  split; [reflexivity|].
  destruct (_ />= 60); split; split; intros; try discriminate; reflexivity.
Qed.

(** How each page buckets: the letter of a percentage [pct] is A iff
    [pct >= 90], B iff [80 <= pct < 90], C iff [70 <= pct < 80], D iff
    [60 <= pct < 70] and F otherwise; the rows of the report card and its
    overall grade use this table on the percentage before it is rounded,
    the results list on the rounded one; the verdict is "Passed" iff
    [pct >= 60]; 90 is A, 89 is B, 70 is C, 69 and 60 are D, 59 is F. *)
Theorem letter_grade_table :
  (forall q : Q,
     let g := StudentResults.grade (StudentResults.getGrade (Fin q)) in
     (g = "A" <-> 90 <= q)
     /\ (g = "B" <-> 80 <= q /\ q < 90)
     /\ (g = "C" <-> 70 <= q /\ q < 80)
     /\ (g = "D" <-> 60 <= q /\ q < 70)
     /\ (g = "F" <-> q < 60))
  /\ (forall score max : Q,
        getResultGrade score max
        = StudentResults.grade
            (StudentResults.getGrade
               (mul (div (Fin score) (Fin max)) (Fin 100))))
  /\ (forall p r rs,
        let stats := calculateStats {| profile := p; results := r :: rs |} in
        grade stats
        = StudentResults.grade
            (StudentResults.getGrade
               (average_of (totalObtained stats) (totalMax stats))))
  /\ (forall result, shown_grade (StudentResults.render_result result))
  /\ map (fun pct => StudentResults.grade
                       (StudentResults.getGrade (Fin (inject_Z pct))))
         [90; 89; 70; 69; 60; 59]%Z
     = ["A"; "B"; "C"; "D"; "D"; "F"].
Proof.
  split; [exact getGrade_thresholds|].
  split; [exact getResultGrade_getGrade|].
  split.
  { intros p r rs stats. subst stats.
    rewrite calculateStats_cons at 1. reflexivity. }
  split; [exact render_result_grade|].
  reflexivity.
Qed.

(** C7, at the failing input. A submission with 26 marks of 29 has 89.66
    per cent. The results list rounds the percentage and then buckets
    it: it shows 90% with an A. The report card buckets the percentage
    before it rounds it: its row shows 90% with a B, and so does its
    summary. The letter next to a percentage is then not the letter the
    table gives that percentage. *)
Theorem letters_of_near_ninety :
  StudentResults.card_score (StudentResults.render_result near_ninety_result)
  = StudentResults.ScoreDetail 26 29 (Fin 90)
      {| StudentResults.grade := "A";
         StudentResults.color := "text-success" |}
      "Passed"
  /\ row_percentage (render_row near_ninety_row) = Fin 90
  /\ row_grade (render_row near_ninety_row) = "B"
  /\ average (calculateStats {| profile := None;
                                results := [near_ninety_row] |}) = Fin 90
  /\ grade (calculateStats {| profile := None;
                              results := [near_ninety_row] |}) = "B"
  /\ ~ letter_of_shown_percentage
         (row_percentage (render_row near_ninety_row))
         (row_grade (render_row near_ninety_row)).
Proof.
  assert (Hpct : row_percentage (render_row near_ninety_row) = Fin 90)
    by (vm_compute; reflexivity).
  assert (Hletter : row_grade (render_row near_ninety_row) = "B")
    by (vm_compute; reflexivity).
  split; [vm_compute; reflexivity|].
  split; [exact Hpct|]. split; [exact Hletter|].
  split; [vm_compute; reflexivity|].
  split; [vm_compute; reflexivity|].
  rewrite Hpct, Hletter. intros [[_ H] _].
  assert (E : "B" = "A") by (apply H; apply Qle_refl).
  discriminate E.
Qed.

(** *** An exam without marks *)

(** C6, at the failing input. For a submission with [total_score = 0] and
    [max_score = 0] the results list and the report-card row compute the
    percentage [NaN], not [0]; only the aggregate of [calculateStats]
    guards the division and yields [0]. *)
Theorem zero_max_score_percentage :
  StudentResults.card_score (StudentResults.render_result no_marks_result)
  = StudentResults.ScoreDetail 0 0 NaN
      {| StudentResults.grade := "F";
         StudentResults.color := "text-destructive" |}
      "Failed"
  /\ row_percentage (render_row no_marks_row) = NaN
  /\ average (calculateStats {| profile := None; results := [no_marks_row] |})
     = Fin 0.
Proof. repeat split. Qed.

(** With marks obtained and a maximum of [0] the percentage is infinite. *)
Example zero_max_score_infinite :
  row_percentage
    (render_row {| id := "s0"; total_score := 3; max_score := 0;
                   submitted_at := None; exam := exam no_marks_row |})
  = PosInf.
Proof. reflexivity. Qed.

End Scoring.

(* ------------------------------------------------------------------ *)
(** ** Queries *)

Lemma insert_by_perm {A} (le : A -> A -> bool) (x : A) (l : list A) :
  Permutation (Db.insert_by le x l) (x :: l).
Proof.
  induction l as [|y l IH]; simpl.
  - apply Permutation_refl.
  - destruct (le x y).
    + apply Permutation_refl.
    + eapply perm_trans; [apply perm_skip, IH | apply perm_swap].
Qed.

Lemma order_by_perm {A} (le : A -> A -> bool) (l : list A) :
  Permutation (Db.order_by le l) l.
Proof.
  induction l as [|x l IH]; simpl.
  - apply perm_nil.
  - eapply perm_trans; [apply insert_by_perm | apply perm_skip, IH].
Qed.

Lemma in_order_by {A} (le : A -> A -> bool) (l : list A) (x : A) :
  In x (Db.order_by le l) <-> In x l.
Proof.
  split; apply Permutation_in;
    [apply order_by_perm | apply Permutation_sym, order_by_perm].
Qed.

Lemma NoDup_map_filter {R K} (key : R -> K) (keep : R -> bool)
    (rows : list R) :
  NoDup (map key rows) -> NoDup (map key (filter keep rows)).
Proof.
  intros Hkeys. induction rows as [|row rows IH]; simpl in *.
  - constructor.
  - inversion Hkeys as [|? ? Hrow Hrows]; subst.
    destruct (keep row); simpl; [constructor|]; auto.
    intros Hin. apply Hrow. apply in_map_iff in Hin.
    destruct Hin as [other [Hkey Hin]]. apply filter_In in Hin.
    apply in_map_iff. exists other. tauto.
Qed.

Lemma filter_map_comm {A} (f : A -> A) (p : A -> bool) (l : list A) :
  (forall x, p (f x) = p x) -> filter p (map f l) = map f (filter p l).
Proof.
  intros H. induction l as [|x l IH]; simpl.
  - reflexivity.
  - rewrite H. destruct (p x); simpl; rewrite IH; reflexivity.
Qed.

(* ------------------------------------------------------------------ *)
(** ** Grading *)

Module Grading.

Import GradingSpec.
Import SubmissionDetail.

Lemma persist_student_answers (l : list Answer) (db : Db.t) :
  Db.student_answers (persist l db)
  = map (graded_row l) (Db.student_answers db).
Proof.
  unfold persist, graded_row. revert db.
  induction l as [|a l IH]; intros db; simpl.
  - symmetry. apply map_id.
  - rewrite IH. simpl. apply map_map.
Qed.

Lemma persist_exam_submissions (l : list Answer) (db : Db.t) :
  Db.exam_submissions (persist l db) = Db.exam_submissions db.
Proof.
  unfold persist. revert db.
  induction l as [|a l IH]; intros db; simpl; [|rewrite IH]; reflexivity.
Qed.

Lemma update_answer_row_keys (a : Answer) (r : Db.AnswerRow) :
  Db.ans_id (update_answer_row a r) = Db.ans_id r
  /\ Db.ans_submission_id (update_answer_row a r) = Db.ans_submission_id r.
Proof.
  unfold update_answer_row.
  destruct (String.eqb (Db.ans_id r) (id a)); split; reflexivity.
Qed.

Lemma graded_row_keys (l : list Answer) (r : Db.AnswerRow) :
  Db.ans_id (graded_row l r) = Db.ans_id r
  /\ Db.ans_submission_id (graded_row l r) = Db.ans_submission_id r.
Proof.
  unfold graded_row. revert r.
  induction l as [|a l IH]; intros r; simpl.
  - split; reflexivity.
  - destruct (IH (update_answer_row a r)) as [H1 H2].
    destruct (update_answer_row_keys a r) as [H3 H4].
    split; congruence.
Qed.

Lemma graded_row_miss (l : list Answer) (r : Db.AnswerRow) :
  ~ In (Db.ans_id r) (map id l) -> graded_row l r = r.
Proof.
  unfold graded_row. revert r.
  induction l as [|a l IH]; intros r H; simpl.
  - reflexivity.
  - assert (Hne : String.eqb (Db.ans_id r) (id a) = false).
    { apply String.eqb_neq. intros E. apply H. left. symmetry. exact E. }
    unfold update_answer_row at 2. rewrite Hne.
    apply IH. intros Hin. apply H. right. exact Hin.
Qed.

Lemma graded_row_hit (l : list Answer) (a : Answer) (r : Db.AnswerRow) :
  NoDup (map id l) -> In a l -> Db.ans_id r = id a ->
  Db.ans_marks_awarded (graded_row l r) = marks_awarded a
  /\ Db.ans_is_correct (graded_row l r) = is_correct a
  /\ Db.ans_feedback (graded_row l r) = feedback a.
Proof.
  revert r.
  induction l as [|b l IH]; intros r Hnd Hin Hid; [destruct Hin|].
  simpl in Hnd. inversion Hnd as [|? ? Hb Hl]; subst.
  change (graded_row (b :: l) r) with (graded_row l (update_answer_row b r)).
  destruct Hin as [-> | Hin].
  - rewrite graded_row_miss.
    + unfold update_answer_row.
      rewrite (proj2 (String.eqb_eq _ _) Hid). repeat split.
    + rewrite (proj1 (update_answer_row_keys a r)), Hid. exact Hb.
  - assert (Hne : String.eqb (Db.ans_id r) (id b) = false).
    { apply String.eqb_neq. intros E. apply Hb. rewrite <- E, Hid.
      apply in_map. exact Hin. }
    unfold update_answer_row. rewrite Hne. apply IH; assumption.
Qed.

(** The loop stops at the first request [k] that fails, with the answers
    before it written, or writes them all. *)
Lemma update_each_spec (faults : Faults) (n : nat) (l : list Answer)
    (db : Db.t) :
  exists k,
    (k <= List.length l)%nat
    /\ (forall j, (j < k)%nat -> faults (n + j)%nat = None)
    /\ fst (update_each faults n l db) = persist (firstn k l) db
    /\ match snd (update_each faults n l db) with
       | Some error => (k < List.length l)%nat /\ faults (n + k)%nat = Some error
       | None => k = List.length l
       end.
Proof.
  revert n db.
  induction l as [|a l IH]; intros n db; simpl.
  - exists 0%nat. repeat split; [lia | intros; lia].
  - destruct (faults n) as [error|] eqn:E.
    + exists 0%nat. simpl. rewrite Nat.add_0_r.
      repeat split; [lia | intros; lia | lia | exact E].
    + destruct (IH (S n) (update_student_answer db a))
        as [k [Hk [Hj [Hdb Hres]]]].
      exists (S k). split; [lia|]. split.
      { intros [|j] Hlt.
        - rewrite Nat.add_0_r. exact E.
        - rewrite Nat.add_succ_r. apply Hj. lia. }
      split; [exact Hdb|].
      destruct (snd (update_each faults (S n) l (update_student_answer db a))).
      * rewrite Nat.add_succ_r. split; [lia | apply Hres].
      * lia.
Qed.

Lemma saveGrading_spec (faults : Faults) (db : Db.t) (sid : string)
    (st : State) :
  let r := saveGrading faults db sid st in
  let n := List.length (answers st) in
  exists k,
    (k <= n)%nat
    /\ (forall j, (j < k)%nat -> faults j = None)
    /\ Db.student_answers (db_after r)
       = map (graded_row (firstn k (answers st))) (Db.student_answers db)
    /\ match thrown r with
       | Some error =>
           faults k = Some error
           /\ Db.exam_submissions (db_after r) = Db.exam_submissions db
       | None =>
           k = n
           /\ faults n = None
           /\ Db.exam_submissions (db_after r)
              = map (update_submission_row sid (totalScore (answers st)))
                    (Db.exam_submissions db)
       end.
Proof.
  cbv zeta. unfold saveGrading.
  destruct (update_each_spec faults 0 (answers st) db)
    as [k [Hk [Hj [Hdb Hres]]]].
  destruct (update_each faults 0 (answers st) db) as [db1 [error|]];
    cbn [fst snd] in *; subst db1.
  - exists k. cbn [db_after thrown]. destruct Hres as [Hlt Hf].
    rewrite persist_student_answers, persist_exam_submissions.
    repeat split; auto.
  - subst k. rewrite firstn_all in *.
    exists (List.length (answers st)). rewrite firstn_all.
    destruct (faults (List.length (answers st))) as [subError|] eqn:E.
    + cbn [db_after thrown].
      rewrite persist_student_answers, persist_exam_submissions.
      repeat split; auto.
    + destruct (fetchData faults (S (List.length (answers st))) _ sid st)
        as [st' loads].
      cbn [db_after thrown]. unfold update_submission.
      cbn [Db.student_answers Db.exam_submissions].
      rewrite persist_student_answers, persist_exam_submissions.
      repeat split; auto.
Qed.

Lemma saveGrading_no_fault (faults : Faults) (db : Db.t) (sid : string)
    (st : State) :
  (forall k, (k <= List.length (answers st))%nat -> faults k = None) ->
  let r := saveGrading faults db sid st in
  thrown r = None
  /\ Db.student_answers (db_after r)
     = map (graded_row (answers st)) (Db.student_answers db)
  /\ Db.exam_submissions (db_after r)
     = map (update_submission_row sid (totalScore (answers st)))
           (Db.exam_submissions db).
Proof.
  intros Hok. cbv zeta.
  destruct (saveGrading_spec faults db sid st) as [k [Hk [_ [Hrows Hres]]]].
  cbv zeta in *.
  destruct (thrown (saveGrading faults db sid st)) as [error|].
  - destruct Hres as [Hf _]. rewrite (Hok k Hk) in Hf. discriminate.
  - destruct Hres as [-> [_ Hsub]]. rewrite firstn_all in Hrows. auto.
Qed.

Lemma saveGrading_saved (faults : Faults) (db : Db.t) (sid : string)
    (st : State) :
  let r := saveGrading faults db sid st in
  thrown r = None ->
  Db.student_answers (db_after r)
  = map (graded_row (answers st)) (Db.student_answers db)
  /\ Db.exam_submissions (db_after r)
     = map (update_submission_row sid (totalScore (answers st)))
           (Db.exam_submissions db).
Proof.
  cbv zeta. intros Hnone.
  destruct (saveGrading_spec faults db sid st) as [k [Hk [_ [Hrows Hres]]]].
  cbv zeta in *. rewrite Hnone in Hres.
  destruct Hres as [-> [_ Hsub]]. rewrite firstn_all in Hrows. auto.
Qed.

Lemma graded_submission (sid : string) (t : Q) (subs : list Db.SubmissionRow)
    (s : Db.SubmissionRow) :
  In s (map (update_submission_row sid t) subs) -> Db.sub_id s = sid ->
  Db.sub_is_graded s = true /\ Db.sub_total_score s = t.
Proof.
  intros Hin Hid. apply in_map_iff in Hin. destruct Hin as [s0 [<- _]].
  unfold update_submission_row in *.
  destruct (String.eqb (Db.sub_id s0) sid) eqn:E.
  - split; reflexivity.
  - apply String.eqb_neq in E. contradiction.
Qed.

(** *** The fixture: a submission with two answers *)

Example loaded_answers :
  map id (answers loaded) = ["a1"; "a2"]
  /\ map marks_awarded (answers loaded) = [None; None]
  /\ map marks_input (answers loaded)
     = [ {| input_max := Some 5; input_value := 0 |};
         {| input_max := Some 5; input_value := 0 |} ].
Proof. repeat split. Qed.

(** *** All or nothing *)

Example second_fails_outcome :
  let r := saveGrading second_fails db0 "sub1" marked in
  thrown r = Some "request failed"
  /\ map Db.ans_marks_awarded (Db.student_answers (db_after r))
     = [Some 4; None]
  /\ Db.exam_submissions (db_after r) = Db.exam_submissions db0.
Proof. repeat split. Qed.

(** C1, counterexample. When the second of two answer updates fails the
    grade of the first answer is persisted all the same. *)
Lemma all_or_nothing_fails : ~ all_or_nothing second_fails db0 "sub1" marked.
Proof.
  unfold all_or_nothing. cbv zeta.
  change (thrown (saveGrading second_fails db0 "sub1" marked))
    with (Some "request failed").
  intros [H _].
  apply (f_equal (map Db.ans_marks_awarded)) in H.
  vm_compute in H. discriminate H.
Qed.

(** C1, amended. A save writes the answers one request after the other
    and stops at the first request that fails. When request [k] is the
    first to fail, the save throws its error, the grades of the [k]
    answers before it are persisted, those of the later answers are not,
    and the submission row keeps its [is_graded] and [total_score] (for
    [k = n] it is the update of the submission that fails, after all the
    answers were written). When no request fails every grade is
    persisted and the submission gets the total and [is_graded = true]. *)
Theorem grading_stops_at_first_failure (faults : Faults) (db : Db.t)
    (sid : string) (st : State) :
  let r := saveGrading faults db sid st in
  let n := List.length (answers st) in
  (forall k error,
     (k <= n)%nat ->
     (forall j, (j < k)%nat -> faults j = None) ->
     faults k = Some error ->
     thrown r = Some error
     /\ Db.student_answers (db_after r)
        = map (graded_row (firstn k (answers st))) (Db.student_answers db)
     /\ Db.exam_submissions (db_after r) = Db.exam_submissions db)
  /\ ((forall k, (k <= n)%nat -> faults k = None) ->
      thrown r = None
      /\ Db.student_answers (db_after r)
         = map (graded_row (answers st)) (Db.student_answers db)
      /\ Db.exam_submissions (db_after r)
         = map (update_submission_row sid (totalScore (answers st)))
               (Db.exam_submissions db)).
Proof.
  cbv zeta. split.
  - intros k error Hk Hbefore Hfail.
    destruct (saveGrading_spec faults db sid st)
      as [k' [Hk' [Hbefore' [Hrows Hres]]]].
    cbv zeta in *.
    assert (Hsame : k' = k).
    { destruct (Nat.lt_trichotomy k' k) as [Hlt | [Heq | Hgt]].
      - exfalso. destruct (thrown (saveGrading faults db sid st)).
        + destruct Hres as [Hf _]. rewrite (Hbefore k' Hlt) in Hf.
          discriminate.
        + destruct Hres as [Hn _]. lia.
      - exact Heq.
      - rewrite (Hbefore' k Hgt) in Hfail. discriminate. }
    subst k'.
    destruct (thrown (saveGrading faults db sid st)) as [error'|].
    + destruct Hres as [Hf Hsubs]. rewrite Hfail in Hf.
      inversion Hf; subst. auto.
    + destruct Hres as [Hn [Hf _]]. rewrite Hn, Hf in Hfail.
      discriminate.
  - intros Hok. apply (saveGrading_no_fault faults db sid st Hok).
Qed.

Lemma grading_stops_at_first_failure_witness :
  let r := saveGrading second_fails db0 "sub1" marked in
  thrown r = Some "request failed"
  /\ Db.student_answers (db_after r)
     = map (graded_row (firstn 1 (answers marked))) (Db.student_answers db0)
  /\ Db.exam_submissions (db_after r) = Db.exam_submissions db0.
Proof.
  apply (proj1 (grading_stops_at_first_failure second_fails db0 "sub1" marked)
               1%nat "request failed").
  - simpl. lia.
  - intros [|j] Hj; [reflexivity | lia].
  - reflexivity.
Defined.

(** *** Range of the marks *)

(** The claim of validation fails: 50 marks typed for a question worth 5
    are saved without an error. *)
Lemma validates_marks_fails : ~ validates_marks no_faults db0 "sub1" overmarked.
Proof.
  unfold validates_marks. intros H.
  destruct H as [Hthrown _].
  - exists overmarked_answer.
    split; [left; reflexivity | right; reflexivity].
  - apply Hthrown. reflexivity.
Qed.

(** C2, at the failing input. The grader types 50 marks for the answer
    [a1], whose question is worth 5: the marks lie outside
    [0, question.marks]. The input of the answer carries [max = 5], yet
    the save is not rejected: no error is thrown, the row of the answer
    holds 50 marks, and the submission is graded with a total of 50. *)
Theorem out_of_range_marks_are_saved :
  let r := saveGrading no_faults db0 "sub1" overmarked in
  In overmarked_answer (answers overmarked)
  /\ out_of_range overmarked_answer
  /\ input_max (marks_input overmarked_answer) = Some 5
  /\ thrown r = None
  /\ map (fun row => (Db.ans_id row, Db.ans_marks_awarded row))
         (Db.student_answers (db_after r))
     = [("a1", Some 50); ("a2", None)]
  /\ map (fun s => (Db.sub_id s, Db.sub_total_score s, Db.sub_is_graded s))
         (Db.exam_submissions (db_after r))
     = [("sub1", 50, true)]
  /\ map (fun s => (Db.sub_id s, Db.sub_total_score s, Db.sub_is_graded s))
         (Db.exam_submissions db0)
     = [("sub1", 0, false)].
Proof.
  cbv zeta.
  split; [left; reflexivity|].
  split; [right; reflexivity|].
  repeat split.
Qed.

(** *** The total *)

Lemma find_by_id (l : list Answer) (a : Answer) :
  NoDup (map id l) -> In a l ->
  find (fun x => String.eqb (id x) (id a)) l = Some a.
Proof.
  induction l as [|b l IH]; intros Hnd Hin; [destruct Hin|].
  simpl in Hnd. inversion Hnd as [|? ? Hb Hl]; subst. simpl.
  destruct Hin as [-> | Hin].
  - rewrite String.eqb_refl. reflexivity.
  - destruct (String.eqb (id b) (id a)) eqn:E.
    + apply String.eqb_eq in E. exfalso. apply Hb. rewrite E.
      apply in_map. exact Hin.
    + apply IH; assumption.
Qed.

Lemma answers_of_saved (l : list Answer) (sid : string) (db db' : Db.t) :
  Db.student_answers db' = map (graded_row l) (Db.student_answers db) ->
  answers_of sid db' = map (graded_row l) (answers_of sid db).
Proof.
  intros H. unfold answers_of. rewrite H. apply filter_map_comm.
  intros r. unfold belongs_to. rewrite (proj2 (graded_row_keys l r)).
  reflexivity.
Qed.

(** The total a save stores is the sum over the rows of the submission. *)
Lemma saved_total (faults : Faults) (db : Db.t) (sid : string) (st : State) :
  NoDup (map Db.ans_id (Db.student_answers db)) ->
  Permutation (map id (answers st)) (map Db.ans_id (answers_of sid db)) ->
  let r := saveGrading faults db sid st in
  thrown r = None ->
  forall s, In s (Db.exam_submissions (db_after r)) -> Db.sub_id s = sid ->
    Db.sub_is_graded s = true
    /\ Db.sub_total_score s
       == Qsum (map (fun row => or0_null (Db.ans_marks_awarded row))
                    (answers_of sid (db_after r))).
Proof.
  intros Hkeys Hperm. cbv zeta. intros Hnone s Hs Hid.
  destruct (saveGrading_saved faults db sid st Hnone) as [Hrows Hsubs].
  rewrite Hsubs in Hs.
  destruct (graded_submission _ _ _ _ Hs Hid) as [Hg Ht].
  split; [exact Hg|]. rewrite Ht.
  rewrite (answers_of_saved _ _ _ _ Hrows).
  assert (Hnd : NoDup (map id (answers st))).
  { eapply Permutation_NoDup; [apply Permutation_sym, Hperm|].
    apply NoDup_map_filter, Hkeys. }
  unfold totalScore.
  rewrite (fold_left_sum _ (fun a => or0_null (marks_awarded a)))
    by (intros; reflexivity).
  assert (Hleft : forall a, In a (answers st) ->
            or0_null (marks_awarded a) = marks_of (answers st) (id a)).
  { intros a Ha. unfold marks_of. rewrite (find_by_id _ _ Hnd Ha).
    reflexivity. }
  assert (Hright : forall row, In row (answers_of sid db) ->
            or0_null (Db.ans_marks_awarded (graded_row (answers st) row))
            = marks_of (answers st) (Db.ans_id row)).
  { intros row Hrow.
    assert (Hin : In (Db.ans_id row) (map id (answers st))).
    { eapply Permutation_in; [apply Permutation_sym, Hperm|].
      apply in_map, Hrow. }
    apply in_map_iff in Hin. destruct Hin as [a [Ha Hin]].
    destruct (graded_row_hit _ _ row Hnd Hin (eq_sym Ha)) as [Hm _].
    rewrite Hm, <- Ha. apply Hleft, Hin. }
  rewrite Qplus_0_l, map_map.
  rewrite (map_ext_in _ _ _ Hleft), (map_ext_in _ _ _ Hright).
  rewrite <- (map_map id (marks_of (answers st))).
  rewrite <- (map_map Db.ans_id (marks_of (answers st))).
  apply Qsum_perm, Permutation_map, Hperm.
Qed.


Example marked_outcome :
  let r := saveGrading no_faults db0 "sub1" marked in
  map Db.ans_marks_awarded (Db.student_answers (db_after r))
  = [Some 4; Some 3]
  /\ map (fun s => (Db.sub_total_score s, Db.sub_is_graded s))
         (Db.exam_submissions (db_after r))
     = [(7, true)]
  /\ map marks_awarded (answers (state_after r)) = [Some 4; Some 3]
  /\ option_map s_total_score (submission (state_after r)) = Some 7.
Proof. repeat split. Qed.

(** *** What the page holds *)

Lemma select_answers_ids (db : Db.t) (sid : string) :
  Permutation (map id (select_answers db sid))
              (map Db.ans_id (answers_of sid db)).
Proof.
  unfold select_answers, answers_of. rewrite map_map. cbn [id].
  apply Permutation_map, order_by_perm.
Qed.

Lemma handleGradeUpdate_ids (answerId : string) (updates : Updates)
    (st : State) :
  map id (answers (handleGradeUpdate answerId updates st))
  = map id (answers st).
Proof.
  unfold handleGradeUpdate. cbn [answers]. rewrite map_map.
  apply map_ext. intros a.
  destruct (String.eqb (id a) answerId); reflexivity.
Qed.

Lemma fetchData_answers (faults : Faults) (n : nat) (db : Db.t)
    (sid : string) (st : State) :
  answers (fst (fetchData faults n db sid st)) = answers st
  \/ answers (fst (fetchData faults n db sid st)) = select_answers db sid.
Proof.
  unfold fetchData.
  destruct (match faults n with
            | Some _ => None
            | None => select_submission db sid
            end); [|left; reflexivity].
  destruct (faults (n + 2)%nat); [left | right]; reflexivity.
Qed.

(** A load whose requests succeed puts the answers of the submission on
    the page. *)
Lemma fetchData_loaded (n : nat) (db : Db.t) (sid : string) (st : State)
    (sub : Db.SubmissionRow) :
  select_submission db sid = Some sub ->
  let st' := fst (fetchData no_faults n db sid st) in
  answers st' = select_answers db sid
  /\ Permutation (map id (answers st')) (map Db.ans_id (answers_of sid db)).
Proof.
  intros Hsub. cbv zeta. unfold fetchData, no_faults. rewrite Hsub.
  cbn [fst answers]. split; [reflexivity | apply select_answers_ids].
Qed.

Lemma saved_ids (l : list Answer) (sid : string) (db db' : Db.t) :
  Db.student_answers db' = map (graded_row l) (Db.student_answers db) ->
  map Db.ans_id (Db.student_answers db') = map Db.ans_id (Db.student_answers db)
  /\ map Db.ans_id (answers_of sid db') = map Db.ans_id (answers_of sid db).
Proof.
  intros H. rewrite (answers_of_saved _ _ _ _ H), H, !map_map.
  split; apply map_ext; intros r; apply (proj1 (graded_row_keys l r)).
Qed.

(** After a save that succeeded the page still holds the answers of the
    submission, whether its reload succeeded or not. *)
Lemma saved_state_ids (faults : Faults) (db : Db.t) (sid : string)
    (st : State) :
  Permutation (map id (answers st)) (map Db.ans_id (answers_of sid db)) ->
  let r := saveGrading faults db sid st in
  thrown r = None ->
  Permutation (map id (answers (state_after r)))
              (map Db.ans_id (answers_of sid (db_after r))).
Proof.
  intros Hperm. cbv zeta. intros Hnone.
  destruct (saveGrading_saved faults db sid st Hnone) as [Hrows _].
  destruct (saved_ids _ sid _ _ Hrows) as [_ Hids].
  revert Hnone Hids. unfold saveGrading.
  destruct (update_each faults 0 (answers st) db) as [db1 [error|]];
    [discriminate|].
  destruct (faults (List.length (answers st))); [discriminate|].
  pose proof (fetchData_answers faults (S (List.length (answers st)))
                (update_submission db1 sid
                   (fold_left (fun sum a => sum + or0_null (marks_awarded a))
                              (answers st) 0))
                sid st) as Hload.
  destruct (fetchData faults (S (List.length (answers st))) _ sid st)
    as [st' loads].
  cbn [fst db_after state_after with_saving answers] in *.
  intros _ Hids. destruct Hload as [-> | ->].
  - rewrite Hids. exact Hperm.
  - apply select_answers_ids.
Qed.

(** On a page that holds the answers of the submission, the
    [total_score] a save stores is the sum of the [marks_awarded] of the
    rows of all its answers (a null counting for 0), and so it is after a
    re-grade, which is one more save. *)
Lemma total_score_of_loaded_page (faults : Faults) (db : Db.t)
    (sid : string) (st : State) :
  NoDup (map Db.ans_id (Db.student_answers db)) ->
  Permutation (map id (answers st)) (map Db.ans_id (answers_of sid db)) ->
  let r := saveGrading faults db sid st in
  thrown r = None ->
  graded_with_sum sid (db_after r)
  /\ forall faults' answerId updates,
       let r' := saveGrading faults' (db_after r) sid
                   (handleGradeUpdate answerId updates (state_after r)) in
       thrown r' = None ->
       graded_with_sum sid (db_after r').
Proof.
  intros Hkeys Hperm. cbv zeta. intros Hnone. split.
  - exact (saved_total faults db sid st Hkeys Hperm Hnone).
  - intros faults' answerId updates Hnone'.
    destruct (saveGrading_saved faults db sid st Hnone) as [Hrows _].
    destruct (saved_ids _ sid _ _ Hrows) as [Hall _].
    unfold graded_with_sum. apply saved_total.
    + rewrite Hall. exact Hkeys.
    + rewrite handleGradeUpdate_ids.
      apply (saved_state_ids faults db sid st Hperm Hnone).
    + exact Hnone'.
Qed.

(** C5, at the failing input. The submission is graded with 4 and 3
    marks, a total of 7. The grading page is opened again and the request
    for the answers fails: the page shows the submission and holds no
    answer. A save from this page succeeds and stores a total of 0 with
    [is_graded = true], while the rows of the answers still hold 4 and 3
    marks: the total is not the sum of the marks of the answers. *)
Theorem total_of_a_page_without_answers :
  let page := fst (fetchData answers_fail 0 graded_db "sub1" initial) in
  let r := saveGrading no_faults graded_db "sub1" page in
  map (fun s => (Db.sub_id s, Db.sub_total_score s, Db.sub_is_graded s))
      (Db.exam_submissions graded_db)
  = [("sub1", 7, true)]
  /\ option_map s_total_score (submission page) = Some 7
  /\ answers page = []
  /\ thrown r = None
  /\ map (fun row => (Db.ans_id row, Db.ans_submission_id row,
                      Db.ans_marks_awarded row))
         (Db.student_answers (db_after r))
     = [("a1", "sub1", Some 4); ("a2", "sub1", Some 3)]
  /\ map (fun s => (Db.sub_id s, Db.sub_total_score s, Db.sub_is_graded s))
         (Db.exam_submissions (db_after r))
     = [("sub1", 0, true)]
  /\ ~ graded_with_sum "sub1" (db_after r).
Proof.
  cbv zeta.
  do 6 (split; [vm_compute; reflexivity|]).
  intros H.
  let rows :=
    eval vm_compute in
      (Db.exam_submissions
         (db_after (saveGrading no_faults graded_db "sub1"
                      (fst (fetchData answers_fail 0 graded_db "sub1"
                              initial))))) in
  match rows with
  | ?s :: _ => destruct (H s) as [_ Hsum]
  end.
  - left. vm_compute. reflexivity.
  - reflexivity.
  - vm_compute in Hsum. discriminate Hsum.
Qed.

Example regrade_outcome :
  let r := saveGrading no_faults db0 "sub1" marked in
  let r' := saveGrading no_faults (db_after r) "sub1"
              (marks_onChange "a2" (Some 5) (state_after r)) in
  map Db.ans_marks_awarded (Db.student_answers (db_after r'))
  = [Some 4; Some 5]
  /\ map (fun s => (Db.sub_total_score s, Db.sub_is_graded s))
         (Db.exam_submissions (db_after r'))
     = [(9, true)].
Proof. repeat split. Qed.

(** *** Answers without marks *)

(** An answer without marks adds [0] to the total, which leaves the sum
    as it is. *)
Lemma Qplus_0_r_eq (x : Q) : x + 0 = x.
Proof.
  destruct x as [n d]. unfold Qplus. cbn [Qnum Qden].
  f_equal; [lia | apply Pos.mul_1_r].
Qed.

Lemma totalScore_with_marks (l : list Answer) :
  totalScore l = totalScore (with_marks l).
Proof.
  unfold totalScore. generalize 0 as acc.
  induction l as [|a l IH]; intros acc; [reflexivity|].
  cbn [fold_left with_marks filter].
  destruct (marks_awarded a) as [m|] eqn:E.
  - cbn [fold_left]. rewrite E. apply IH.
  - cbn [or0_null]. rewrite Qplus_0_r_eq. apply IH.
Qed.

(** C10. A save with answers whose [marks_awarded] is still null is not
    rejected. When no request fails it throws nothing; the table of the
    submissions is the one before with the row of the submission set to
    [is_graded = true] and to the total, in which an answer without marks
    counts for 0 (the total is that of the answers that have marks); the
    table of the answers is the one before with the grades of the page
    written, and the row of an answer without marks keeps a null
    [marks_awarded]. *)
Theorem null_marks_count_as_zero (faults : Faults) (db : Db.t)
    (sid : string) (st : State) :
  NoDup (map id (answers st)) ->
  (forall k, (k <= List.length (answers st))%nat -> faults k = None) ->
  let r := saveGrading faults db sid st in
  thrown r = None
  /\ Db.exam_submissions (db_after r)
     = map (update_submission_row sid (totalScore (answers st)))
           (Db.exam_submissions db)
  /\ Db.student_answers (db_after r)
     = map (graded_row (answers st)) (Db.student_answers db)
  /\ totalScore (answers st) = totalScore (with_marks (answers st))
  /\ (forall s, In s (Db.exam_submissions db) -> Db.sub_id s = sid ->
        exists s', In s' (Db.exam_submissions (db_after r))
                   /\ Db.sub_id s' = sid
                   /\ Db.sub_is_graded s' = true
                   /\ Db.sub_total_score s' = totalScore (answers st))
  /\ (forall a row,
        In a (answers st) -> marks_awarded a = None ->
        In row (Db.student_answers db) -> Db.ans_id row = id a ->
        exists row', In row' (Db.student_answers (db_after r))
                     /\ Db.ans_id row' = id a
                     /\ Db.ans_marks_awarded row' = None)
  /\ (forall s, In s (Db.exam_submissions (db_after r)) -> Db.sub_id s = sid ->
        Db.sub_is_graded s = true
        /\ Db.sub_total_score s = totalScore (answers st))
  /\ (forall a row,
        In a (answers st) -> marks_awarded a = None ->
        In row (Db.student_answers (db_after r)) -> Db.ans_id row = id a ->
        Db.ans_marks_awarded row = None).
Proof.
  intros Hnd Hok. cbv zeta.
  destruct (saveGrading_no_fault faults db sid st Hok)
    as [Hnone [Hrows Hsubs]].
  cbv zeta in *.
  split; [exact Hnone|]. split; [exact Hsubs|]. split; [exact Hrows|].
  split; [apply totalScore_with_marks|]. split; [|split; [|split]].
  - intros s Hs Hid.
    exists (update_submission_row sid (totalScore (answers st)) s).
    split; [rewrite Hsubs; apply in_map, Hs|].
    unfold update_submission_row.
    rewrite (proj2 (String.eqb_eq _ _) Hid). cbn. auto.
  - intros a row Ha Hnull Hrow Hid.
    exists (graded_row (answers st) row).
    split; [rewrite Hrows; apply in_map, Hrow|].
    split; [rewrite (proj1 (graded_row_keys _ _)); exact Hid|].
    rewrite <- Hnull. apply (graded_row_hit _ _ _ Hnd Ha Hid).
  - intros s Hs Hid. rewrite Hsubs in Hs.
    apply (graded_submission _ _ _ _ Hs Hid).
  - intros a row Ha Hnull Hrow Hid. rewrite Hrows in Hrow.
    apply in_map_iff in Hrow. destruct Hrow as [r0 [<- _]].
    rewrite (proj1 (graded_row_keys _ _)) in Hid.
    rewrite <- Hnull. apply (graded_row_hit _ _ _ Hnd Ha Hid).
Qed.

Lemma NoDup_half_marked : NoDup (map id (answers half_marked)).
Proof.
  change (NoDup ["a1"; "a2"]).
  repeat constructor; simpl; intuition discriminate.
Qed.

Lemma null_marks_count_as_zero_witness :
  let r := saveGrading no_faults db0 "sub1" half_marked in
  map (fun s => (Db.sub_id s, Db.sub_total_score s, Db.sub_is_graded s))
      (Db.exam_submissions (db_after r))
  = [("sub1", 4, true)]
  /\ map (fun row => (Db.ans_id row, Db.ans_marks_awarded row))
         (Db.student_answers (db_after r))
     = [("a1", Some 4); ("a2", None)]
  /\ thrown r = None
  /\ Db.exam_submissions (db_after r)
     = map (update_submission_row "sub1" (totalScore (answers half_marked)))
           (Db.exam_submissions db0)
  /\ Db.student_answers (db_after r)
     = map (graded_row (answers half_marked)) (Db.student_answers db0)
  /\ totalScore (answers half_marked)
     = totalScore (with_marks (answers half_marked)).
Proof.
  cbv zeta.
  destruct (null_marks_count_as_zero no_faults db0 "sub1" half_marked
              NoDup_half_marked (fun k _ => eq_refl))
    as [Hnone [Hsubs [Hrows [Htotal _]]]].
  split; [rewrite Hsubs; vm_compute; reflexivity|].
  split; [rewrite Hrows; vm_compute; reflexivity|].
  split; [exact Hnone|]. split; [exact Hsubs|].
  split; [exact Hrows | exact Htotal].
Defined.

(** The submission becomes graded with a total of 4 while its second
    answer has no marks. *)
Example half_marked_outcome :
  let r := saveGrading no_faults db0 "sub1" half_marked in
  thrown r = None
  /\ map Db.ans_marks_awarded (Db.student_answers (db_after r))
     = [Some 4; None]
  /\ map (fun s => (Db.sub_total_score s, Db.sub_is_graded s))
         (Db.exam_submissions (db_after r))
     = [(4, true)].
Proof. repeat split. Qed.

End Grading.

(* ------------------------------------------------------------------ *)
(** ** Publishing *)

Module Publishing.

Import PublishingSpec.
Example ungraded_card :
  map StudentResults.card_score
      (map StudentResults.render_result
           (StudentResults.fetchResults false db_ungraded "stu1"))
  = [ StudentResults.ScoreDetail 3 10 (Fin 30)
        {| StudentResults.grade := "F";
           StudentResults.color := "text-destructive" |}
        "Failed" ].
Proof. reflexivity. Qed.

(** C3, counterexample. Once the exam is published the list shows the
    score of a submission that is not graded. *)
Lemma detail_shown_ungraded :
  ~ detail_needs_graded_and_published db_ungraded "stu1".
Proof.
  intros H.
  destruct (H (listed db_ungraded
                 {| Db.sub_id := "sub1"; Db.sub_exam_id := "e1";
                    Db.sub_student_id := "stu1"; Db.sub_started_at := 0%Z;
                    Db.sub_submitted_at := Some 10%Z;
                    Db.sub_total_score := 3; Db.sub_max_score := 10;
                    Db.sub_is_graded := false |} 10%Z)) as [Hg _].
  - left. reflexivity.
  - reflexivity.
  - discriminate Hg.
Qed.

Lemma in_select_results (db : Db.t) (user : string)
    (result : StudentResults.Result) :
  In result (StudentResults.select_results db user) <->
  exists s at_,
    In s (Db.exam_submissions db)
    /\ Db.sub_student_id s = user
    /\ Db.sub_submitted_at s = Some at_
    /\ result = listed db s at_.
Proof.
  unfold StudentResults.select_results.
  rewrite in_order_by, in_flat_map. split.
  - intros [s [Hs Hin]].
    destruct (Db.sub_submitted_at s) as [at_|] eqn:Eat; [|destruct Hin].
    destruct (String.eqb (Db.sub_student_id s) user) eqn:Eu; [|destruct Hin].
    destruct Hin as [<- | []].
    exists s, at_. apply String.eqb_eq in Eu. auto.
  - intros [s [at_ [Hs [Hu [Hat ->]]]]].
    exists s. split; [exact Hs|]. rewrite Hat.
    rewrite (proj2 (String.eqb_eq _ _) Hu). left. reflexivity.
Qed.

Lemma in_report_card (db : Db.t) (user : string) (row : ReportCard.ResultRow) :
  In row (ReportCard.results (ReportCard.fetchReportData false false db user))
  <->
  exists s e,
    In s (Db.exam_submissions db)
    /\ Db.sub_student_id s = user
    /\ Db.sub_is_graded s = true
    /\ Db.exam_of db s = Some e
    /\ Db.exam_results_published e = true
    /\ row = reported s e.
Proof.
  unfold ReportCard.fetchReportData, ReportCard.validResults,
    ReportCard.select_graded.
  cbn [ReportCard.results]. rewrite in_flat_map. split.
  - intros [[s oe] [Hin Hrow]].
    apply in_order_by, in_map_iff in Hin.
    destruct Hin as [s' [Heq Hin]]. inversion Heq; subst s' oe. clear Heq.
    apply filter_In in Hin. destruct Hin as [Hs Hcond].
    apply andb_true_iff in Hcond. destruct Hcond as [Hu Hg].
    apply String.eqb_eq in Hu. apply Bool.eqb_prop in Hg.
    cbn [fst snd] in Hrow. unfold ReportCard.embed_published_exam in Hrow.
    destruct (Db.exam_of db s) as [e|] eqn:Ee; [|destruct Hrow].
    destruct (Db.exam_results_published e) eqn:Ep; [|destruct Hrow].
    destruct Hrow as [<- | []].
    exists s, e. auto 10.
  - intros [s [e [Hs [Hu [Hg [He [Hp ->]]]]]]].
    exists (s, ReportCard.embed_published_exam db s). split.
    + apply in_order_by.
      apply (in_map (fun s => (s, ReportCard.embed_published_exam db s))).
      apply filter_In. split; [exact Hs|].
      rewrite Hg, (proj2 (String.eqb_eq _ _) Hu). reflexivity.
    + cbn [fst snd]. unfold ReportCard.embed_published_exam.
      rewrite He, Hp. left. reflexivity.
Qed.

Lemma listed_published (db : Db.t) (s : Db.SubmissionRow) (at_ : Z) :
  published (listed db s at_)
  = match Db.exam_of db s with
    | Some e => Db.exam_results_published e
    | None => false
    end.
Proof.
  unfold published, listed, StudentResults.embed_exam.
  cbn [StudentResults.exam].
  destruct (Db.exam_of db s); reflexivity.
Qed.

Lemma detail_iff_published (result : StudentResults.Result) :
  detail_visible (StudentResults.render_result result) = published result
  /\ (StudentResults.card_score (StudentResults.render_result result)
      = StudentResults.ResultsPending
      <-> published result = false).
Proof.
  unfold detail_visible, StudentResults.render_result, published.
  cbn [StudentResults.card_score].
  destruct (match StudentResults.exam result with
            | Some e => StudentResults.results_published e
            | None => false
            end); split; try reflexivity; split; intros; try discriminate;
    reflexivity.
Qed.

Lemma same_key (subs : list Db.SubmissionRow) (s s' : Db.SubmissionRow) :
  NoDup (map Db.sub_id subs) -> In s subs -> In s' subs ->
  Db.sub_id s = Db.sub_id s' -> s = s'.
Proof.
  induction subs as [|x l IH]; intros Hnd Hs Hs' Heq; [destruct Hs|].
  simpl in Hnd. inversion Hnd as [|? ? Hx Hl]; subst.
  destruct Hs as [-> | Hs], Hs' as [-> | Hs'].
  - reflexivity.
  - exfalso. apply Hx. rewrite Heq. apply in_map, Hs'.
  - exfalso. apply Hx. rewrite <- Heq. apply in_map, Hs.
  - apply IH; assumption.
Qed.

(** C3, amended. The results list holds every submission of the student
    that was handed in, and shows the score detail of an entry exactly
    when its exam has [results_published = true], "Results Pending"
    otherwise; the report card holds exactly the submissions that are
    graded and whose exam is published. So a graded submission of an
    unpublished exam is pending in the list and has no row on the report
    card. *)
Theorem publish_gating (db : Db.t) (user : string) :
  (forall result,
     In result (StudentResults.fetchResults false db user) <->
     exists s at_,
       In s (Db.exam_submissions db)
       /\ Db.sub_student_id s = user
       /\ Db.sub_submitted_at s = Some at_
       /\ result = listed db s at_)
  /\ (forall result,
        detail_visible (StudentResults.render_result result)
        = published result
        /\ (StudentResults.card_score (StudentResults.render_result result)
            = StudentResults.ResultsPending
            <-> published result = false))
  /\ (forall row,
        In row (ReportCard.results
                  (ReportCard.fetchReportData false false db user))
        <->
        exists s e,
          In s (Db.exam_submissions db)
          /\ Db.sub_student_id s = user
          /\ Db.sub_is_graded s = true
          /\ Db.exam_of db s = Some e
          /\ Db.exam_results_published e = true
          /\ row = reported s e)
  /\ (NoDup (map Db.sub_id (Db.exam_submissions db)) ->
      forall s e at_,
        In s (Db.exam_submissions db) ->
        Db.sub_student_id s = user ->
        Db.sub_submitted_at s = Some at_ ->
        Db.sub_is_graded s = true ->
        Db.exam_of db s = Some e ->
        Db.exam_results_published e = false ->
        In (listed db s at_) (StudentResults.fetchResults false db user)
        /\ StudentResults.card_score
             (StudentResults.render_result (listed db s at_))
           = StudentResults.ResultsPending
        /\ forall row,
             In row (ReportCard.results
                       (ReportCard.fetchReportData false false db user)) ->
             ReportCard.id row <> Db.sub_id s).
Proof.
  split; [intros result; apply in_select_results|].
  split; [exact detail_iff_published|].
  split; [intros row; apply in_report_card|].
  intros Hnd s e at_ Hs Hu Hat Hg He Hp.
  split; [|split].
  - apply in_select_results. exists s, at_. auto.
  - apply detail_iff_published. rewrite listed_published, He. exact Hp.
  - intros row Hrow Hid. apply in_report_card in Hrow.
    destruct Hrow as [s' [e' [Hs' [_ [_ [He' [Hp' ->]]]]]]].
    cbn [ReportCard.id reported] in Hid.
    assert (s' = s) by (eapply same_key; eauto). subst s'.
    congruence.
Qed.

Lemma NoDup_unpublished :
  NoDup (map Db.sub_id (Db.exam_submissions db_unpublished)).
Proof.
  change (NoDup ["sub1"]). repeat constructor. simpl. tauto.
Qed.

Lemma publish_gating_witness :
  let s := {| Db.sub_id := "sub1"; Db.sub_exam_id := "e1";
              Db.sub_student_id := "stu1"; Db.sub_started_at := 0%Z;
              Db.sub_submitted_at := Some 10%Z; Db.sub_total_score := 7;
              Db.sub_max_score := 10; Db.sub_is_graded := true |} in
  In (listed db_unpublished s 10%Z)
     (StudentResults.fetchResults false db_unpublished "stu1")
  /\ StudentResults.card_score
       (StudentResults.render_result (listed db_unpublished s 10%Z))
     = StudentResults.ResultsPending
  /\ forall row,
       In row (ReportCard.results
                 (ReportCard.fetchReportData false false db_unpublished
                    "stu1")) ->
       ReportCard.id row <> Db.sub_id s.
Proof.
  intros s.
  exact (proj2 (proj2 (proj2 (publish_gating db_unpublished "stu1")))
           NoDup_unpublished s
           {| Db.exam_row_id := "e1"; Db.exam_title := "Midterm";
              Db.exam_subject := "Mathematics"; Db.exam_type := "Exam";
              Db.exam_results_published := false |}
           10%Z (or_introl eq_refl) eq_refl eq_refl eq_refl eq_refl eq_refl).
Defined.

Example unpublished_views :
  map StudentResults.card_score
      (map StudentResults.render_result
           (StudentResults.fetchResults false db_unpublished "stu1"))
  = [StudentResults.ResultsPending]
  /\ ReportCard.results
       (ReportCard.fetchReportData false false db_unpublished "stu1")
     = [].
Proof. split; reflexivity. Qed.

End Publishing.

(* ------------------------------------------------------------------ *)
(** ** Signup *)

Lemma filter_unique_key {A K} (f : A -> K) (p : A -> bool) (k : K)
    (l : list A) :
  (forall x, p x = true -> f x = k) -> NoDup (map f l) ->
  (List.length (filter p l) <= 1)%nat.
Proof.
  intros Hp. induction l as [|x l IH]; simpl; intros Hnd; [lia|].
  inversion Hnd as [|? ? Hx Hl]; subst.
  destruct (p x) eqn:E; [|apply IH, Hl].
  assert (Hnone : filter p l = []).
  { destruct (filter p l) as [|y l'] eqn:F; [reflexivity|].
    exfalso. apply Hx.
    assert (Hy : In y (filter p l)) by (rewrite F; left; reflexivity).
    apply filter_In in Hy. destruct Hy as [Hy Hpy].
    rewrite (Hp x E), <- (Hp y Hpy). apply in_map, Hy. }
  rewrite Hnone. simpl. lia.
Qed.

Lemma filter_exists {A} (p : A -> bool) (l : list A) :
  existsb p l = true -> (1 <= List.length (filter p l))%nat.
Proof.
  induction l as [|x l IH]; simpl; [discriminate|].
  destruct (p x); simpl; [lia | exact IH].
Qed.

Lemma existsb_snoc {A} (p : A -> bool) (l : list A) (x : A) :
  p x = true -> existsb p (l ++ [x])%list = true.
Proof.
  intros H. rewrite existsb_app. simpl. rewrite H.
  destruct (existsb p l); reflexivity.
Qed.

Module Signup.

Import SignupSpec.
Import Migrations.

Lemma app_role_eqb_eq (a b : app_role) : app_role_eqb a b = true <-> a = b.
Proof. destruct a, b; simpl; split; intros; congruence. Qed.

Lemma cast_app_role_text (r : app_role) : cast_app_role (app_role_text r) = Some r.
Proof. destruct r; reflexivity. Qed.

Lemma same_grant_refl (g : RoleRow) : same_grant g g = true.
Proof.
  unfold same_grant. rewrite String.eqb_refl.
  destruct (role g); reflexivity.
Qed.

Lemma same_grant_key (g h : RoleRow) :
  same_grant g h = true ->
  (role_user_id h, role h) = (role_user_id g, role g).
Proof.
  unfold same_grant. intros H. apply andb_true_iff in H.
  destruct H as [Hu Hr]. apply String.eqb_eq in Hu.
  apply app_role_eqb_eq in Hr. congruence.
Qed.

Lemma existsb_false_key {A K} (f : A -> K) (p : A -> bool) (k : K)
    (l : list A) :
  (forall x, f x = k -> p x = true) -> existsb p l = false ->
  ~ In k (map f l).
Proof.
  intros Hp Hex Hin. apply in_map_iff in Hin. destruct Hin as [x [Hk Hx]].
  assert (existsb p l = true) by (apply existsb_exists; exists x; auto).
  congruence.
Qed.

Lemma NoDup_snoc {K} (l : list K) (k : K) :
  NoDup l -> ~ In k l -> NoDup (l ++ [k])%list.
Proof.
  intros Hl Hk. apply NoDup_app; [exact Hl | repeat constructor; simpl; tauto |].
  intros x Hx [<- | []]. exact (Hk Hx).
Qed.

Lemma insert_profile_do_nothing_unique (p : Db.ProfileRow)
    (l : list Db.ProfileRow) :
  NoDup (map Db.prof_user_id l) ->
  NoDup (map Db.prof_user_id (insert_profile_do_nothing p l)).
Proof.
  intros Hnd. unfold insert_profile_do_nothing.
  destruct (existsb (same_user p) l) eqn:E; [exact Hnd|].
  rewrite map_app. apply NoDup_snoc; [exact Hnd|].
  apply (existsb_false_key _ (same_user p)); [|exact E].
  intros x Hx. unfold same_user. rewrite Hx. apply String.eqb_refl.
Qed.

Lemma insert_profile_do_nothing_present (p : Db.ProfileRow)
    (l : list Db.ProfileRow) :
  existsb (same_user p) (insert_profile_do_nothing p l) = true.
Proof.
  unfold insert_profile_do_nothing.
  destruct (existsb (same_user p) l) eqn:E; [exact E|].
  apply existsb_snoc. unfold same_user. apply String.eqb_refl.
Qed.

Lemma insert_profile_do_update_ids (p : Db.ProfileRow)
    (l : list Db.ProfileRow) :
  existsb (same_user p) l = true ->
  map Db.prof_user_id (insert_profile_do_update p l) = map Db.prof_user_id l.
Proof.
  intros E. unfold insert_profile_do_update. rewrite E, map_map.
  apply map_ext. intros q. destruct (same_user p q); reflexivity.
Qed.

Lemma insert_profile_do_update_unique (p : Db.ProfileRow)
    (l : list Db.ProfileRow) :
  NoDup (map Db.prof_user_id l) ->
  NoDup (map Db.prof_user_id (insert_profile_do_update p l)).
Proof.
  intros Hnd. destruct (existsb (same_user p) l) eqn:E.
  - rewrite insert_profile_do_update_ids by exact E. exact Hnd.
  - unfold insert_profile_do_update. rewrite E, map_app.
    apply NoDup_snoc; [exact Hnd|].
    apply (existsb_false_key _ (same_user p)); [|exact E].
    intros x Hx. unfold same_user. rewrite Hx. apply String.eqb_refl.
Qed.

Lemma insert_profile_do_update_present (p : Db.ProfileRow)
    (l : list Db.ProfileRow) :
  existsb (same_user p) (insert_profile_do_update p l) = true.
Proof.
  unfold insert_profile_do_update.
  destruct (existsb (same_user p) l) eqn:E.
  - apply existsb_exists in E. destruct E as [q [Hq Hs]].
    apply existsb_exists.
    exists {| Db.prof_user_id := Db.prof_user_id q;
              Db.prof_full_name := Db.prof_full_name p;
              Db.prof_email := Db.prof_email p;
              Db.prof_student_id := Db.prof_student_id q;
              Db.prof_class := Db.prof_class q |}.
    split; [|exact Hs].
    apply in_map_iff. exists q. rewrite Hs. auto.
  - apply existsb_snoc. unfold same_user. apply String.eqb_refl.
Qed.

Lemma insert_profile_do_update_twice (p : Db.ProfileRow)
    (l : list Db.ProfileRow) :
  insert_profile_do_update p (insert_profile_do_update p l)
  = insert_profile_do_update p l.
Proof.
  unfold insert_profile_do_update at 1.
  rewrite insert_profile_do_update_present.
  unfold insert_profile_do_update.
  destruct (existsb (same_user p) l) eqn:E.
  - rewrite map_map. apply map_ext. intros q.
    destruct (same_user p q) eqn:S; cbn.
    + unfold same_user in *. cbn. rewrite S. reflexivity.
    + rewrite S. reflexivity.
  - assert (Hpp : same_user p p = true) by apply String.eqb_refl.
    rewrite map_app. cbn [map]. rewrite Hpp.
    f_equal.
    + rewrite <- (map_id l) at 2. apply map_ext_in. intros q Hq.
      destruct (same_user p q) eqn:S; [|reflexivity].
      assert (existsb (same_user p) l = true)
        by (apply existsb_exists; exists q; auto).
      congruence.
    + destruct p; reflexivity.
Qed.

Lemma insert_role_do_nothing_unique (g : RoleRow) (l : list RoleRow) :
  NoDup (map (fun r => (role_user_id r, role r)) l) ->
  NoDup (map (fun r => (role_user_id r, role r)) (insert_role_do_nothing g l)).
Proof.
  intros Hnd. unfold insert_role_do_nothing.
  destruct (existsb (same_grant g) l) eqn:E; [exact Hnd|].
  rewrite map_app. apply NoDup_snoc; [exact Hnd|].
  apply (existsb_false_key _ (same_grant g)); [|exact E].
  intros x Hx. inversion Hx as [[Hu Hr]]. unfold same_grant.
  rewrite Hu, Hr, String.eqb_refl. apply app_role_eqb_eq. reflexivity.
Qed.

Lemma insert_role_do_nothing_present (g : RoleRow) (l : list RoleRow) :
  existsb (same_grant g) (insert_role_do_nothing g l) = true.
Proof.
  unfold insert_role_do_nothing.
  destruct (existsb (same_grant g) l) eqn:E; [exact E|].
  apply existsb_snoc, same_grant_refl.
Qed.

Lemma insert_role_do_nothing_in (g : RoleRow) (l : list RoleRow) :
  In g (insert_role_do_nothing g l).
Proof.
  unfold insert_role_do_nothing.
  destruct (existsb (same_grant g) l) eqn:E.
  - apply existsb_exists in E. destruct E as [h [Hh Hs]].
    apply same_grant_key in Hs. destruct g, h. cbn in Hs.
    inversion Hs; subst. exact Hh.
  - apply in_or_app. right. left. reflexivity.
Qed.

Lemma insert_role_do_nothing_twice (g : RoleRow) (l : list RoleRow) :
  insert_role_do_nothing g (insert_role_do_nothing g l)
  = insert_role_do_nothing g l.
Proof.
  unfold insert_role_do_nothing at 1.
  rewrite insert_role_do_nothing_present. reflexivity.
Qed.

Lemma insert_profile_do_nothing_twice (p : Db.ProfileRow)
    (l : list Db.ProfileRow) :
  insert_profile_do_nothing p (insert_profile_do_nothing p l)
  = insert_profile_do_nothing p l.
Proof.
  unfold insert_profile_do_nothing at 1.
  rewrite insert_profile_do_nothing_present. reflexivity.
Qed.

(** *** What a call that returns has written *)

Lemma handle_new_user_returned (sync_error : option string) (t t1 : Tables)
    (NEW : AuthUser) (w : list string) :
  handle_new_user sync_error t NEW = Returned t1 w ->
  exists r,
    cast_app_role (COALESCE (get_text (raw_user_meta_data NEW) "role")
                            "student") = Some r
    /\ profiles t1 = insert_profile_do_nothing (new_profile NEW) (profiles t)
    /\ user_roles t1 = insert_role_do_nothing (grant NEW r) (user_roles t).
Proof.
  unfold handle_new_user.
  destruct (cast_app_role _) as [r|] eqn:E; [|discriminate].
  intros H. exists r.
  destruct sync_error; inversion H; subst; cbn; auto.
Qed.

Lemma handle_new_user_131500_returned (sync_error : option string)
    (t t1 : Tables) (NEW : AuthUser) (w : list string) :
  handle_new_user_131500 sync_error t NEW = Returned t1 w ->
  exists r,
    profiles t1 = insert_profile_do_update (new_profile NEW) (profiles t)
    /\ user_roles t1 = insert_role_do_nothing (grant NEW r) (user_roles t)
    /\ forall sync' t',
         exists w',
           handle_new_user_131500 sync' t' NEW
           = Returned
               {| profiles :=
                    insert_profile_do_update (new_profile NEW) (profiles t');
                  user_roles :=
                    insert_role_do_nothing (grant NEW r) (user_roles t');
                  auth_users :=
                    match sync' with
                    | None => sync_role (au_id NEW) (app_role_text r)
                                        (auth_users t')
                    | Some _ => auth_users t'
                    end |}
               w'.
Proof.
  unfold handle_new_user_131500.
  destruct (initial_role_of NEW) as [message|r]; [discriminate|].
  intros H. exists r. split; [|split].
  - destruct sync_error; inversion H; subst; reflexivity.
  - destruct sync_error; inversion H; subst; reflexivity.
  - intros [e|] t'; eexists; reflexivity.
Qed.

Lemma one_profile_row (NEW : AuthUser) (t : Tables) :
  unique_profiles t ->
  existsb (same_user (new_profile NEW)) (profiles t) = true ->
  List.length (profile_rows (au_id NEW) t) = 1%nat.
Proof.
  intros Hu Hex. apply Nat.le_antisymm.
  - apply (filter_unique_key Db.prof_user_id _ (au_id NEW)); [|exact Hu].
    intros x Hx. apply String.eqb_eq, Hx.
  - apply filter_exists. exact Hex.
Qed.

Lemma one_grant_row (uid : string) (r : app_role) (t : Tables) :
  unique_grants t -> (List.length (grant_rows uid r t) <= 1)%nat.
Proof.
  intros Hu.
  apply (filter_unique_key (fun g => (role_user_id g, role g)) _ (uid, r));
    [|exact Hu].
  intros x Hx. apply andb_true_iff in Hx. destruct Hx as [H1 H2].
  apply String.eqb_eq in H1. apply app_role_eqb_eq in H2. congruence.
Qed.

Lemma handle_new_user_idempotent (sync sync' : option string) (t : Tables)
    (NEW : AuthUser) :
  unique_profiles t -> unique_grants t ->
  idempotent_on handle_new_user sync sync' t NEW.
Proof.
  intros Hp Hg t1 w1 H1.
  destruct (handle_new_user_returned _ _ _ _ _ H1) as [r [Hc [Hps Hrs]]].
  unfold handle_new_user. rewrite Hc.
  set (t2 := fun au =>
         {| profiles := insert_profile_do_nothing (new_profile NEW) (profiles t1);
            user_roles := insert_role_do_nothing (grant NEW r) (user_roles t1);
            auth_users := au |}).
  assert (Hps2 : forall au, profiles (t2 au) = profiles t1).
  { intros au. cbn. rewrite Hps. apply insert_profile_do_nothing_twice. }
  assert (Hrs2 : forall au, user_roles (t2 au) = user_roles t1).
  { intros au. cbn. rewrite Hrs. apply insert_role_do_nothing_twice. }
  assert (Hall : forall au,
            profiles (t2 au) = profiles t1
            /\ user_roles (t2 au) = user_roles t1
            /\ List.length (profile_rows (au_id NEW) (t2 au)) = 1%nat
            /\ forall r', (List.length (grant_rows (au_id NEW) r' (t2 au)) <= 1)%nat).
  { intros au. split; [apply Hps2|]. split; [apply Hrs2|]. split.
    - apply one_profile_row.
      + unfold unique_profiles. rewrite Hps2, Hps.
        apply insert_profile_do_nothing_unique, Hp.
      + rewrite Hps2, Hps. apply insert_profile_do_nothing_present.
    - intros r'. apply one_grant_row.
      unfold unique_grants. rewrite Hrs2, Hrs.
      apply insert_role_do_nothing_unique, Hg. }
  destruct sync' as [e|]; eexists; eexists; (split; [reflexivity|]);
    apply Hall.
Qed.

Lemma handle_new_user_131500_idempotent (sync sync' : option string)
    (t : Tables) (NEW : AuthUser) :
  unique_profiles t -> unique_grants t ->
  idempotent_on handle_new_user_131500 sync sync' t NEW.
Proof.
  intros Hp Hg t1 w1 H1.
  destruct (handle_new_user_131500_returned _ _ _ _ _ H1)
    as [r [Hps [Hrs Hnext]]].
  destruct (Hnext sync' t1) as [w2 H2].
  eexists; exists w2. split; [exact H2|]. cbn [profiles user_roles].
  assert (Hps2 : insert_profile_do_update (new_profile NEW) (profiles t1)
                 = profiles t1)
    by (rewrite Hps; apply insert_profile_do_update_twice).
  assert (Hrs2 : insert_role_do_nothing (grant NEW r) (user_roles t1)
                 = user_roles t1)
    by (rewrite Hrs; apply insert_role_do_nothing_twice).
  split; [exact Hps2|]. split; [exact Hrs2|]. split.
  - apply one_profile_row.
    + unfold unique_profiles. cbn [profiles]. rewrite Hps2, Hps.
      apply insert_profile_do_update_unique, Hp.
    + cbn [profiles]. rewrite Hps2, Hps.
      apply insert_profile_do_update_present.
  - intros r'. apply one_grant_row.
    unfold unique_grants. cbn [user_roles]. rewrite Hrs2, Hrs.
    apply insert_role_do_nothing_unique, Hg.
Qed.

(** A call that returns keeps the unique constraints, whatever the
    metadata of the new user: no sequence of calls makes a second profile
    row for a user or a second row for a user and a role. *)
Lemma constraints_kept (sync : option string) (t t1 : Tables)
    (NEW : AuthUser) (w : list string) :
  unique_profiles t -> unique_grants t ->
  handle_new_user_131500 sync t NEW = Returned t1 w
  \/ handle_new_user sync t NEW = Returned t1 w ->
  unique_profiles t1 /\ unique_grants t1.
Proof.
  intros Hp Hg [H | H]; unfold unique_profiles, unique_grants.
  - destruct (handle_new_user_131500_returned _ _ _ _ _ H)
      as [r [-> [-> _]]].
    split; [apply insert_profile_do_update_unique, Hp
           | apply insert_role_do_nothing_unique, Hg].
  - destruct (handle_new_user_returned _ _ _ _ _ H) as [r [_ [-> ->]]].
    split; [apply insert_profile_do_nothing_unique, Hp
           | apply insert_role_do_nothing_unique, Hg].
Qed.

(** *** The fixture: a teacher signs up *)

Example teacher_signup :
  handle_new_user None (on_signup new_teacher) new_teacher
  = Returned
      {| profiles :=
           [ {| Db.prof_user_id := "u1"; Db.prof_full_name := "Grace";
                Db.prof_email := "grace@example.org";
                Db.prof_student_id := None; Db.prof_class := None |} ];
         user_roles := [ {| role_user_id := "u1"; role := teacher |} ];
         auth_users :=
           [ {| au_id := "u1"; au_email := "grace@example.org";
                raw_user_meta_data := raw_user_meta_data new_teacher;
                raw_app_metadata := Some [("role", JString "teacher")] |} ] |}
      [].
Proof. reflexivity. Qed.

(** C8. [handle_new_user], as migration 20260117131500 and as migration
    20260117133000 define it, is idempotent: on tables that satisfy their
    unique constraints, a second call for the same new user returns as the
    first did, without an error, and leaves the profiles and the role rows
    as the first call left them; there is one profile row for the user and
    at most one role row for the user and any role. *)
Theorem onAccountCreated_idempotent
    (h : option string -> Tables -> AuthUser -> Outcome)
    (sync sync' : option string) (t : Tables) (NEW : AuthUser) :
  In h [handle_new_user_131500; handle_new_user] ->
  unique_profiles t -> unique_grants t ->
  forall t1 w1,
    h sync t NEW = Returned t1 w1 ->
    exists t2 w2,
      h sync' t1 NEW = Returned t2 w2
      /\ profiles t2 = profiles t1
      /\ user_roles t2 = user_roles t1
      /\ List.length (profile_rows (au_id NEW) t2) = 1%nat
      /\ forall r, (List.length (grant_rows (au_id NEW) r t2) <= 1)%nat.
Proof.
  intros [<- | [<- | []]] Hp Hg.
  - exact (handle_new_user_131500_idempotent sync sync' t NEW Hp Hg).
  - exact (handle_new_user_idempotent sync sync' t NEW Hp Hg).
Qed.

Lemma onAccountCreated_idempotent_witness :
  exists t1 w1 t2 w2,
    handle_new_user None (on_signup new_teacher) new_teacher = Returned t1 w1
    /\ handle_new_user None t1 new_teacher = Returned t2 w2
    /\ profiles t2 = profiles t1
    /\ user_roles t2 = user_roles t1
    /\ List.length (profile_rows "u1" t2) = 1%nat
    /\ forall r, (List.length (grant_rows "u1" r t2) <= 1)%nat.
Proof.
  destruct (onAccountCreated_idempotent handle_new_user None None
              (on_signup new_teacher) new_teacher
              (or_intror (or_introl eq_refl)) (NoDup_nil _) (NoDup_nil _)
              _ _ eq_refl)
    as [t2 [w2 H]].
  eexists; eexists; exists t2, w2. split; [reflexivity | exact H].
Defined.

(** The first two definitions had no [ON CONFLICT] on the profile: a
    second call raised. *)
Example first_definition_twice :
  exists t1,
    handle_new_user_first (on_signup new_teacher) new_teacher = Returned t1 []
    /\ handle_new_user_first t1 new_teacher = Raised duplicate_key
    /\ handle_new_user_131000 None t1 new_teacher = Raised duplicate_key.
Proof. eexists. repeat split. Qed.

(** *** The role of a new user *)

Example principal_signup :
  handle_new_user None (on_signup new_principal) new_principal
  = Raised ("invalid input value for enum app_role: "
            ++ double_quote ++ "principal" ++ double_quote).
Proof. reflexivity. Qed.



(** The earlier definitions raise on a malformed role as well. *)
Lemma malformed_role_raises_before (sync_error : option string) (t : Tables)
    (NEW : AuthUser) (s : string) :
  get_text (raw_user_meta_data NEW) "role" = Some s ->
  cast_app_role s = None ->
  handle_new_user_first t NEW = Raised (invalid_enum s)
  /\ handle_new_user_131000 sync_error t NEW = Raised (invalid_enum s)
  /\ handle_new_user_131500 sync_error t NEW = Raised (invalid_enum s).
Proof.
  intros Hs Hc.
  unfold handle_new_user_first, handle_new_user_131000,
    handle_new_user_131500, initial_role_of.
  rewrite Hs, Hc. repeat split.
Qed.

Example plain_signup :
  exists t',
    handle_new_user None (on_signup new_plain) new_plain = Returned t' []
    /\ user_roles t' = [ {| role_user_id := "u3"; role := student |} ]
    /\ map Db.prof_full_name (profiles t') = ["Bob"].
Proof. eexists. repeat split. Qed.

End Signup.


(* ------------------------------------------------------------------ *)
(** * Further properties of the code *)

(** ** The order of the lists *)

Module Ordering.

Import MoreSpec.

Lemma insert_by_sorted {A} (le : A -> A -> bool) (x : A) (l : list A) :
  (forall a b, le a b = false -> le b a = true) ->
  Sorted (fun a b => le a b = true) l ->
  Sorted (fun a b => le a b = true) (Db.insert_by le x l).
Proof.
  intros Htotal. induction l as [|y l IH]; simpl; intros Hs.
  - repeat constructor.
  - destruct (le x y) eqn:E.
    + constructor; [exact Hs | constructor; exact E].
    + inversion Hs as [|? ? Hl Hhd]; subst.
      constructor; [apply IH, Hl|].
      destruct l as [|z l]; simpl.
      * constructor. apply Htotal, E.
      * destruct (le x z).
        -- constructor. apply Htotal, E.
        -- inversion Hhd; subst. constructor. assumption.
Qed.

Lemma order_by_sorted {A} (le : A -> A -> bool) (l : list A) :
  (forall a b, le a b = false -> le b a = true) ->
  Sorted (fun a b => le a b = true) (Db.order_by le l).
Proof.
  intros Htotal. induction l as [|x l IH]; simpl.
  - constructor.
  - apply insert_by_sorted; assumption.
Qed.

Lemma later_first_total (a b : option Z) :
  ReportCard.later_first a b = false -> ReportCard.later_first b a = true.
Proof.
  destruct a as [x|], b as [y|]; simpl; intros H;
    try discriminate; try reflexivity.
  apply Z.leb_le. apply Z.leb_gt in H. lia.
Qed.

Lemma later_first_trans (a b c : option Z) :
  ReportCard.later_first a b = true -> ReportCard.later_first b c = true ->
  ReportCard.later_first a c = true.
Proof.
  destruct a as [x|], b as [y|], c as [z|]; simpl; intros H1 H2;
    try discriminate; try reflexivity.
  apply Z.leb_le. apply Z.leb_le in H1, H2. lia.
Qed.

Lemma StronglySorted_flat_map {A B} (R : A -> A -> Prop) (S : B -> B -> Prop)
    (f : A -> list B) (l : list A) :
  (forall a, f a = [] \/ exists b, f a = [b]) ->
  (forall a b a' b', R a b -> In a' (f a) -> In b' (f b) -> S a' b') ->
  StronglySorted R l ->
  StronglySorted S (flat_map f l).
Proof.
  intros Hone Hkeep. induction 1 as [|a l Hl IH Hall]; simpl.
  - constructor.
  - destruct (Hone a) as [E | [a' E]]; rewrite E; simpl; [exact IH|].
    constructor; [exact IH|].
    apply Forall_forall. intros b' Hb'. apply in_flat_map in Hb'.
    destruct Hb' as [b [Hb Hin]].
    rewrite Forall_forall in Hall.
    apply (Hkeep a b a' b' (Hall b Hb)); [rewrite E; left; reflexivity|].
    exact Hin.
Qed.

Lemma StronglySorted_impl {A} (R S : A -> A -> Prop) (l : list A) :
  (forall a b, R a b -> S a b) -> StronglySorted R l -> StronglySorted S l.
Proof.
  intros HRS. induction 1 as [|a l Hl IH Hall]; constructor.
  - exact IH.
  - eapply Forall_impl; [|exact Hall]. intros b. apply HRS.
Qed.

(** X1. The results list and the rows of the report card are ordered
    latest first; on the report card a submission without [submitted_at]
    comes before the others. *)
Theorem lists_latest_first (failed profile_failed results_failed : bool)
    (db : Db.t) (user : string) :
  latest_first (StudentResults.fetchResults failed db user)
  /\ latest_first_rows
       (ReportCard.results
          (ReportCard.fetchReportData profile_failed results_failed db user)).
Proof.
  split.
  - unfold latest_first, StudentResults.fetchResults.
    destruct failed; [constructor|].
    unfold StudentResults.select_results.
    eapply StronglySorted_impl;
      [| apply Sorted_StronglySorted;
         [| apply (order_by_sorted
                     (fun a b => (StudentResults.submitted_at b
                                  <=? StudentResults.submitted_at a)%Z)) ] ].
    + intros a b H. apply Z.leb_le, H.
    + intros a b c H1 H2. apply Z.leb_le. apply Z.leb_le in H1, H2. lia.
    + intros a b H. apply Z.leb_le. apply Z.leb_gt in H. lia.
  - unfold latest_first_rows, ReportCard.fetchReportData.
    cbn [ReportCard.results]. unfold ReportCard.validResults.
    apply (StronglySorted_flat_map
             (fun a b => ReportCard.later_first
                           (Db.sub_submitted_at (fst a))
                           (Db.sub_submitted_at (fst b)) = true)).
    + intros a. destruct (snd a); [right; eexists | left]; reflexivity.
    + intros a b a' b' HR Ha Hb.
      destruct (snd a); [|destruct Ha]. destruct (snd b); [|destruct Hb].
      destruct Ha as [<- | []]. destruct Hb as [<- | []].
      cbn [ReportCard.submitted_at].
      destruct (Db.sub_submitted_at (fst a)), (Db.sub_submitted_at (fst b));
        simpl in HR; try discriminate; try exact I.
      apply Z.leb_le, HR.
    + destruct results_failed; [constructor|].
      unfold ReportCard.select_graded.
      apply Sorted_StronglySorted.
      * intros a b c. apply later_first_trans.
      * apply (order_by_sorted
                 (fun a b => ReportCard.later_first
                               (Db.sub_submitted_at (fst a))
                               (Db.sub_submitted_at (fst b)))).
        intros a b. apply later_first_total.
Qed.

End Ordering.

(* ------------------------------------------------------------------ *)
(** ** Percentages and letters *)

Module Percentages.

Import MoreSpec.
Import ReportCard.

Lemma round_in_range (q : Q) :
  0 <= q -> q <= 100 -> (0 <= Qfloor (q + (1 # 2)) <= 100)%Z.
Proof.
  intros H0 H100. split.
  - change 0%Z with (Qfloor 0). apply Qfloor_resp_le. lra.
  - change 100%Z with (Qfloor (201 # 2)). apply Qfloor_resp_le. lra.
Qed.

(** The percentage of one result, as the three pages compute it: the
    quotient is rounded to a number between 0 and 1, the product to a
    number between 0 and 100. *)
Lemma percentage_of_result (total max : Q) :
  0 <= total -> total <= max -> 0 < max ->
  whole_percentage (Math_round (mul (div (Fin total) (Fin max)) (Fin 100))).
Proof.
  intros H0 Hle Hmax. unfold div.
  rewrite (Qeq_bool_false max 0) by lra.
  destruct (Binary64.round64_bounded (total / max) 1)
    as [x [Ex [Hx0 Hx1]]].
  - vm_compute. reflexivity.
  - apply Qle_shift_div_l; lra.
  - apply Qle_shift_div_r; lra.
  - rewrite Ex. unfold mul.
    destruct (Binary64.round64_bounded (x * 100) 100)
      as [y [Ey [Hy0 Hy1]]]; [vm_compute; reflexivity | lra | lra |].
    rewrite Ey. unfold Math_round.
    eexists. split; [|reflexivity]. apply round_in_range; assumption.
Qed.

(** A sum that has left the finite numbers stays where it is. *)
Lemma sum_stays_infinite (column : ResultRow -> Q) (rows : list ResultRow)
    (x : number) :
  (forall q, x <> Fin q) ->
  fold_left (fun sum r => add sum (Fin (or0 (column r)))) rows x = x.
Proof.
  intros Hx. induction rows as [|r rows IH]; [reflexivity|].
  cbn [fold_left].
  assert (E : add x (Fin (or0 (column r))) = x).
  { destruct x as [q| | |]; [destruct (Hx q); reflexivity | | |];
      reflexivity. }
  rewrite E. exact IH.
Qed.

(** While the sum of the maxima is finite, the sum of the scores is
    finite and not above it. *)
Lemma sums_in_order (rows : list ResultRow) :
  (forall r, In r rows ->
             0 <= total_score r /\ total_score r <= max_score r) ->
  forall a b m : Q,
    0 <= a -> a <= b ->
    fold_left (fun sum r => add sum (Fin (or0 (max_score r)))) rows (Fin b)
    = Fin m ->
    exists t,
      fold_left (fun sum r => add sum (Fin (or0 (total_score r)))) rows
                (Fin a) = Fin t
      /\ 0 <= t /\ t <= m.
Proof.
  induction rows as [|r rows IH]; intros Hrows a b m Ha Hab Hm.
  - cbn [fold_left] in *. assert (b = m) by congruence. subst m.
    exists a. auto.
  - cbn [fold_left] in *.
    destruct (Hrows r (or_introl eq_refl)) as [Hr0 Hr1].
    pose proof (or0_eq (total_score r)) as Et.
    pose proof (or0_eq (max_score r)) as Em.
    change (add (Fin b) (Fin (or0 (max_score r))))
      with (round64 (b + or0 (max_score r))) in Hm.
    change (add (Fin a) (Fin (or0 (total_score r))))
      with (round64 (a + or0 (total_score r))).
    destruct (round64 (b + or0 (max_score r))) as [b2| | |] eqn:Eb.
    + destruct (Binary64.round64_mono (a + or0 (total_score r))
                  (b + or0 (max_score r)) b2) as [a2 [Ea [Ha0 Ha2]]];
        [lra | lra | exact Eb |].
      rewrite Ea. apply (IH (fun r' H => Hrows r' (or_intror H)) a2 b2 m);
        assumption.
    + rewrite sum_stays_infinite in Hm by discriminate. discriminate Hm.
    + rewrite sum_stays_infinite in Hm by discriminate. discriminate Hm.
    + rewrite sum_stays_infinite in Hm by discriminate. discriminate Hm.
Qed.

(** X3. When every row has [0 <= total_score <= max_score] and the sum
    of the maxima does not overflow, the aggregate of the report card is
    a whole number between 0 and 100. *)
Theorem aggregate_in_range (data : ReportCardData) :
  (forall r, In r (results data) ->
             0 <= total_score r /\ total_score r <= max_score r) ->
  (exists m, totalMax (calculateStats data) = Fin m) ->
  whole_percentage (average (calculateStats data)).
Proof.
  intros Hrows [m Hm].
  destruct data as [p [|r rs]].
  - exists 0%Z. split; [lia | reflexivity].
  - rewrite Scoring.calculateStats_cons. cbv zeta. cbn [average].
    unfold calculateStats in *. cbn [results totalObtained totalMax] in *.
    destruct (sums_in_order (r :: rs) Hrows 0 0 m) as [t [Et [Ht0 Htm]]];
      [lra | lra | exact Hm |].
    rewrite Et, Hm. unfold average_of, gt.
    destruct (Qlt_bool 0 m) eqn:E.
    + apply Qlt_bool_iff in E. apply percentage_of_result; lra.
    + exists 0%Z. split; [lia | reflexivity].
Qed.

Lemma aggregate_in_range_witness :
  whole_percentage (average (calculateStats ScoringSpec.two_exams)).
Proof.
  apply aggregate_in_range.
  - simpl. intros r [<- | [<- | []]]; simpl; split; discriminate.
  - exists 20. vm_compute. reflexivity.
Defined.

(** X4. For a result with [0 <= total_score <= max_score] and
    [max_score > 0], the results list (when the exam is published), the
    row of the report card and the summary of the submission show the
    same percentage, a whole number between 0 and 100. *)
Theorem result_percentage_in_range (total max : Q)
    (result : StudentResults.Result) (row : ResultRow)
    (s : SubmissionDetail.Submission) :
  0 <= total -> total <= max -> 0 < max ->
  StudentResults.total_score result = total ->
  StudentResults.max_score result = max ->
  total_score row = total -> max_score row = max ->
  SubmissionDetail.s_total_score s = total ->
  SubmissionDetail.s_max_score s = max ->
  whole_percentage (row_percentage (render_row row))
  /\ SubmissionSummary.shown_percentage (SubmissionSummary.score_block s)
     = row_percentage (render_row row)
  /\ (card_percentage (StudentResults.render_result result) = None
      \/ card_percentage (StudentResults.render_result result)
         = Some (row_percentage (render_row row))).
Proof.
  intros H0 Hle Hmax Hr1 Hr2 Hw1 Hw2 Hs1 Hs2.
  unfold render_row, SubmissionSummary.score_block, card_percentage,
    StudentResults.render_result.
  cbn [row_percentage SubmissionSummary.shown_percentage
       StudentResults.card_score].
  rewrite Hr1, Hr2, Hw1, Hw2, Hs1, Hs2.
  split; [apply percentage_of_result; assumption|].
  split; [reflexivity|].
  destruct (match StudentResults.exam result with
            | Some e => StudentResults.results_published e
            | None => false
            end); [right | left]; reflexivity.
Qed.

Lemma result_percentage_in_range_witness :
  whole_percentage
    (row_percentage (render_row (hd ScoringSpec.no_marks_row
                                    ScoringSpec.uneven_exams)))
  /\ SubmissionSummary.shown_percentage
       (SubmissionSummary.score_block
          {| SubmissionDetail.s_id := "s1"; SubmissionDetail.s_exam_id := "e1";
             SubmissionDetail.s_student_id := "stu1";
             SubmissionDetail.s_started_at := 0%Z;
             SubmissionDetail.s_submitted_at := Some 1%Z;
             SubmissionDetail.s_total_score := 10;
             SubmissionDetail.s_max_score := 10;
             SubmissionDetail.s_is_graded := true;
             SubmissionDetail.s_exam := None;
             SubmissionDetail.student_profile := None |})
     = row_percentage (render_row (hd ScoringSpec.no_marks_row
                                      ScoringSpec.uneven_exams))
  /\ (card_percentage
        (StudentResults.render_result
           {| StudentResults.id := "s1"; StudentResults.exam_id := "e1";
              StudentResults.submitted_at := 1%Z;
              StudentResults.total_score := 10;
              StudentResults.max_score := 10;
              StudentResults.is_graded := true;
              StudentResults.exam := None |}) = None
      \/ card_percentage
           (StudentResults.render_result
              {| StudentResults.id := "s1"; StudentResults.exam_id := "e1";
                 StudentResults.submitted_at := 1%Z;
                 StudentResults.total_score := 10;
                 StudentResults.max_score := 10;
                 StudentResults.is_graded := true;
                 StudentResults.exam := None |})
         = Some (row_percentage (render_row (hd ScoringSpec.no_marks_row
                                                ScoringSpec.uneven_exams)))).
Proof.
  apply (result_percentage_in_range 10 10);
    try reflexivity; discriminate.
Defined.

(** *** The letter of the list and the letter of the report card *)

Lemma round_ge (t : Z) (q : Q) :
  Qle_bool (inject_Z t) (inject_Z (Qfloor (q + (1 # 2)))) = true
  <-> inject_Z t - (1 # 2) <= q.
Proof.
  rewrite Qle_bool_iff. split; intros H.
  - assert (inject_Z (Qfloor (q + (1 # 2))) <= q + (1 # 2))
      by apply Qfloor_le.
    lra.
  - rewrite <- Zle_Qle. rewrite <- (Qfloor_Z t).
    apply Qfloor_resp_le. lra.
Qed.

Lemma round_lt (t : Z) (q : Q) :
  Qle_bool (inject_Z t) (inject_Z (Qfloor (q + (1 # 2)))) = false
  <-> q < inject_Z t - (1 # 2).
Proof.
  split; intros H.
  - apply Qnot_le_lt. intros Hle. apply round_ge in Hle. congruence.
  - destruct (Qle_bool _ _) eqn:E; [|reflexivity].
    apply round_ge in E. lra.
Qed.

Ltac thresholds q :=
  repeat match goal with
    | |- context [Qle_bool ?k (inject_Z (Qfloor (q + (1 # 2))))] =>
        let E := fresh "R" in
        destruct (Qle_bool k (inject_Z (Qfloor (q + (1 # 2))))) eqn:E;
        [apply (round_ge (Qnum k) q) in E | apply (round_lt (Qnum k) q) in E]
    | |- context [Qle_bool ?k q] =>
        let E := fresh "E" in
        destruct (Qle_bool k q) eqn:E;
        [apply Qle_bool_iff in E | apply Qle_bool_false in E]
    end.

(** The letter of a percentage and the letter of the rounded
    percentage. *)
Lemma letters_of_percentage (q : Q) :
  (rank (StudentResults.grade (StudentResults.getGrade (Fin q)))
   <= rank (StudentResults.grade
              (StudentResults.getGrade (Math_round (Fin q)))))%nat
  /\ (StudentResults.grade (StudentResults.getGrade (Fin q))
      <> StudentResults.grade (StudentResults.getGrade (Math_round (Fin q)))
      <-> ((119 # 2) <= q /\ q < 60)
          \/ ((139 # 2) <= q /\ q < 70)
          \/ ((159 # 2) <= q /\ q < 80)
          \/ ((179 # 2) <= q /\ q < 90)).
Proof.
  unfold StudentResults.getGrade, Math_round.
  rewrite !Scoring.ge_Fin.
  thresholds q; cbn [StudentResults.grade]; cbv [Qnum inject_Z] in *;
    repeat match goal with
      | |- context [rank ?s] =>
          let v := eval vm_compute in (rank s) in change (rank s) with v
      end;
    (split;
     [ first [lia | exfalso; lra]
     | split;
       [ intros Hne; first [exfalso; apply Hne; reflexivity | lra]
       | intros Hq Heq; first [discriminate Heq | lra] ] ]).
Qed.

(** X5. For the same score the letter of the report card is never better
    than the letter of the results list, and the two differ exactly when
    the percentage the page computes, [(score / max) * 100], lies within
    half a point below a threshold: the list rounds the percentage
    before it buckets it, the report card does not. *)
Theorem letters_of_list_and_report_card (score max : Q) :
  (rank (getResultGrade score max) <= rank (list_letter score max))%nat
  /\ (getResultGrade score max <> list_letter score max
      <-> exists pct,
            mul (div (Fin score) (Fin max)) (Fin 100) = Fin pct
            /\ (((119 # 2) <= pct /\ pct < 60)
                \/ ((139 # 2) <= pct /\ pct < 70)
                \/ ((159 # 2) <= pct /\ pct < 80)
                \/ ((179 # 2) <= pct /\ pct < 90))).
Proof.
  rewrite Scoring.getResultGrade_getGrade. unfold list_letter.
  destruct (mul (div (Fin score) (Fin max)) (Fin 100)) as [q| | |].
  - destruct (letters_of_percentage q) as [Hrank Hdiffer].
    split; [exact Hrank|]. rewrite Hdiffer. split.
    + intros H. exists q. split; [reflexivity | exact H].
    + intros [pct [E H]]. assert (q = pct) by congruence. subst pct.
      exact H.
  - split; [apply Nat.le_refl|]. split.
    + intros H. exfalso. apply H. reflexivity.
    + intros [pct [E _]]. discriminate E.
  - split; [apply Nat.le_refl|]. split.
    + intros H. exfalso. apply H. reflexivity.
    + intros [pct [E _]]. discriminate E.
  - split; [apply Nat.le_refl|]. split.
    + intros H. exfalso. apply H. reflexivity.
    + intros [pct [E _]]. discriminate E.
Qed.

(** 26 of 29 and, with the binary64 value of 8.1, 8.1 of 9: a B on the
    report card and an A in the list. *)
Example letters_differ :
  getResultGrade 26 29 = "B" /\ list_letter 26 29 = "A"
  /\ mul (div (Fin (literal (81 # 10))) (Fin 9)) (Fin 100)
     = Fin (6333186975989759 # 70368744177664)
  /\ getResultGrade (literal (81 # 10)) 9 = "B"
  /\ list_letter (literal (81 # 10)) 9 = "A".
Proof. vm_compute. repeat split. Qed.

(** X6. A higher percentage never gets a worse letter. *)
Theorem higher_percentage_no_worse_letter (p q : Q) :
  p <= q ->
  (rank (StudentResults.grade (StudentResults.getGrade (Fin p)))
   <= rank (StudentResults.grade (StudentResults.getGrade (Fin q))))%nat.
Proof.
  intros Hpq. unfold StudentResults.getGrade. rewrite !Scoring.ge_Fin.
  Scoring.bucket p; Scoring.bucket q;
    cbn [StudentResults.grade]; cbn; try lia; exfalso; lra.
Qed.

Lemma higher_percentage_no_worse_letter_witness :
  (rank (StudentResults.grade (StudentResults.getGrade (Fin 59)))
   <= rank (StudentResults.grade (StudentResults.getGrade (Fin 60))))%nat.
Proof.
  apply higher_percentage_no_worse_letter. discriminate.
Defined.

(** *** Subjects *)

(** X7. "Total Subjects" is the number of distinct subjects of the rows:
    the length of any list without repeats that holds exactly the
    subjects of the rows. *)
Theorem total_subjects_counts_distinct (data : ReportCardData)
    (subjects : list string) :
  NoDup subjects ->
  (forall s, In s subjects <->
             exists r, In r (results data) /\ subject (exam r) = s) ->
  total_subjects data = List.length subjects.
Proof.
  intros Hnd Hsame. unfold total_subjects.
  apply Permutation_length, NoDup_Permutation.
  - apply NoDup_nodup.
  - exact Hnd.
  - intros s. rewrite nodup_In, in_map_iff, Hsame.
    split; intros [r [H1 H2]]; exists r; tauto.
Qed.

Lemma total_subjects_counts_distinct_witness :
  total_subjects {| profile := None; results := ScoringSpec.uneven_exams |}
  = List.length ["Science"].
Proof.
  apply total_subjects_counts_distinct.
  - repeat constructor. simpl. tauto.
  - intros s. simpl. split.
    + intros [<- | []]. eexists. split; [left; reflexivity | reflexivity].
    + intros [r [[<- | [<- | []]] <-]]; left; reflexivity.
Defined.

End Percentages.

(* ------------------------------------------------------------------ *)
(** ** Editing and saving grades *)

Module Editing.

Import GradingSpec.
Import GradingMoreSpec.
Import SubmissionDetail.

(** X8. [handleGradeUpdate] touches the grade of the answers with the
    given id and nothing else: the submission, the flags, the number and
    the order of the answers, their ids, texts and questions stay, every
    other answer is kept as it was, and for an id that no answer has the
    state is unchanged. *)
Theorem handleGradeUpdate_only_target (answerId : string) (updates : Updates)
    (st : State) :
  let st' := handleGradeUpdate answerId updates st in
  submission st' = submission st
  /\ loading st' = loading st
  /\ saving st' = saving st
  /\ map (fun a => (id a, question_id a, answer_text a, question a))
         (answers st')
     = map (fun a => (id a, question_id a, answer_text a, question a))
           (answers st)
  /\ (forall a, In a (answers st') -> id a <> answerId -> In a (answers st))
  /\ (~ In answerId (map id (answers st)) -> st' = st).
Proof.
  cbv zeta. unfold handleGradeUpdate. cbn [submission loading saving answers].
  repeat split.
  - rewrite map_map. apply map_ext. intros a.
    destruct (String.eqb (id a) answerId); reflexivity.
  - intros a Ha Hid. apply in_map_iff in Ha. destruct Ha as [b [Hb Hin]].
    destruct (String.eqb (id b) answerId) eqn:E.
    + subst a. cbn [id] in Hid. apply String.eqb_eq in E. contradiction.
    + subst a. exact Hin.
  - intros Hnone. destruct st as [sub l ld sv]. cbn in *. f_equal.
    rewrite <- (map_id l) at 2. apply map_ext_in. intros a Ha.
    destruct (String.eqb (id a) answerId) eqn:E; [|reflexivity].
    apply String.eqb_eq in E. exfalso. apply Hnone. rewrite <- E.
    apply in_map, Ha.
Qed.

Lemma handleGradeUpdate_only_target_witness :
  handleGradeUpdate "a9"
    {| set_is_correct := None; set_marks_awarded := Some (Some 3);
       set_feedback := None |} loaded
  = loaded.
Proof.
  apply (handleGradeUpdate_only_target "a9" _ loaded).
  change (~ In "a9" ["a1"; "a2"]). simpl. intuition discriminate.
Defined.

(** X9. Two edits of the same answer are one edit in which the later
    value of a field wins, and edits of different answers can be made in
    either order. *)
Theorem handleGradeUpdate_composes (i j : string) (first second : Updates)
    (st : State) :
  handleGradeUpdate i second (handleGradeUpdate i first st)
  = handleGradeUpdate i (and_then first second) st
  /\ (i <> j ->
      handleGradeUpdate j second (handleGradeUpdate i first st)
      = handleGradeUpdate i first (handleGradeUpdate j second st)).
Proof.
  unfold handleGradeUpdate. cbn [submission loading saving answers]. split.
  - f_equal. rewrite map_map. apply map_ext. intros a.
    destruct (String.eqb (id a) i) eqn:E; cbn [id]; rewrite E; [|reflexivity].
    unfold and_then, spread. cbn.
    destruct (set_is_correct second), (set_marks_awarded second),
      (set_feedback second); reflexivity.
  - intros Hij. f_equal. rewrite !map_map. apply map_ext. intros a.
    destruct (String.eqb (id a) i) eqn:Ei, (String.eqb (id a) j) eqn:Ej;
      cbn [id]; rewrite ?Ei, ?Ej; try reflexivity.
    apply String.eqb_eq in Ei, Ej. congruence.
Qed.

Lemma handleGradeUpdate_composes_witness :
  marks_onChange "a2" (Some 3) (marks_onChange "a1" (Some 4) loaded)
  = marks_onChange "a1" (Some 4) (marks_onChange "a2" (Some 3) loaded).
Proof.
  apply (proj2 (handleGradeUpdate_composes "a1" "a2" _ _ loaded)).
  discriminate.
Defined.

(** X10. After marks are typed into the input of an answer, the page
    holds them for every answer of that id and the input shows them; an
    emptied input stands for 0; the [max] of the input does not depend on
    what was typed, and no bound is applied to it. *)
Theorem marks_input_shows_what_was_typed (answerId : string)
    (value : option Q) (st : State) (a : Answer) :
  In a (answers (marks_onChange answerId value st)) -> id a = answerId ->
  marks_awarded a = Some (match value with Some v => v | None => 0 end)
  /\ input_value (marks_input a)
     == match value with Some v => v | None => 0 end
  /\ exists before,
       In before (answers st) /\ id before = answerId
       /\ input_max (marks_input a) = input_max (marks_input before)
       /\ is_correct a = is_correct before
       /\ feedback a = feedback before.
Proof.
  unfold marks_onChange, handleGradeUpdate. cbn [answers].
  intros Ha Hid. apply in_map_iff in Ha. destruct Ha as [b [Hb Hin]].
  destruct (String.eqb (id b) answerId) eqn:E.
  - subst a. cbn. split; [reflexivity|]. split.
    + unfold Number. apply or0_eq.
    + exists b. apply String.eqb_eq in E. auto.
  - subst a. apply String.eqb_neq in E. contradiction.
Qed.

Lemma marks_input_shows_what_was_typed_witness :
  marks_awarded overmarked_answer = Some 50
  /\ input_value (marks_input overmarked_answer) == 50
  /\ exists before,
       In before (answers loaded) /\ id before = "a1"
       /\ input_max (marks_input overmarked_answer)
          = input_max (marks_input before)
       /\ is_correct overmarked_answer = is_correct before
       /\ feedback overmarked_answer = feedback before.
Proof.
  apply (marks_input_shows_what_was_typed "a1" (Some 50) loaded
           overmarked_answer).
  - left. reflexivity.
  - reflexivity.
Defined.

End Editing.

(* ------------------------------------------------------------------ *)
(** ** Loading and saving *)

Module Saving.

Import GradingSpec.
Import GradingMoreSpec.
Import SubmissionDetail.

Lemma update_each_tables (faults : Faults) (n : nat) (l : list Answer)
    (db : Db.t) :
  let db' := fst (update_each faults n l db) in
  Db.exams db' = Db.exams db
  /\ Db.questions db' = Db.questions db
  /\ Db.profiles db' = Db.profiles db.
Proof.
  cbv zeta. revert n db.
  induction l as [|a l IH]; intros n db; simpl.
  - auto.
  - destruct (faults n); [simpl; auto|].
    destruct (IH (S n) (update_student_answer db a)) as [H1 [H2 H3]].
    rewrite H1, H2, H3. auto.
Qed.

Lemma saveGrading_tables (faults : Faults) (db : Db.t) (sid : string)
    (st : State) :
  let r := saveGrading faults db sid st in
  Db.exams (db_after r) = Db.exams db
  /\ Db.questions (db_after r) = Db.questions db
  /\ Db.profiles (db_after r) = Db.profiles db.
Proof.
  cbv zeta. unfold saveGrading.
  pose proof (update_each_tables faults 0 (answers st) db) as H.
  cbv zeta in H.
  destruct (update_each faults 0 (answers st) db) as [db1 [error|]];
    cbn [fst] in H.
  - exact H.
  - destruct (faults (List.length (answers st))); [exact H|].
    destruct (fetchData faults _ _ sid st) as [st' loads].
    exact H.
Qed.

Lemma In_firstn {A} (k : nat) (l : list A) (x : A) :
  In x (firstn k l) -> In x l.
Proof.
  revert k. induction l as [|y l IH]; intros [|k] H; simpl in H;
    try contradiction.
  destruct H as [-> | H]; [left; reflexivity | right; apply (IH k), H].
Qed.

Lemma update_answer_row_handed_in (a : Answer) (r : Db.AnswerRow) :
  handed_in (update_answer_row a r) = handed_in r.
Proof.
  unfold update_answer_row.
  destruct (String.eqb (Db.ans_id r) (id a)); reflexivity.
Qed.

Lemma graded_row_handed_in (l : list Answer) (r : Db.AnswerRow) :
  handed_in (graded_row l r) = handed_in r.
Proof.
  unfold graded_row. revert r.
  induction l as [|a l IH]; intros r; simpl.
  - reflexivity.
  - rewrite IH. apply update_answer_row_handed_in.
Qed.

Lemma update_submission_row_attempt (sid : string) (t : Q)
    (s : Db.SubmissionRow) :
  attempt (update_submission_row sid t s) = attempt s.
Proof.
  unfold update_submission_row.
  destruct (String.eqb (Db.sub_id s) sid); reflexivity.
Qed.

(** X11. Whatever fails, a save leaves the exams, the questions and the
    profiles alone, adds and removes no row, changes no answer's id,
    submission, question, text or date and no submission's id, exam,
    student, dates or maximum, and does not touch the answers that are
    not on the page nor the other submissions. *)
Theorem saveGrading_writes_grades_only (faults : Faults) (db : Db.t)
    (sid : string) (st : State) :
  let r := saveGrading faults db sid st in
  Db.exams (db_after r) = Db.exams db
  /\ Db.questions (db_after r) = Db.questions db
  /\ Db.profiles (db_after r) = Db.profiles db
  /\ map handed_in (Db.student_answers (db_after r))
     = map handed_in (Db.student_answers db)
  /\ map attempt (Db.exam_submissions (db_after r))
     = map attempt (Db.exam_submissions db)
  /\ (forall row, In row (Db.student_answers (db_after r)) ->
                  ~ In (Db.ans_id row) (map id (answers st)) ->
                  In row (Db.student_answers db))
  /\ (forall s, In s (Db.exam_submissions (db_after r)) ->
                Db.sub_id s <> sid ->
                In s (Db.exam_submissions db)).
Proof.
  cbv zeta.
  destruct (saveGrading_tables faults db sid st) as [He [Hq Hp]].
  destruct (Grading.saveGrading_spec faults db sid st)
    as [k [Hk [_ [Hrows Hres]]]].
  cbv zeta in *.
  split; [exact He|]. split; [exact Hq|]. split; [exact Hp|].
  split; [|split; [|split]].
  - rewrite Hrows, map_map. apply map_ext. intros row.
    apply graded_row_handed_in.
  - destruct (thrown (saveGrading faults db sid st)).
    + destruct Hres as [_ ->]. reflexivity.
    + destruct Hres as [_ [_ ->]]. rewrite map_map. apply map_ext.
      intros s. apply update_submission_row_attempt.
  - intros row Hrow Hnot. rewrite Hrows in Hrow.
    apply in_map_iff in Hrow. destruct Hrow as [r0 [<- Hin]].
    rewrite (proj1 (Grading.graded_row_keys _ _)) in Hnot.
    rewrite Grading.graded_row_miss; [exact Hin|].
    intros Hx. apply Hnot. apply in_map_iff in Hx.
    destruct Hx as [a [Ha Hl]]. apply in_map_iff. exists a.
    split; [exact Ha|]. exact (In_firstn _ _ _ Hl).
  - intros s Hs Hid.
    destruct (thrown (saveGrading faults db sid st)).
    + destruct Hres as [_ Hsame]. rewrite Hsame in Hs. exact Hs.
    + destruct Hres as [_ [_ Hsubs]]. rewrite Hsubs in Hs.
      apply in_map_iff in Hs. destruct Hs as [s0 [<- Hin]].
      unfold update_submission_row in *.
      destruct (String.eqb (Db.sub_id s0) sid) eqn:E; [|exact Hin].
      apply String.eqb_eq in E. cbn in Hid. contradiction.
Qed.

(** *** Loading *)

Lemma single_map {A B} (f : A -> B) (l : list A) :
  Db.single (map f l) = option_map f (Db.single l).
Proof. destruct l as [|x [|y l]]; reflexivity. Qed.

(** X12. A load always ends with [loading = false], leaves [saving]
    alone and shows at most one error. When the submission cannot be read
    (the request fails, or no row or several rows have the id) the page
    keeps what it held; when only the answers cannot be read the
    submission is shown with the answers held before; a profile that
    cannot be read is no error, the submission is shown without it. *)
Theorem fetchData_outcomes (faults : Faults) (n : nat) (db : Db.t)
    (sid : string) (st : State) :
  let st' := fst (fetchData faults n db sid st) in
  let shown := snd (fetchData faults n db sid st) in
  loading st' = false
  /\ saving st' = saving st
  /\ (shown = [] \/ shown = [load_failed])
  /\ (faults n <> None \/ select_submission db sid = None ->
      submission st' = submission st /\ answers st' = answers st
      /\ shown = [load_failed])
  /\ (faults n = None -> select_submission db sid <> None ->
      faults (n + 2)%nat <> None ->
      submission st' <> None /\ answers st' = answers st
      /\ shown = [load_failed])
  /\ (faults n = None -> select_submission db sid <> None ->
      faults (n + 2)%nat = None ->
      shown = []
      /\ answers st' = select_answers db sid
      /\ exists s, submission st' = Some s
                   /\ (faults (n + 1)%nat <> None -> student_profile s = None)).
Proof.
  cbv zeta. unfold fetchData.
  destruct (faults n) as [e|] eqn:E0;
    [| destruct (select_submission db sid) as [sub|] eqn:Es;
       [destruct (faults (n + 2)%nat) as [e2|] eqn:E2|] ];
    cbn [fst snd loading saving submission answers];
    (split; [reflexivity|]); (split; [reflexivity|]);
    (split; [first [left; reflexivity | right; reflexivity]|]);
    (split;
     [intros [H | H];
      solve [congruence | repeat split; reflexivity]|]);
    (split;
     [intros H1 H2 H3;
      solve [congruence | repeat split; first [reflexivity | discriminate]]|]);
    intros H1 H2 H3; try congruence.
  split; [reflexivity|]. split; [reflexivity|].
  eexists. split; [reflexivity|]. cbn [student_profile].
  destruct (faults (n + 1)%nat); [reflexivity | congruence].
Qed.

(** X13. A page on which the answers could not be loaded still saves: it
    holds no answer, so a save writes no answer, stores a
    [total_score] of 0 and marks the submission graded. *)
Theorem save_without_answers (faults faults' : Faults) (db : Db.t)
    (sid : string) :
  select_submission db sid <> None ->
  answers_request_fails faults ->
  faults' 0%nat = None ->
  let st := fst (fetchData faults 0 db sid initial) in
  let r := saveGrading faults' db sid st in
  submission st <> None
  /\ answers st = []
  /\ thrown r = None
  /\ Db.student_answers (db_after r) = Db.student_answers db
  /\ Db.exam_submissions (db_after r)
     = map (update_submission_row sid 0) (Db.exam_submissions db).
Proof.
  intros Hsub [H0 H2] Hsave. cbv zeta.
  assert (Hpage : submission (fst (fetchData faults 0 db sid initial)) <> None
                  /\ answers (fst (fetchData faults 0 db sid initial)) = []).
  { unfold fetchData. rewrite H0.
    destruct (select_submission db sid) as [sub|]; [|contradiction].
    destruct (faults (0 + 2)%nat) eqn:E2; [|contradiction].
    cbn. split; [discriminate | reflexivity]. }
  destruct Hpage as [Hs Ha].
  split; [exact Hs|]. split; [exact Ha|].
  destruct (Grading.saveGrading_no_fault faults' db sid
              (fst (fetchData faults 0 db sid initial))) as [Hn [Hrows Hsubs]].
  { rewrite Ha. intros k Hk. simpl in Hk.
    assert (k = 0%nat) by lia. subst k. exact Hsave. }
  cbv zeta in *. split; [exact Hn|]. rewrite Hrows, Hsubs, Ha. split.
  - cbn. apply map_id.
  - reflexivity.
Qed.

Lemma save_without_answers_witness :
  let st := fst (fetchData (fun k => if (k =? 2)%nat then Some "timeout"
                                     else None) 0 db0 "sub1" initial) in
  let r := saveGrading no_faults db0 "sub1" st in
  submission st <> None
  /\ answers st = []
  /\ thrown r = None
  /\ Db.student_answers (db_after r) = Db.student_answers db0
  /\ Db.exam_submissions (db_after r)
     = map (update_submission_row "sub1" 0) (Db.exam_submissions db0).
Proof.
  apply save_without_answers.
  - discriminate.
  - split; [reflexivity | discriminate].
  - reflexivity.
Defined.

(** *** Saving, then loading *)

Lemma update_each_no_faults (faults : Faults) (n : nat) (l : list Answer)
    (db : Db.t) :
  (forall k, faults k = None) ->
  update_each faults n l db = (persist l db, None).
Proof.
  intros Hok. revert n db.
  induction l as [|a l IH]; intros n db; simpl.
  - reflexivity.
  - rewrite Hok. apply IH.
Qed.

Lemma select_submission_saved (l : list Answer) (db : Db.t) (sid : string)
    (t : Q) :
  select_submission (update_submission (persist l db) sid t) sid
  = option_map (update_submission_row sid t) (select_submission db sid).
Proof.
  unfold select_submission, update_submission.
  cbn [Db.exam_submissions]. rewrite Grading.persist_exam_submissions.
  rewrite filter_map_comm, single_map; [reflexivity|].
  intros s. unfold update_submission_row.
  destruct (String.eqb (Db.sub_id s) sid) eqn:E; cbn; rewrite ?E; reflexivity.
Qed.

(** X14. When no request fails and the submission exists, a save reports
    success and the page then shows what was saved: the submission as
    graded with the stored total, and every answer with the grade the
    grader gave it. *)
Theorem save_then_load (faults : Faults) (db : Db.t) (sid : string)
    (st : State) (sub : Db.SubmissionRow) :
  (forall k, faults k = None) ->
  select_submission db sid = Some sub ->
  NoDup (map id (answers st)) ->
  let r := saveGrading faults db sid st in
  toasts r = [save_succeeded]
  /\ loading (state_after r) = false
  /\ saving (state_after r) = false
  /\ (exists s, submission (state_after r) = Some s
                /\ s_id s = Db.sub_id sub
                /\ s_is_graded s = true
                /\ s_total_score s = totalScore (answers st)
                /\ s_max_score s = Db.sub_max_score sub)
  /\ answers (state_after r) = select_answers (db_after r) sid
  /\ forall a shown,
       In a (answers st) -> In shown (answers (state_after r)) ->
       id shown = id a ->
       grade_of shown = grade_of a.
Proof.
  intros Hok Hsub Hnd. cbv zeta. unfold saveGrading.
  rewrite (update_each_no_faults faults 0 _ db Hok), Hok.
  unfold fetchData. rewrite !Hok, select_submission_saved, Hsub.
  cbn [option_map db_after state_after toasts with_saving loading saving
       submission answers].
  split; [reflexivity|]. split; [reflexivity|]. split; [reflexivity|].
  split.
  { eexists. split; [reflexivity|]. unfold update_submission_row.
    assert (E : String.eqb (Db.sub_id sub) sid = true).
    { unfold select_submission in Hsub.
      destruct (filter _ (Db.exam_submissions db)) as [|x [|y l]] eqn:F;
        try discriminate.
      inversion Hsub; subst x.
      assert (Hin : In sub (filter (fun s => String.eqb (Db.sub_id s) sid)
                                   (Db.exam_submissions db)))
        by (rewrite F; left; reflexivity).
      apply filter_In in Hin. apply Hin. }
    rewrite E. cbn. repeat split; reflexivity. }
  split; [reflexivity|].
  intros a shown Ha Hshown Hid.
  unfold select_answers in Hshown. apply in_map_iff in Hshown.
  destruct Hshown as [row [<- Hrow]]. cbn [id] in Hid.
  apply in_order_by, filter_In in Hrow. destruct Hrow as [Hrow _].
  unfold update_submission in Hrow. cbn [Db.student_answers] in Hrow.
  rewrite Grading.persist_student_answers in Hrow.
  apply in_map_iff in Hrow. destruct Hrow as [r0 [<- _]].
  rewrite (proj1 (Grading.graded_row_keys _ _)) in Hid.
  destruct (Grading.graded_row_hit _ _ r0 Hnd Ha Hid) as [Hm [Hc Hf]].
  unfold grade_of. cbn [is_correct marks_awarded feedback].
  rewrite Hm, Hc, Hf. reflexivity.
Qed.

Lemma save_then_load_witness :
  let r := saveGrading no_faults db0 "sub1" marked in
  toasts r = [save_succeeded]
  /\ loading (state_after r) = false
  /\ saving (state_after r) = false
  /\ (exists s, submission (state_after r) = Some s
                /\ s_id s = "sub1"
                /\ s_is_graded s = true
                /\ s_total_score s = totalScore (answers marked)
                /\ s_max_score s = 10)
  /\ answers (state_after r) = select_answers (db_after r) "sub1"
  /\ forall a shown,
       In a (answers marked) -> In shown (answers (state_after r)) ->
       id shown = id a ->
       grade_of shown = grade_of a.
Proof.
  apply (save_then_load no_faults db0 "sub1" marked
           {| Db.sub_id := "sub1"; Db.sub_exam_id := "e1";
              Db.sub_student_id := "stu1"; Db.sub_started_at := 0%Z;
              Db.sub_submitted_at := Some 10%Z; Db.sub_total_score := 0;
              Db.sub_max_score := 10; Db.sub_is_graded := false |}).
  - reflexivity.
  - reflexivity.
  - change (NoDup ["a1"; "a2"]).
    repeat constructor; simpl; intuition discriminate.
Defined.

(** *** Saving again *)











End Saving.

(* ------------------------------------------------------------------ *)
(** ** The profile page *)

Module ProfileProps.

Import ProfilePage.

Lemma or_else_empty (a : string) : or_else a "" = a.
Proof.
  unfold or_else. destruct (String.eqb a "") eqn:E; [|reflexivity].
  apply String.eqb_eq in E. congruence.
Qed.

Lemma update_profile_owner (role : option string) (form : ProfileData)
    (now : string) (u v : User) (p : StoredProfile) :
  owned_by v (update_profile role form now u p) = owned_by v p.
Proof.
  unfold update_profile. destruct (owned_by u p); reflexivity.
Qed.

(** X16. Saving the profile writes the name, the time of the update and,
    for a student only, the student id and the class, into the rows of
    the user: it never changes a [user_id] or an email, adds or removes no
    row, leaves the rows of other users as they are, and writes nothing
    when there is no user or the request fails. *)
Theorem handleSubmit_writes (failed : bool) (now : string)
    (role : option string) (user : option User) (table : list StoredProfile)
    (st : State) :
  let table' := fst (fst (handleSubmit failed now role user table st)) in
  map (fun p => (Db.prof_user_id (row p), Db.prof_email (row p))) table'
  = map (fun p => (Db.prof_user_id (row p), Db.prof_email (row p))) table
  /\ (is_student role = false ->
      map (fun p => (Db.prof_student_id (row p), Db.prof_class (row p))) table'
      = map (fun p => (Db.prof_student_id (row p), Db.prof_class (row p)))
            table)
  /\ (forall u p, user = Some u -> In p table' -> owned_by u p = false ->
                  In p table)
  /\ (user = None \/ failed = true -> table' = table).
Proof.
  cbv zeta. unfold handleSubmit.
  destruct user as [u|]; [destruct failed|]; cbn [fst];
    try (repeat split; auto; intros; congruence).
  split; [|split; [|split]].
  - rewrite map_map. apply map_ext. intros p. unfold update_profile.
    destruct (owned_by u p); reflexivity.
  - intros Hrole. rewrite map_map. apply map_ext. intros p.
    unfold update_profile. rewrite Hrole.
    destruct (owned_by u p); reflexivity.
  - intros v p Hv Hp Hown. inversion Hv; subst v.
    apply in_map_iff in Hp. destruct Hp as [p0 [<- Hin]].
    rewrite update_profile_owner in Hown.
    unfold update_profile. rewrite Hown. exact Hin.
  - intros [H | H]; discriminate.
Qed.

(** X17. After a profile was saved, a load shows the saved name; for a
    student it shows the saved student id and class (an absent one as the
    empty text), for any other role the id and class are those from
    before the save; the email shown is the one from before. This holds
    when the user has exactly one profile row and no request fails. *)
Theorem profile_saved_then_loaded (now : string) (role : option string)
    (u : User) (table : list StoredProfile) (st st' : State)
    (p : StoredProfile) :
  Db.single (filter (owned_by u) table) = Some p ->
  let form := formData st in
  let table' := fst (fst (handleSubmit false now role (Some u) table st)) in
  let before := formData (fst (fetchProfile false table u st')) in
  let after := formData (fst (fetchProfile false table' u st')) in
  snd (fetchProfile false table' u st') = []
  /\ full_name after = full_name form
  /\ email after = email before
  /\ (is_student role = true ->
      student_id after = Some (or_empty (student_id form))
      /\ class after = Some (or_empty (class form)))
  /\ (is_student role = false ->
      student_id after = student_id before /\ class after = class before).
Proof.
  intros Hone. cbv zeta. unfold handleSubmit, fetchProfile. cbn [fst].
  rewrite filter_map_comm by (intros q; apply update_profile_owner).
  rewrite Saving.single_map, Hone. cbn [option_map fst snd formData].
  assert (Hown : owned_by u p = true).
  { destruct (filter (owned_by u) table) as [|x [|y l]] eqn:F;
      try discriminate.
    inversion Hone; subst x.
    assert (Hin : In p (filter (owned_by u) table))
      by (rewrite F; left; reflexivity).
    apply filter_In in Hin. apply Hin. }
  unfold update_profile. rewrite Hown.
  cbn [row Db.prof_full_name Db.prof_email Db.prof_student_id Db.prof_class
       full_name email student_id class].
  rewrite or_else_empty.
  repeat split; try reflexivity;
    match goal with H : is_student role = _ |- _ => rewrite H end;
    reflexivity.
Qed.

Lemma profile_saved_then_loaded_witness :
  let table' :=
    fst (fst (handleSubmit false "2026-01-18T09:00:00Z" (Some "student")
                (Some ProfileSpec.ada) ProfileSpec.stored_profiles
                ProfileSpec.filled)) in
  let before :=
    formData (fst (fetchProfile false ProfileSpec.stored_profiles
                     ProfileSpec.ada initial)) in
  let after := formData (fst (fetchProfile false table' ProfileSpec.ada initial)) in
  snd (fetchProfile false table' ProfileSpec.ada initial) = []
  /\ full_name after = "Ada L."
  /\ email after = email before
  /\ (is_student (Some "student") = true ->
      student_id after = Some "STD-001" /\ class after = Some "Grade 10")
  /\ (is_student (Some "student") = false ->
      student_id after = student_id before /\ class after = class before).
Proof.
  exact (profile_saved_then_loaded "2026-01-18T09:00:00Z" (Some "student")
           ProfileSpec.ada ProfileSpec.stored_profiles ProfileSpec.filled
           initial _ eq_refl).
Defined.

End ProfileProps.

(* ------------------------------------------------------------------ *)
(** ** Roles in the token and in the policies *)

Module Roles.

Import Migrations.
Import Policies.
Import SignupSpec.

Lemma cast_app_role_inv (s : string) (r : app_role) :
  cast_app_role s = Some r -> s = app_role_text r.
Proof.
  unfold cast_app_role.
  destruct (String.eqb s "student") eqn:E1;
    [apply String.eqb_eq in E1; intros H; inversion H; subst; reflexivity|].
  destruct (String.eqb s "teacher") eqn:E2;
    [apply String.eqb_eq in E2; intros H; inversion H; subst; reflexivity|].
  destruct (String.eqb s "admin") eqn:E3;
    [apply String.eqb_eq in E3; intros H; inversion H; subst; reflexivity|].
  discriminate.
Qed.

Lemma admits_some (b : bool) : admits (Some b) = true <-> b = true.
Proof. destruct b; simpl; split; auto; discriminate. Qed.

Lemma admits_or (a b : bool) :
  admits (sql_or (Some a) (Some b)) = true <-> a = true \/ b = true.
Proof. destruct a, b; simpl; split; auto; intros [H | H]; discriminate. Qed.

Lemma some_eq (s t : string) : Some s = Some t <-> s = t.
Proof. split; intros H; [inversion H | subst]; reflexivity. Qed.

Lemma elevated_iff (role : option string) :
  admits (sql_in role ["admin"; "teacher"]) = true
  <-> role = Some "teacher" \/ role = Some "admin".
Proof.
  destruct role as [s|]; cbn [sql_in option_map existsb].
  - rewrite admits_some, !orb_true_iff, !String.eqb_eq, !some_eq.
    split; [intros [H | [H | H]] | intros [H | H]]; auto; discriminate.
  - split; [discriminate | intros [H | H]; discriminate].
Qed.

Lemma is_teacher_iff (jwt : Jwt) :
  admits (is_teacher jwt) = true
  <-> jwt_role jwt = Some "teacher" \/ jwt_role jwt = Some "admin".
Proof.
  unfold is_teacher. destruct (jwt_role jwt) as [s|]; cbn [sql_eq option_map].
  - rewrite admits_or, !String.eqb_eq, !some_eq. reflexivity.
  - split; [discriminate | intros [H | H]; discriminate].
Qed.

Lemma is_admin_iff (jwt : Jwt) :
  admits (is_admin jwt) = true <-> jwt_role jwt = Some "admin".
Proof.
  unfold is_admin. destruct (jwt_role jwt) as [s|]; cbn [sql_eq option_map].
  - rewrite admits_some, String.eqb_eq, some_eq. reflexivity.
  - split; discriminate.
Qed.

Lemma own_or_elevated (mine : bool) (role : option string) :
  admits (sql_or (Some mine) (sql_in role ["admin"; "teacher"])) = true
  <-> mine = true \/ admits (sql_in role ["admin"; "teacher"]) = true.
Proof.
  destruct role as [s|]; cbn [sql_in option_map].
  - rewrite admits_or, admits_some. reflexivity.
  - destruct mine; simpl; split; auto; intros [H | H]; discriminate.
Qed.

(** X18. [is_admin()] and [is_teacher()] read the role of the token: the
    first holds exactly for ['admin'], the second exactly for ['teacher']
    and ['admin'], so whoever passes [is_admin()] passes [is_teacher()];
    a token without a role passes neither (both are null). *)
Theorem token_checks (jwt : Jwt) :
  (admits (is_admin jwt) = true <-> jwt_role jwt = Some "admin")
  /\ (admits (is_teacher jwt) = true
      <-> jwt_role jwt = Some "teacher" \/ jwt_role jwt = Some "admin")
  /\ (admits (is_admin jwt) = true -> admits (is_teacher jwt) = true)
  /\ (jwt_role jwt = None -> is_admin jwt = None /\ is_teacher jwt = None).
Proof.
  split; [apply is_admin_iff|]. split; [apply is_teacher_iff|]. split.
  - intros H. apply is_teacher_iff. right. apply is_admin_iff, H.
  - intros H. unfold is_admin, is_teacher. rewrite H. split; reflexivity.
Qed.

(** X19. The policies on [user_roles] and [profiles] let a request read a
    row exactly when the row is the requester's own or the token passes
    [is_teacher()]: their list [('admin', 'teacher')] and the function
    agree. The insert policy lets a user insert a role row exactly for
    the own id, whatever role the row names. *)
Theorem policies_admit (jwt : Jwt) :
  (forall r, admits (view_roles jwt r) = true
             <-> role_user_id r = uid jwt \/ admits (is_teacher jwt) = true)
  /\ (forall p, admits (view_profiles jwt p) = true
                <-> Db.prof_user_id p = uid jwt
                    \/ admits (is_teacher jwt) = true)
  /\ (forall r, admits (insert_role jwt r) = true
                <-> role_user_id r = uid jwt).
Proof.
  split; [|split].
  - intros r. unfold view_roles.
    rewrite own_or_elevated, elevated_iff, is_teacher_iff, String.eqb_eq.
    split; intros [H | H]; auto.
  - intros p. unfold view_profiles.
    rewrite own_or_elevated, elevated_iff, is_teacher_iff, String.eqb_eq.
    split; intros [H | H]; auto.
  - intros r. unfold insert_role. simpl.
    destruct (String.eqb (uid jwt) (role_user_id r)) eqn:E.
    + apply String.eqb_eq in E. split; auto.
    + apply String.eqb_neq in E. split; [discriminate | congruence].
Qed.

(** X23. The page offers the grading controls to the roles that pass
    [is_teacher()]: for a token that carries the role of the session,
    [isTeacher] on the page and [is_teacher()] in the database agree. *)
Theorem page_and_database_agree (jwt : Jwt) (role : string) :
  jwt_role jwt = Some role ->
  SubmissionDetail.isTeacher role = admits (is_teacher jwt).
Proof.
  intros Hrole. unfold SubmissionDetail.isTeacher, is_teacher.
  rewrite Hrole. cbn [sql_eq option_map].
  destruct (String.eqb role "teacher"), (String.eqb role "admin");
    reflexivity.
Qed.

Lemma page_and_database_agree_witness :
  SubmissionDetail.isTeacher "admin"
  = admits (is_teacher {| uid := "u9";
                          app_metadata := Some [("role", JString "admin")] |}).
Proof.
  apply page_and_database_agree. reflexivity.
Defined.

(** *** The role the trigger puts into the token *)

Lemma find_app {A} (p : A -> bool) (l l' : list A) :
  find p (l ++ l')%list
  = match find p l with Some x => Some x | None => find p l' end.
Proof.
  induction l as [|x l IH]; simpl; [reflexivity|].
  destruct (p x); [reflexivity | exact IH].
Qed.

Lemma find_filter_none {A} (p q : A -> bool) (l : list A) :
  (forall x, q x = true -> p x = false) -> find p (filter q l) = None.
Proof.
  intros H. induction l as [|x l IH]; simpl; [reflexivity|].
  destruct (q x) eqn:E; [|exact IH]. simpl. rewrite (H x E). exact IH.
Qed.

Lemma find_filter_same {A} (p q : A -> bool) (l : list A) :
  (forall x, p x = true -> q x = true) -> find p (filter q l) = find p l.
Proof.
  intros H. induction l as [|x l IH]; simpl; [reflexivity|].
  destruct (q x) eqn:E; simpl.
  - destruct (p x); [reflexivity | exact IH].
  - destruct (p x) eqn:P; [|exact IH]. rewrite (H x P) in E. discriminate.
Qed.

Lemma get_text_synced (m : jsonb) (r key : string) :
  get_text (Some (jsonb_concat m [("role", JString r)])) key
  = if String.eqb key "role" then Some r else get_text (Some m) key.
Proof.
  unfold get_text, jsonb_concat. rewrite find_app.
  destruct (String.eqb key "role") eqn:E.
  - apply String.eqb_eq in E. subst key.
    rewrite find_filter_none.
    + cbn [find fst snd jsonb_text]. rewrite String.eqb_refl. reflexivity.
    + intros kv Hkv. cbn [existsb fst] in Hkv. apply negb_true_iff in Hkv.
      rewrite orb_false_r in Hkv. rewrite String.eqb_sym. exact Hkv.
  - rewrite find_filter_same.
    + destruct (find _ m); [reflexivity|]. cbn [find fst].
      rewrite String.eqb_sym, E. reflexivity.
    + intros kv Hkv. cbn [existsb fst]. apply String.eqb_eq in Hkv.
      rewrite Hkv, String.eqb_sym, E. reflexivity.
Qed.

(** X20. When the trigger returns and the sync worked, the token of the
    new user carries the role of the role row that was written: it passes
    [is_teacher()] exactly when that role is teacher or admin and
    [is_admin()] exactly when it is admin; the other keys of the app
    metadata are kept. *)
Theorem synced_role_is_in_token (t t' : Tables) (NEW : AuthUser)
    (w : list string) (u' : AuthUser) :
  handle_new_user None t NEW = Returned t' w ->
  In u' (auth_users t') -> au_id u' = au_id NEW ->
  exists r u,
    In (grant NEW r) (user_roles t')
    /\ jwt_role (jwt_of u') = Some (app_role_text r)
    /\ (admits (is_teacher (jwt_of u')) = true <-> r = teacher \/ r = admin)
    /\ (admits (is_admin (jwt_of u')) = true <-> r = admin)
    /\ In u (auth_users t) /\ au_id u = au_id NEW
    /\ forall key, key <> "role" ->
         get_text (raw_app_metadata u') key = get_text (raw_app_metadata u) key.
Proof.
  unfold handle_new_user.
  set (text := COALESCE (get_text (raw_user_meta_data NEW) "role") "student").
  destruct (cast_app_role text) as [r|] eqn:Ec; [|discriminate].
  intros H Hu' Hid. inversion H; subst t' w. clear H.
  cbn [auth_users user_roles] in *.
  unfold sync_role in Hu'. apply in_map_iff in Hu'.
  destruct Hu' as [u [Hu Hin]].
  assert (E : String.eqb (au_id u) (au_id NEW) = true).
  { destruct (String.eqb (au_id u) (au_id NEW)) eqn:E; [reflexivity|].
    subst u'. apply String.eqb_neq in E. contradiction. }
  rewrite E in Hu. subst u'.
  apply cast_app_role_inv in Ec.
  assert (Hrole : jwt_role
                    (jwt_of
                       {| au_id := au_id u; au_email := au_email u;
                          raw_user_meta_data := raw_user_meta_data u;
                          raw_app_metadata :=
                            Some (jsonb_concat (COALESCE (raw_app_metadata u) [])
                                               [("role", JString text)]) |})
                  = Some (app_role_text r)).
  { unfold jwt_role, jwt_of. cbn [app_metadata raw_app_metadata].
    rewrite get_text_synced. cbn. rewrite Ec. reflexivity. }
  exists r, u. split; [apply Signup.insert_role_do_nothing_in|].
  split; [exact Hrole|]. split; [|split; [|split; [|split]]].
  - rewrite is_teacher_iff, Hrole.
    destruct r; cbn; split; intros [H | H]; auto; discriminate.
  - rewrite is_admin_iff, Hrole.
    destruct r; cbn; split; intros H; auto; discriminate.
  - exact Hin.
  - apply String.eqb_eq, E.
  - intros key Hkey. cbn [raw_app_metadata]. rewrite get_text_synced.
    rewrite (proj2 (String.eqb_neq key "role") Hkey).
    destruct (raw_app_metadata u); reflexivity.
Qed.

Lemma synced_role_is_in_token_witness :
  exists t' w u' r u,
    handle_new_user None (on_signup new_teacher) new_teacher = Returned t' w
    /\ In u' (auth_users t')
    /\ In (grant new_teacher r) (user_roles t')
    /\ jwt_role (jwt_of u') = Some (app_role_text r)
    /\ (admits (is_teacher (jwt_of u')) = true <-> r = teacher \/ r = admin)
    /\ (admits (is_admin (jwt_of u')) = true <-> r = admin)
    /\ In u (auth_users (on_signup new_teacher)) /\ au_id u = au_id new_teacher
    /\ forall key, key <> "role" ->
         get_text (raw_app_metadata u') key = get_text (raw_app_metadata u) key.
Proof.
  eexists; eexists; eexists.
  destruct (synced_role_is_in_token (on_signup new_teacher) _ new_teacher _ _
              eq_refl (or_introl eq_refl) eq_refl) as [r [u H]].
  exists r, u. split; [reflexivity|]. split; [left; reflexivity|]. exact H.
Defined.

(** X21. A sync that fails does not fail the signup: the trigger returns
    as it does when the sync works, with the same profiles and role rows,
    [auth.users] untouched and one warning. In the definition of
    migration 20260117131000 the same failure made the trigger raise. *)
Theorem failed_sync_is_absorbed (SQLERRM : string) (t : Tables)
    (NEW : AuthUser) :
  (forall t' w,
     handle_new_user None t NEW = Returned t' w ->
     exists warning,
       handle_new_user (Some SQLERRM) t NEW
       = Returned {| profiles := profiles t'; user_roles := user_roles t';
                     auth_users := auth_users t |} [warning])
  /\ (forall message,
        handle_new_user None t NEW = Raised message ->
        handle_new_user (Some SQLERRM) t NEW = Raised message)
  /\ (forall t' w, handle_new_user_131000 (Some SQLERRM) t NEW
                   <> Returned t' w).
Proof.
  unfold handle_new_user, handle_new_user_131000. split; [|split].
  - intros t' w. destruct (cast_app_role _); [|discriminate].
    intros H. inversion H; subst. eexists. reflexivity.
  - intros message. destruct (cast_app_role _); [discriminate|].
    intros H. exact H.
  - intros t' w. destruct (initial_role_of NEW); [discriminate|].
    destruct (insert_profile _ _); discriminate.
Qed.

(** X22. A signup only adds: the profiles and the role rows that were
    there stay, in place and unchanged (a profile the user already has is
    not overwritten); at most one profile and one role row are appended,
    both for the new user; in [auth.users] only rows of the new user
    change. *)
Theorem signup_only_adds (sync : option string) (t t' : Tables)
    (NEW : AuthUser) (w : list string) :
  handle_new_user sync t NEW = Returned t' w ->
  (profiles t' = profiles t
   \/ profiles t' = (profiles t ++ [new_profile NEW])%list)
  /\ (user_roles t' = user_roles t
      \/ exists r, user_roles t' = (user_roles t ++ [grant NEW r])%list)
  /\ map au_id (auth_users t') = map au_id (auth_users t)
  /\ forall u, In u (auth_users t') -> au_id u <> au_id NEW ->
               In u (auth_users t).
Proof.
  unfold handle_new_user.
  destruct (cast_app_role _) as [r|]; [|discriminate].
  intros H.
  assert (Hp : profiles t' = insert_profile_do_nothing (new_profile NEW)
                               (profiles t))
    by (destruct sync; inversion H; reflexivity).
  assert (Hr : user_roles t' = insert_role_do_nothing (grant NEW r)
                                 (user_roles t))
    by (destruct sync; inversion H; reflexivity).
  assert (Ha : auth_users t' = auth_users t
               \/ exists text, auth_users t'
                               = sync_role (au_id NEW) text (auth_users t)).
  { destruct sync; inversion H; [left | right; eexists]; reflexivity. }
  split; [|split; [|split]].
  - rewrite Hp. unfold insert_profile_do_nothing.
    destruct (existsb _ _); [left | right]; reflexivity.
  - rewrite Hr. unfold insert_role_do_nothing.
    destruct (existsb _ _); [left | right; exists r]; reflexivity.
  - destruct Ha as [-> | [text ->]]; [reflexivity|].
    unfold sync_role. rewrite map_map. apply map_ext. intros u.
    destruct (String.eqb (au_id u) (au_id NEW)); reflexivity.
  - intros u Hu Hid. destruct Ha as [Ha | [text Ha]]; rewrite Ha in Hu;
      [exact Hu|].
    unfold sync_role in Hu. apply in_map_iff in Hu.
    destruct Hu as [u0 [<- Hin]].
    destruct (String.eqb (au_id u0) (au_id NEW)) eqn:E; [|exact Hin].
    apply String.eqb_eq in E. cbn in Hid. contradiction.
Qed.

Lemma signup_only_adds_witness :
  exists t' w,
    handle_new_user None (on_signup new_teacher) new_teacher = Returned t' w
    /\ (profiles t' = profiles (on_signup new_teacher)
        \/ profiles t'
           = (profiles (on_signup new_teacher) ++ [new_profile new_teacher])%list)
    /\ (user_roles t' = user_roles (on_signup new_teacher)
        \/ exists r,
             user_roles t'
             = (user_roles (on_signup new_teacher) ++ [grant new_teacher r])%list)
    /\ map au_id (auth_users t') = map au_id (auth_users (on_signup new_teacher))
    /\ forall u, In u (auth_users t') -> au_id u <> au_id new_teacher ->
                 In u (auth_users (on_signup new_teacher)).
Proof.
  eexists; eexists. split; [reflexivity|].
  exact (signup_only_adds None (on_signup new_teacher) _ new_teacher _ eq_refl).
Defined.

End Roles.
